(** * FileIOHelper.assemble_article_data: a shallow embedding

    Source: [src/frontend/storm_wiki/util/file_io.py].

    The development models the article assembler of [FileIOHelper]
    ([assemble_article_data]) and the secondary citation helper
    ([_construct_citation_dict_from_search_result]), and, for the further
    properties, [read_structure_to_dict],
    [get_latest_modification_time], [read_image_as_base64] and
    [get_output_dir]:

    - Python [str] values are lists of Unicode code points, so slicing and
      [len] count characters and not bytes;
    - values produced by [json.load] and the dictionaries built by the code
      are terms of [pyval]; a [dict] is an association list in insertion
      order;
    - the regular expression of the title removal is run by a small
      backtracking matcher, and [re.sub] by a left-to-right scan;
    - file reads, [print]ed diagnostics and exceptions are threaded through
      a state-and-error monad. *)

From Stdlib Require Import String Ascii.

From Stdlib Require Import List ZArith NArith Lia Bool.

From Stdlib Require Import Floats.SpecFloat Numbers.DecimalString.

From Stdlib Require Strings.Byte.

Import ListNotations.

Set Implicit Arguments.

Set Warnings "-register-all".

(* ===================================================================== *)
(** ** Python strings *)
(* ===================================================================== *)

(** A character is a Unicode code point. *)
Definition char := N.

Definition pystr := list char.

(** A literal of the source, written as a Rocq string of ASCII characters. *)
Definition lit (s : string) : pystr :=
  map N_of_ascii (list_ascii_of_string s).

Definition nl : char := 10%N.      (* "\n" *)

Definition hash : char := 35%N.    (* "#"  *)

Definition str_eqb (a b : pystr) : bool :=
  if list_eq_dec N.eq_dec a b then true else false.

(** [a.startswith(p)] *)
Fixpoint startswith (p a : pystr) : bool :=
  match p, a with
  | [], _ => true
  | c :: p', d :: a' => N.eqb c d && startswith p' a'
  | _ :: _, [] => false
  end.

(** [a.endswith(p)] *)
Definition endswith (p a : pystr) : bool :=
  startswith (rev p) (rev a).

(** [p in a] for two strings: substring test. *)
Fixpoint str_contains (p a : pystr) : bool :=
  startswith p a ||
  match a with
  | [] => false
  | _ :: a' => str_contains p a'
  end.

(** [s[:n]] for a non-negative constant [n]. *)
Definition slice_to (n : nat) (s : pystr) : pystr := firstn n s.

(** [str(n)] for an [int], in decimal. (The limit of recent interpreters
    on the number of digits, which [json.load] meets first, is not
    modelled.) *)
Definition str_of_int (n : Z) : pystr :=
  lit (NilEmpty.string_of_int (Z.to_int n)).

(* ===================================================================== *)
(** ** Regular expressions: the fragment used by the title pattern *)
(* ===================================================================== *)

Module Re.

(** One item of a pattern: the anchor [^] under [re.MULTILINE], or a
    greedy repetition [cls{lo,hi}] of a character class ([hi = None] for an
    unbounded repetition). *)
Inductive item :=
| Bol
| Rep (cls : char -> bool) (lo : nat) (hi : option nat).

Definition pattern := list item.

(** [^] with [re.MULTILINE]: at the start of the string and right after
    each newline. [prev] is the character before the position. *)
Definition at_bol (prev : option char) : bool :=
  match prev with
  | None => true
  | Some c => N.eqb c nl
  end.

(** Greedy repetition with backtracking: take one more character of the
    class while allowed, and fall back to the continuation [k] at the
    current position when the longer attempt fails. The result is the
    number of characters matched from the current position on. *)
Fixpoint rep (cls : char -> bool) (k : option char -> pystr -> option nat)
    (lo hi : nat) (prev : option char) (s : pystr) : option nat :=
  let stop := match lo with O => k prev s | S _ => None end in
  match hi, s with
  | S hi', c :: s' =>
      if cls c then
        match rep cls k (pred lo) hi' (Some c) s' with
        | Some n => Some (S n)
        | None => stop
        end
      else stop
  | _, _ => stop
  end.

(** [pattern.match] at one position. *)
Fixpoint match_here (p : pattern) (prev : option char) (s : pystr)
  : option nat :=
  match p with
  | [] => Some O
  | Bol :: p' => if at_bol prev then match_here p' prev s else None
  | Rep cls lo hi :: p' =>
      rep cls (match_here p') lo
          (match hi with Some h => h | None => List.length s end) prev s
  end.

(** [re.sub(p, "", s)]: scan from the left; where the pattern matches,
    the matched characters are dropped and the scan resumes after them;
    elsewhere the character is kept. [skip] counts the characters of the
    current match still to drop. An empty match is replaced by the empty
    string, which changes nothing. *)
Fixpoint sub_from (p : pattern) (skip : nat) (prev : option char)
    (s : pystr) : pystr :=
  match s with
  | [] => []
  | c :: s' =>
      match skip with
      | S k => sub_from p k (Some c) s'
      | O =>
          match match_here p prev s with
          | Some (S n) => sub_from p n (Some c) s'
          | _ => c :: sub_from p O (Some c) s'
          end
      end
  end.

Definition sub_empty (p : pattern) (s : pystr) : pystr :=
  sub_from p O None s.

End Re.

Definition is_hash (c : char) : bool := N.eqb c hash.

Definition is_nl (c : char) : bool := N.eqb c nl.

Definition not_nl (c : char) : bool := negb (N.eqb c nl).

(** [r"^#{1,3}[^\n]*\n?"] *)
Definition title_re : Re.pattern :=
  [Re.Bol; Re.Rep is_hash 1 (Some 3); Re.Rep not_nl 0 None;
   Re.Rep is_nl 0 (Some 1)].

(** [re.sub(r"^#{1,3}[^\n]*\n?", "", parsed_article_content,
            flags=re.MULTILINE)] *)
Definition remove_title_lines (s : pystr) : pystr :=
  Re.sub_empty title_re s.

(* ===================================================================== *)
(** ** Lines, as the specification speaks of them *)
(* ===================================================================== *)

(** The lines of a text, each with its trailing newline when it has one
    ([str.splitlines(keepends=True)] for the separator "\n"). *)
Fixpoint lines_keepends (s : pystr) : list pystr :=
  match s with
  | [] => []
  | c :: s' =>
      if N.eqb c nl then [c] :: lines_keepends s'
      else match lines_keepends s' with
           | [] => [[c]]
           | l :: ls => (c :: l) :: ls
           end
  end.

(** A line "starts with between 1 and 3 [#] characters followed by
    arbitrary non-newline text": some [k] in 1..3 makes [k] hashes a prefix
    of the line. *)
Definition heading_1_3 (l : pystr) : bool :=
  existsb (fun k => startswith (repeat hash k) l) [1; 2; 3].

(** A line starts with [n] hashes or more. *)
Definition starts_with_hashes (n : nat) (l : pystr) : bool :=
  startswith (repeat hash n) l.

(** The removal as the specification words it: every line matching is
    deleted, with its trailing newline. *)
Definition strip_headings_spec (s : pystr) : pystr :=
  concat (filter (fun l => negb (heading_1_3 l)) (lines_keepends s)).

(* ===================================================================== *)
(** ** Python values *)
(* ===================================================================== *)

(** The values [json.load] produces, and the dictionaries the code builds
    from them. A [dict] lists its items in insertion order; its keys are
    unique for the equality of keys. *)
Inductive pyval :=
| VNone
| VBool (b : bool)
| VInt (n : Z)
| VFloat (f : spec_float)
| VStr (s : pystr)
| VList (l : list pyval)
| VDict (d : list (pyval * pyval)).

(** [bool(v)] *)
Definition truthy (v : pyval) : bool :=
  match v with
  | VNone => false
  | VBool b => b
  | VInt n => negb (Z.eqb n 0)
  | VFloat (S754_zero _) => false
  | VFloat _ => true
  | VStr [] => false
  | VStr _ => true
  | VList [] => false
  | VList _ => true
  | VDict [] => false
  | VDict _ => true
  end.

(** [isinstance(v, int)]: [bool] is a subclass of [int]. *)
Definition isinstance_int (v : pyval) : bool :=
  match v with
  | VBool _ | VInt _ => true
  | _ => false
  end.

(** Lists and dictionaries are not hashable. *)
Definition hashable (v : pyval) : bool :=
  match v with
  | VList _ | VDict _ => false
  | _ => true
  end.

(** The integer an [int] or [bool] stands for. *)
Definition int_value (v : pyval) : option Z :=
  match v with
  | VBool b => Some (Z.b2z b)
  | VInt n => Some n
  | _ => None
  end.

(** A float compared with an integer: equal when it denotes that integer
    exactly. *)
Definition float_eq_int (f : spec_float) (z : Z) : bool :=
  match f with
  | S754_zero _ => Z.eqb z 0
  | S754_finite sg m e =>
      let a := if sg then Z.neg m else Z.pos m in
      if Z.leb 0 e then Z.eqb z (a * 2 ^ e)
      else Z.eqb (z * 2 ^ (- e)) a
  | _ => false
  end.

(** [a == b] for hashable values, as a dictionary compares keys: numbers
    by value across [bool], [int] and [float], strings by content. A
    dictionary tries the identity of the two objects before [==]; for
    every key but a NaN the outcome is that of [==] alone. A NaN equals
    nothing, itself included, so that a dictionary tells two NaN keys
    apart by identity only, which values do not have: keys that are NaN
    are outside this model, and [not_nan] says of a key that it is
    none. *)
Definition key_eqb (a b : pyval) : bool :=
  match a, b with
  | VNone, VNone => true
  | VStr s, VStr t => str_eqb s t
  | VFloat f, VFloat g => SFeqb f g
  | VFloat f, _ =>
      match int_value b with Some z => float_eq_int f z | None => false end
  | _, VFloat g =>
      match int_value a with Some z => float_eq_int g z | None => false end
  | _, _ =>
      match int_value a, int_value b with
      | Some x, Some y => Z.eqb x y
      | _, _ => false
      end
  end.

(** The key is not a NaN: it equals itself. *)
Definition not_nan (k : pyval) : bool := key_eqb k k.

(** Items of a dictionary with typed keys (the file map), and of a
    dictionary of values. *)
Fixpoint str_lookup (A : Type) (k : pystr) (d : list (pystr * A))
  : option A :=
  match d with
  | [] => None
  | (k', v) :: d' => if str_eqb k k' then Some v else str_lookup k d'
  end.

Fixpoint dict_lookup (k : pyval) (d : list (pyval * pyval))
  : option pyval :=
  match d with
  | [] => None
  | (k', v) :: d' => if key_eqb k k' then Some v else dict_lookup k d'
  end.

(** [d[k] = v] on the items: an existing key keeps its place, a new key
    goes last. *)
Fixpoint dict_store (k v : pyval) (d : list (pyval * pyval))
  : list (pyval * pyval) :=
  match d with
  | [] => [(k, v)]
  | (k', v') :: d' =>
      if key_eqb k k' then (k', v) :: d' else (k', v') :: dict_store k v d'
  end.

(** [list(d.keys())] *)
Definition dict_keys (v : pyval) : list pyval :=
  match v with
  | VDict d => map fst d
  | _ => []
  end.

(* ===================================================================== *)
(** ** Exceptions and results *)
(* ===================================================================== *)

(** The exceptions the modelled code can meet; all are subclasses of
    [Exception]. [OSError] stands for every [OSError] (alias [IOError])
    other than [FileNotFoundError]; [ValueError] for a [ValueError] that
    is neither a [UnicodeDecodeError] nor a [json.JSONDecodeError]. The
    message of a [TypeError] is given when the source gives it. *)
Inductive exn :=
| FileNotFoundError
| OSError
| UnicodeDecodeError
| JSONDecodeError
| ValueError
| RecursionError
| OverflowError
| TypeError (msg : option pystr)
| AttributeError
| KeyError (k : pyval)
| IndexError.

(** [isinstance(e, FileNotFoundError)] *)
Definition is_FileNotFoundError (e : exn) : bool :=
  match e with FileNotFoundError => true | _ => false end.

(** [isinstance(e, IOError)]: [FileNotFoundError] is a subclass. *)
Definition is_IOError (e : exn) : bool :=
  match e with FileNotFoundError | OSError => true | _ => false end.

(** [isinstance(e, json.JSONDecodeError)] *)
Definition is_JSONDecodeError (e : exn) : bool :=
  match e with JSONDecodeError => true | _ => false end.

Inductive result (A : Type) :=
| Ok (a : A)
| Raise (e : exn).

Arguments Raise {A} e.

Definition rbind (A B : Type) (c : result A) (k : A -> result B)
  : result B :=
  match c with
  | Ok a => k a
  | Raise e => Raise e
  end.

Declare Scope result_scope.

Delimit Scope result_scope with result.

Notation "x <~ c ;; k" := (rbind c (fun x => k))
  (at level 61, c at next level, right associativity) : result_scope.

(** A [for] loop that builds a list, stopping at the first exception. *)
Fixpoint rmap (A B : Type) (f : A -> result B) (l : list A)
  : result (list B) :=
  match l with
  | [] => Ok []
  | a :: l' =>
      rbind (f a) (fun b => rbind (rmap f l') (fun bs => Ok (b :: bs)))
  end.

(* ===================================================================== *)
(** ** Operations on values that can raise *)
(* ===================================================================== *)

(** The index [i] of a sequence of [n] elements, negative indices counting
    from the end. *)
Definition seq_index (i : Z) (n : nat) : option nat :=
  let i' := if Z.ltb i 0 then (i + Z.of_nat n)%Z else i in
  if Z.leb 0 i' && Z.ltb i' (Z.of_nat n) then Some (Z.to_nat i') else None.

(** [obj[key]] *)
Definition getitem (obj key : pyval) : result pyval :=
  match obj with
  | VDict d =>
      if hashable key then
        match dict_lookup key d with
        | Some v => Ok v
        | None => Raise (KeyError key)
        end
      else Raise (TypeError None)
  | VList l =>
      match int_value key with
      | Some i =>
          match seq_index i (List.length l) with
          | Some n =>
              match nth_error l n with
              | Some v => Ok v
              | None => Raise IndexError
              end
          | None => Raise IndexError
          end
      | None => Raise (TypeError None)
      end
  | VStr s =>
      match int_value key with
      | Some i =>
          match seq_index i (List.length s) with
          | Some n =>
              match nth_error s n with
              | Some c => Ok (VStr [c])
              | None => Raise IndexError
              end
          | None => Raise IndexError
          end
      | None => Raise (TypeError None)
      end
  | _ => Raise (TypeError None)
  end.

(** [obj.get(key, default)] for a string [key]: only a [dict] has the
    method. *)
Definition py_get (obj : pyval) (key : pystr) (default : pyval)
  : result pyval :=
  match obj with
  | VDict d =>
      match dict_lookup (VStr key) d with
      | Some v => Ok v
      | None => Ok default
      end
  | _ => Raise AttributeError
  end.

(** [obj.items()] *)
Definition py_items (obj : pyval) : result (list (pyval * pyval)) :=
  match obj with
  | VDict d => Ok d
  | _ => Raise AttributeError
  end.

(** [key in obj] for a string [key]: a key of a [dict], an element of a
    [list], a substring of a [str]. *)
Definition py_contains (key : pystr) (obj : pyval) : result bool :=
  match obj with
  | VDict d =>
      Ok (match dict_lookup (VStr key) d with Some _ => true | None => false end)
  | VList l => Ok (existsb (key_eqb (VStr key)) l)
  | VStr s => Ok (str_contains key s)
  | _ => Raise (TypeError None)
  end.

(** The elements a [for] loop over [obj] visits. *)
Definition py_iter (obj : pyval) : result (list pyval) :=
  match obj with
  | VList l => Ok l
  | VDict d => Ok (map fst d)
  | VStr s => Ok (map (fun c => VStr [c]) s)
  | _ => Raise (TypeError None)
  end.

(** [obj[key] = v] *)
Definition setitem (obj key v : pyval) : result pyval :=
  match obj with
  | VDict d =>
      if hashable key then Ok (VDict (dict_store key v d))
      else Raise (TypeError None)
  | VList l =>
      match int_value key with
      | Some i =>
          match seq_index i (List.length l) with
          | Some n => Ok (VList (firstn n l ++ v :: skipn (S n) l))
          | None => Raise IndexError
          end
      | None => Raise (TypeError None)
      end
  | _ => Raise (TypeError None)
  end.

(** [str(v)] inside the f-string of the agent name, for the values that
    reach it. *)
Definition str_of_agent (v : pyval) : pystr :=
  match v with
  | VInt n => str_of_int n
  | VBool true => lit "True"
  | VBool false => lit "False"
  | _ => []
  end.

(* ===================================================================== *)
(** ** Effects: file reads, printed diagnostics, exceptions *)
(* ===================================================================== *)

(** The diagnostics the assembler prints, one constructor per [print]
    call of the source; the exception is the [{e}] of the message. *)
Inductive message :=
| NoMdFileFound                 (* "No .md file found in the ..." *)
| FileNotFoundMsg (e : exn)     (* "File not found: {e}" *)
| IOErrorMsg (e : exn)          (* "IO error occurred: {e}" *)
| UnexpectedErrorMsg (e : exn)  (* "An unexpected error occurred: {e}" *)
| ConversationLogDecodeMsg.     (* "Error decoding conversation_log.json" *)

(** What a call leaves behind: the paths it passed to [open] and the
    lines it printed, both in order. *)
Record world := mkWorld {
  opened : list pystr;
  printed : list message
}.

Definition initial_world : world := mkWorld [] [].

Definition M (A : Type) : Type := world -> world * result A.

Definition ret (A : Type) (a : A) : M A := fun w => (w, Ok a).

Definition bind (A B : Type) (c : M A) (k : A -> M B) : M B :=
  fun w =>
    match c w with
    | (w', Ok a) => k a w'
    | (w', Raise e) => (w', Raise e)
    end.

Definition lift (A : Type) (r : result A) : M A := fun w => (w, r).

Definition raise (A : Type) (e : exn) : M A := fun w => (w, Raise e).

Arguments raise {A} e.

Definition print (m : message) : M unit :=
  fun w => (mkWorld (opened w) (printed w ++ [m]), Ok tt).

(** [try: c  except ...: h]: the handler table [h] answers [None] for an
    exception no [except] clause matches, which then propagates. *)
Definition try_except (A : Type) (c : M A) (h : exn -> option (M A))
  : M A :=
  fun w =>
    match c w with
    | (w', Ok a) => (w', Ok a)
    | (w', Raise e) =>
        match h e with
        | Some k => k w'
        | None => (w', Raise e)
        end
    end.

Declare Scope py_scope.

Delimit Scope py_scope with py.

Notation "x <- c ;; k" := (bind c (fun x => k))
  (at level 61, c at next level, right associativity) : py_scope.

Notation "c ;; k" := (bind c (fun _ => k))
  (at level 61, right associativity) : py_scope.

(* ===================================================================== *)
(** ** The article record and the argument *)
(* ===================================================================== *)

(** The dictionary [article_data]: the three keys of its display, and the
    two keys added later, [None] while the key is absent. *)
Record article_data := mkArticle {
  article : pystr;
  short_text : pystr;
  citation : pyval;
  citations : option pyval;
  conversation_log : option pyval
}.

(** [article_data["citations"] = c] *)
Definition set_citations (d : article_data) (c : pyval) : article_data :=
  mkArticle (article d) (short_text d) (citation d) (Some c)
            (conversation_log d).

(** [article_data["conversation_log"] = l] *)
Definition set_conversation_log (d : article_data) (l : pyval)
  : article_data :=
  mkArticle (article d) (short_text d) (citation d) (citations d) (Some l).

(** What a caller can pass as [article_file_path_dict]: a [dict] of the
    annotated type [Dict[str, str]], or a value that is not a [dict]. *)
Inductive argument :=
| ArgDict (d : list (pystr * pystr))
| ArgNone
| ArgInt (n : Z)
| ArgStr (s : pystr)
| ArgList (l : list pyval).

(** [isinstance(a, dict)] *)
Definition isinstance_dict (a : argument) : bool :=
  match a with ArgDict _ => true | _ => false end.

(** [k in d] and [d[k]] on the file map. *)
Definition file_map_has (k : pystr) (d : list (pystr * pystr)) : bool :=
  match str_lookup k d with Some _ => true | None => false end.

Definition file_map_getitem (k : pystr) (d : list (pystr * pystr))
  : result pystr :=
  match str_lookup k d with
  | Some p => Ok p
  | None => Raise (KeyError (VStr k))
  end.

(** [next((f for f in d.keys() if f.endswith(".md")), None)] *)
Definition first_md_key (d : list (pystr * pystr)) : option pystr :=
  find (endswith (lit ".md")) (map fst d).

(* ===================================================================== *)
(** ** Citations from [url_to_info.json] *)
(* ===================================================================== *)

(** The body of the loop over [url_to_info.items()] for one item. *)
Definition build_citation (url info : pyval) : result pyval :=
  (snippets <~ py_get info (lit "snippets") (VList []) ;;
   use_snippet <~ (if truthy snippets then Ok false
                   else py_contains (lit "snippet") info) ;;
   snippets <~ (if (use_snippet : bool) then
                  s <~ getitem info (VStr (lit "snippet")) ;; Ok (VList [s])
                else Ok snippets) ;;
   title <~ py_get info (lit "title") (VStr []) ;;
   description <~ py_get info (lit "description") (VStr []) ;;
   Ok (VDict [(VStr (lit "url"), url);
              (VStr (lit "title"), title);
              (VStr (lit "description"), description);
              (VStr (lit "snippets"), snippets)]))%result.

(** [for i, (url, info) in enumerate(url_to_info.items(), start=i): ...
    citations[i] = citation] *)
Fixpoint citations_loop (items : list (pyval * pyval)) (i : Z)
    (acc : list (pyval * pyval)) : result (list (pyval * pyval)) :=
  match items with
  | [] => Ok acc
  | (url, info) :: rest =>
      (c <~ build_citation url info ;;
       citations_loop rest (i + 1) (dict_store (VInt i) c acc))%result
  end.

(** From the decoded file to the [citations] dictionary. *)
Definition citations_of (url_info : pyval) : result pyval :=
  (url_to_info <~ py_get url_info (lit "url_to_info") (VDict []) ;;
   items <~ py_items url_to_info ;;
   citations <~ citations_loop items 1 [] ;;
   Ok (VDict citations))%result.

(* ===================================================================== *)
(** ** The conversation log *)
(* ===================================================================== *)

(** [agent_names = {0: "User", 1: "AI Assistant", 2: "Expert"}] *)
Definition agent_names : list (pyval * pyval) :=
  [(VInt 0, VStr (lit "User"));
   (VInt 1, VStr (lit "AI Assistant"));
   (VInt 2, VStr (lit "Expert"))].

(** The body of the loop over the log for one entry; the result is the
    entry after the assignment, when there is one. [entry["agent"]] is
    read three times by the source, each time with the same result. *)
Definition rename_agent (entry : pyval) : result pyval :=
  (has_agent <~ py_contains (lit "agent") entry ;;
   if (has_agent : bool) then
     a <~ getitem entry (VStr (lit "agent")) ;;
     if isinstance_int a then
       let default := VStr (lit "Agent " ++ str_of_agent a) in
       let name := match dict_lookup a agent_names with
                   | Some n => n
                   | None => default
                   end in
       setitem entry (VStr (lit "agent")) name
     else Ok entry
   else Ok entry)%result.

(** [for entry in conversation_log: ...]: the entries of a list are
    updated in place; the keys of a dictionary and the characters of a
    string are visited too, and cannot be updated. *)
Definition rename_agents (log : pyval) : result pyval :=
  match log with
  | VList l => rbind (rmap rename_agent l) (fun l' => Ok (VList l'))
  | _ =>
      rbind (py_iter log) (fun entries =>
      rbind (rmap rename_agent entries) (fun _ => Ok log))
  end.

(* ===================================================================== *)
(** ** The secondary citation helper *)
(* ===================================================================== *)

(** The body of the loop over [url_to_unified_index.items()]. *)
Fixpoint search_result_loop (search_results : pyval)
    (items : list (pyval * pyval)) (acc : list (pyval * pyval))
  : result (list (pyval * pyval)) :=
  match items with
  | [] => Ok acc
  | (url, index) :: rest =>
      (infos <~ getitem search_results (VStr (lit "url_to_info")) ;;
       info <~ getitem infos url ;;
       title <~ getitem info (VStr (lit "title")) ;;
       infos <~ getitem search_results (VStr (lit "url_to_info")) ;;
       info <~ getitem infos url ;;
       snippet <~ getitem info (VStr (lit "snippet")) ;;
       let entry := VDict [(VStr (lit "url"), url);
                           (VStr (lit "title"), title);
                           (VStr (lit "snippets"), VList [snippet])] in
       if hashable index then
         search_result_loop search_results rest (dict_store index entry acc)
       else Raise (TypeError None))%result
  end.

(** [FileIOHelper._construct_citation_dict_from_search_result]; the result
    [VNone] is the [None] of the first [return]. *)
Definition _construct_citation_dict_from_search_result
    (search_results : pyval) : result pyval :=
  match search_results with
  | VNone => Ok VNone
  | _ =>
      (index_of <~ getitem search_results
                     (VStr (lit "url_to_unified_index")) ;;
       items <~ py_items index_of ;;
       citation_dict <~ search_result_loop search_results items [] ;;
       Ok (VDict citation_dict))%result
  end.

(* ===================================================================== *)
(** ** The assembler *)
(* ===================================================================== *)

Section Assembler.

(** The collaborators of the assembler that are not part of the file. *)

(** Modelled from the spec: [parse] of [.text_processing], which is not
    among the sources: "pure function string -> string" that normalises
    the citation markup of the raw text. *)
Variable parse : pystr -> pystr.

(** [json.loads] of the standard library: the decoded value, or the
    exception it raises: [json.JSONDecodeError] for a text that is not
    JSON, but also, for example, [RecursionError] for a text nested too
    deeply and [ValueError] for an integer of too many digits. *)
Variable json_loads : pystr -> result pyval.

(** The file system during the call: for a path, what
    [open(path, "r", encoding="utf-8").read()] gives, the text or the
    exception raised. *)
Variable fs_read : pystr -> exn + pystr.

(** [FileIOHelper.read_txt_file] *)
Definition read_txt_file (file_path : pystr) : M pystr :=
  fun w =>
    (mkWorld (opened w ++ [file_path]) (printed w),
     match fs_read file_path with
     | inr text => Ok text
     | inl e => Raise e
     end).

(** [FileIOHelper.read_json_file], and the [with open(...) as f:
    json.load(f)] of the citations step. *)
Definition read_json_file (file_path : pystr) : M pyval :=
  (text <- read_txt_file file_path ;;
   match json_loads text with
   | Ok v => ret v
   | Raise e => raise e
   end)%py.

(** The three [except] clauses of the outer [try], then [return None]. *)
Definition outer_handlers (e : exn) : option (M (option article_data)) :=
  Some (if is_FileNotFoundError e then
          (print (FileNotFoundMsg e) ;; ret None)%py
        else if is_IOError e then
          (print (IOErrorMsg e) ;; ret None)%py
        else
          (print (UnexpectedErrorMsg e) ;; ret None)%py).

(** The [if "url_to_info.json" in article_file_path_dict:] block. *)
Definition add_citations (d : list (pystr * pystr)) (data : article_data)
  : M article_data :=
  if file_map_has (lit "url_to_info.json") d then
    (path <- lift (file_map_getitem (lit "url_to_info.json") d) ;;
     url_info <- read_json_file path ;;
     citations <- lift (citations_of url_info) ;;
     ret (set_citations data citations))%py
  else ret data.

(** The [if "conversation_log.json" in article_file_path_dict:] block,
    with its own [try] that catches [json.JSONDecodeError] only. *)
Definition add_conversation_log (d : list (pystr * pystr))
    (data : article_data) : M article_data :=
  if file_map_has (lit "conversation_log.json") d then
    try_except
      (path <- lift (file_map_getitem (lit "conversation_log.json") d) ;;
       conversation_log <- read_json_file path ;;
       conversation_log <- lift (rename_agents conversation_log) ;;
       ret (set_conversation_log data conversation_log))%py
      (fun e =>
         if is_JSONDecodeError e then
           Some (print ConversationLogDecodeMsg ;; ret data)%py
         else None)
  else ret data.

(** The body of the outer [try]. *)
Definition assemble_body (d : list (pystr * pystr)) (article_file : pystr)
  : M (option article_data) :=
  (path <- lift (file_map_getitem article_file d) ;;
   article_content <- read_txt_file path ;;
   let parsed_article_content := parse article_content in
   let no_title_content := remove_title_lines parsed_article_content in
   let short_text := slice_to 100 no_title_content in
   let article_data :=
     mkArticle parsed_article_content short_text VNone None None in
   article_data <- add_citations d article_data ;;
   article_data <- add_conversation_log d article_data ;;
   ret (Some article_data))%py.

(** [FileIOHelper.assemble_article_data] *)
Definition assemble_article_data (article_file_path_dict : argument)
  : M (option article_data) :=
  match article_file_path_dict with
  | ArgDict d =>
      match first_md_key d with
      | Some ((_ :: _) as article_file) =>
          try_except (assemble_body d article_file) outer_handlers
      | _ => (print NoMdFileFound ;; ret None)%py
      end
  | _ =>
      raise (TypeError (Some (lit "article_file_path_dict must be a dictionary")))
  end.

End Assembler.

(* ===================================================================== *)
(** ** Definitions used by the statements and by the concrete runs *)
(* ===================================================================== *)

(** The first line of a text, with its newline; empty for the empty text. *)
Definition first_line (s : pystr) : pystr := hd [] (lines_keepends s).

(** The lines the removal keeps. *)
Definition keep_line (l : pystr) : bool := negb (heading_1_3 l).

(** The title pattern after its [#{1,3}]: [[^\n]*\n?]. *)
Definition tail_re : Re.pattern :=
  [Re.Rep not_nl 0 None; Re.Rep is_nl 0 (Some 1)].

(** A list of lines as [lines_keepends] produces them: every line but the
    last ends with its newline, and no line holds another newline. *)
Inductive line_list : list pystr -> Prop :=
| ll_nil : line_list []
| ll_last l :
    l <> [] -> Forall (fun c => N.eqb c nl = false) l -> line_list [l]
| ll_cons body ls :
    Forall (fun c => N.eqb c nl = false) body -> line_list ls ->
    line_list ((body ++ [nl]) :: ls).

(** No line of [s] starts with [#], read off the characters: [bol] tells
    whether the position is a line start. *)
Fixpoint no_heading_from (bol : bool) (s : pystr) : bool :=
  match s with
  | [] => true
  | c :: s' => negb (bol && is_hash c) && no_heading_from (is_nl c) s'
  end.

(** The diagnostic of the outer [except] clause that catches [e]. *)
Definition outer_message (e : exn) : message :=
  if is_FileNotFoundError e then FileNotFoundMsg e
  else if is_IOError e then IOErrorMsg e
  else UnexpectedErrorMsg e.

(** The record as the display [article_data = {...}] creates it. *)
Definition initial_data (parsed : pystr) : article_data :=
  mkArticle parsed (slice_to 100 (remove_title_lines parsed)) VNone None None.

(** The world after [open(p)], and after a [print]. *)
Definition log_open (p : pystr) (w : world) : world :=
  mkWorld (opened w ++ [p]) (printed w).

Definition log_print (m : message) (w : world) : world :=
  mkWorld (opened w) (printed w ++ [m]).

(** The conversation log step, run: what its [try] block computes, and
    what the step makes of it. *)
Definition log_attempt (json_loads : pystr -> result pyval)
    (fs_read : pystr -> exn + pystr) (p : pystr) : result pyval :=
  match fs_read p with
  | inl e => Raise e
  | inr text =>
      match json_loads text with
      | Raise e => Raise e
      | Ok log => rename_agents log
      end
  end.

(** Fixtures for concrete runs: a file system and a decoder given by
    tables, and a [parse] that leaves the text as it is. *)
Definition table_fs (t : list (pystr * (exn + pystr))) (p : pystr)
  : exn + pystr :=
  match str_lookup p t with
  | Some r => r
  | None => inl FileNotFoundError
  end.

Definition table_json (t : list (pystr * pyval)) (s : pystr)
  : result pyval :=
  match str_lookup s t with
  | Some v => Ok v
  | None => Raise JSONDecodeError
  end.

Definition parse_id (s : pystr) : pystr := s.

(** A topic directory with an article only. *)
Definition topic_article_only : list (pystr * pystr) :=
  [(lit "notes.txt", lit "/out/t/notes.txt");
   (lit "storm_gen_article.md", lit "/out/t/storm_gen_article.md")].

Definition article_text : pystr :=
  lit "# Title
## Summary
Body of the article.
#### Deep heading
More text #1.
".

Definition fs_article_only : pystr -> exn + pystr :=
  table_fs [(lit "/out/t/storm_gen_article.md", inr article_text)].


(** A topic directory with the three files; the two JSON files can be
    given any content. *)
Definition topic_full : list (pystr * pystr) :=
  [(lit "conversation_log.json", lit "/out/t/conversation_log.json");
   (lit "storm_gen_article.md", lit "/out/t/storm_gen_article.md");
   (lit "url_to_info.json", lit "/out/t/url_to_info.json")].

Definition fs_full (url_to_info conversation_log : pystr)
  : pystr -> exn + pystr :=
  table_fs [(lit "/out/t/storm_gen_article.md", inr article_text);
            (lit "/out/t/url_to_info.json", inr url_to_info);
            (lit "/out/t/conversation_log.json", inr conversation_log)].

(** The value of a field of an info record, or a default. *)
Definition field_or (k : pystr) (default : pyval)
    (fields : list (pyval * pyval)) : pyval :=
  match dict_lookup (VStr k) fields with
  | Some v => v
  | None => default
  end.

(** The snippets of a citation, as the specification describes them: the
    [snippets] sequence, or the single [snippet] in a one-element sequence
    when [snippets] is absent or empty. *)
Definition snippets_of (fields : list (pyval * pyval)) : pyval :=
  let snippets := field_or (lit "snippets") (VList []) fields in
  if truthy snippets then snippets
  else match dict_lookup (VStr (lit "snippet")) fields with
       | Some s => VList [s]
       | None => snippets
       end.

(** The citation record of the specification:
    [{url, title, description, snippets}]. *)
Definition citation_record (url : pyval) (fields : list (pyval * pyval))
  : pyval :=
  VDict [(VStr (lit "url"), url);
         (VStr (lit "title"), field_or (lit "title") (VStr []) fields);
         (VStr (lit "description"),
          field_or (lit "description") (VStr []) fields);
         (VStr (lit "snippets"), snippets_of fields)].

Definition citation_of_item (item : pyval * pyval) : pyval :=
  citation_record (fst item)
    (match snd item with VDict fields => fields | _ => [] end).

(** Sequential indices from [i] on. *)
Fixpoint enumerate_from (i : Z) (l : list pyval) : list (pyval * pyval) :=
  match l with
  | [] => []
  | c :: l' => (VInt i, c) :: enumerate_from (i + 1) l'
  end.

(** An info record: a JSON object. *)
Definition is_record (v : pyval) : Prop := exists fields, v = VDict fields.

(** A JSON text of the fixtures, written with ['] for the double quote. *)
Definition json_text (s : string) : pystr :=
  map (fun c => if N.eqb c 39 then 34%N else c) (lit s).

Definition url_to_info_text : pystr :=
  json_text "{'url_to_info': {'https://a.example': {'title': 'A', 'snippets': ['s1', 's2']}, 'https://b.example': {'description': 'about B', 'snippets': [], 'snippet': 'x'}}}".

Definition url_to_info_items : list (pyval * pyval) :=
  [(VStr (lit "https://a.example"),
    VDict [(VStr (lit "title"), VStr (lit "A"));
           (VStr (lit "snippets"),
            VList [VStr (lit "s1"); VStr (lit "s2")])]);
   (VStr (lit "https://b.example"),
    VDict [(VStr (lit "description"), VStr (lit "about B"));
           (VStr (lit "snippets"), VList []);
           (VStr (lit "snippet"), VStr (lit "x"))])].

Definition url_to_info_value : list (pyval * pyval) :=
  [(VStr (lit "url_to_info"), VDict url_to_info_items)].

Definition topic_with_citations : list (pystr * pystr) :=
  [(lit "storm_gen_article.md", lit "/out/t/storm_gen_article.md");
   (lit "url_to_info.json", lit "/out/t/url_to_info.json")].

Definition citations_value : pyval :=
  VDict [(VInt 1,
          VDict [(VStr (lit "url"), VStr (lit "https://a.example"));
                 (VStr (lit "title"), VStr (lit "A"));
                 (VStr (lit "description"), VStr []);
                 (VStr (lit "snippets"),
                  VList [VStr (lit "s1"); VStr (lit "s2")])]);
         (VInt 2,
          VDict [(VStr (lit "url"), VStr (lit "https://b.example"));
                 (VStr (lit "title"), VStr []);
                 (VStr (lit "description"), VStr (lit "about B"));
                 (VStr (lit "snippets"), VList [VStr (lit "x")])])].

(** The display name of agent [n], as the specification gives it. *)
Definition agent_display_name (n : Z) : pystr :=
  if Z.eqb n 0 then lit "User"
  else if Z.eqb n 1 then lit "AI Assistant"
  else if Z.eqb n 2 then lit "Expert"
  else lit "Agent " ++ str_of_int n.

(** The keys of a decoded JSON object are strings. *)
Definition string_keys (fields : list (pyval * pyval)) : Prop :=
  Forall (fun k => exists s, k = VStr s) (map fst fields).

Definition conversation_log_text : pystr :=
  json_text "[{'agent': 0, 'text': 'hi'}, {'agent': 5, 'text': 'yo'}, {'text': 'none'}]".

Definition conversation_log_entries : list pyval :=
  [VDict [(VStr (lit "agent"), VInt 0); (VStr (lit "text"), VStr (lit "hi"))];
   VDict [(VStr (lit "agent"), VInt 5); (VStr (lit "text"), VStr (lit "yo"))];
   VDict [(VStr (lit "text"), VStr (lit "none"))]].

Definition conversation_log_renamed : list pyval :=
  [VDict [(VStr (lit "agent"), VStr (lit "User"));
          (VStr (lit "text"), VStr (lit "hi"))];
   VDict [(VStr (lit "agent"), VStr (lit "Agent 5"));
          (VStr (lit "text"), VStr (lit "yo"))];
   VDict [(VStr (lit "text"), VStr (lit "none"))]].

Definition topic_with_log : list (pystr * pystr) :=
  [(lit "conversation_log.json", lit "/out/t/conversation_log.json");
   (lit "storm_gen_article.md", lit "/out/t/storm_gen_article.md")].

(** The keys [ks], stored one after the other in a dictionary that holds
    the keys [seen], are all new. *)
Fixpoint fresh_keys (seen ks : list pyval) : bool :=
  match ks with
  | [] => true
  | k :: ks' =>
      forallb (fun k' => negb (key_eqb k k')) seen &&
      fresh_keys (seen ++ [k]) ks'
  end.

(** An item [(url, index)] of [url_to_unified_index] that the helper can
    serve: both parts are hashable, and [url_to_info] has a record for the
    URL with a [title] and a [snippet]. *)
Definition search_item_ok (infos : list (pyval * pyval))
    (item : pyval * pyval) : Prop :=
  hashable (fst item) = true /\ hashable (snd item) = true /\
  exists fields title snippet,
    dict_lookup (fst item) infos = Some (VDict fields) /\
    dict_lookup (VStr (lit "title")) fields = Some title /\
    dict_lookup (VStr (lit "snippet")) fields = Some snippet.

(** The entry the helper builds for an item. *)
Definition search_entry (infos : list (pyval * pyval))
    (item : pyval * pyval) : pyval :=
  match dict_lookup (fst item) infos with
  | Some (VDict fields) =>
      VDict [(VStr (lit "url"), fst item);
             (VStr (lit "title"), field_or (lit "title") VNone fields);
             (VStr (lit "snippets"),
              VList [field_or (lit "snippet") VNone fields])]
  | _ => VNone
  end.

(* ===================================================================== *)
(** ** Definitions for the further properties *)
(* ===================================================================== *)

Definition option_to_list (A : Type) (o : option A) : list A :=
  match o with
  | Some a => [a]
  | None => []
  end.

(** The files a call on the file map [d] can open, in the order of the
    source: the selected article, [url_to_info.json],
    [conversation_log.json]. *)
Definition files_of (d : list (pystr * pystr)) : list pystr :=
  match first_md_key d with
  | None => []
  | Some key =>
      option_to_list (str_lookup key d) ++
      option_to_list (str_lookup (lit "url_to_info.json") d) ++
      option_to_list (str_lookup (lit "conversation_log.json") d)
  end.

(** What the citations step computes from [url_to_info.json] at path
    [p]: the [citations] dictionary, or the exception raised on the way. *)
Definition citations_attempt (json_loads : pystr -> result pyval)
    (fs_read : pystr -> exn + pystr) (p : pystr) : result pyval :=
  match fs_read p with
  | inl e => Raise e
  | inr text =>
      match json_loads text with
      | Raise e => Raise e
      | Ok url_info => citations_of url_info
      end
  end.

(** The values a [for] loop cannot iterate over. *)
Definition not_iterable (v : pyval) : bool :=
  match v with
  | VNone | VBool _ | VInt _ | VFloat _ => true
  | _ => false
  end.

(** Some key of the JSON object [d] holds "agent" as a substring. *)
Definition has_agent_like_key (d : list (pyval * pyval)) : bool :=
  existsb (fun k => match k with
                    | VStr s => str_contains (lit "agent") s
                    | _ => false
                    end) (map fst d).

(** One round of the loop of the search-result helper, for an item it
    can serve. *)
Definition search_step (infos : list (pyval * pyval))
    (acc : list (pyval * pyval)) (item : pyval * pyval)
  : list (pyval * pyval) :=
  dict_store (snd item) (search_entry infos item) acc.

(* ===================================================================== *)
(** ** The directory scan: [read_structure_to_dict] *)
(* ===================================================================== *)

(** [os.path.join(a, b)] of [posixpath]: an absolute [b] replaces [a];
    otherwise [b] is appended, after a separator unless [a] is empty or
    ends with one. *)
Definition path_join (a b : pystr) : pystr :=
  if startswith (lit "/") b then b
  else if (match a with [] => true | _ :: _ => false end
           || endswith (lit "/") a)%bool
       then a ++ b
       else a ++ lit "/" ++ b.

(** [d[k] = v] on a dictionary with string keys. *)
Fixpoint str_store (A : Type) (k : pystr) (v : A) (d : list (pystr * A))
  : list (pystr * A) :=
  match d with
  | [] => [(k, v)]
  | (k', v') :: d' =>
      if str_eqb k k' then (k', v) :: d' else (k', v') :: str_store k v d'
  end.

Section DirectoryScan.

(** The file system, as the three calls of the function see it:
    [os.listdir] (the names in a directory, or the exception raised),
    [os.path.isdir] and [os.path.abspath]. *)
Variable listdir : pystr -> exn + list pystr.
Variable isdir : pystr -> bool.
Variable abspath : pystr -> pystr.

(** The inner loop: [for file_name in os.listdir(topic_path): ...]; [acc]
    is [articles_dict[topic_name]]. *)
Fixpoint topic_files_loop (topic_path : pystr) (names : list pystr)
    (acc : list (pystr * pystr)) : list (pystr * pystr) :=
  match names with
  | [] => acc
  | file_name :: rest =>
      let file_path := path_join topic_path file_name in
      topic_files_loop topic_path rest
        (str_store file_name (abspath file_path) acc)
  end.

(** The outer loop: [for topic_name in os.listdir(articles_root_path):
    ...]; [acc] is [articles_dict]. *)
Fixpoint topics_loop (articles_root_path : pystr) (names : list pystr)
    (acc : list (pystr * list (pystr * pystr)))
  : result (list (pystr * list (pystr * pystr))) :=
  match names with
  | [] => Ok acc
  | topic_name :: rest =>
      let topic_path := path_join articles_root_path topic_name in
      if isdir topic_path then
        match listdir topic_path with
        | inl e => Raise e
        | inr files =>
            topics_loop articles_root_path rest
              (str_store topic_name (topic_files_loop topic_path files [])
                         acc)
        end
      else topics_loop articles_root_path rest acc
  end.

(** [FileIOHelper.read_structure_to_dict] *)
Definition read_structure_to_dict (articles_root_path : pystr)
  : result (list (pystr * list (pystr * pystr))) :=
  match listdir articles_root_path with
  | inl e => Raise e
  | inr names => topics_loop articles_root_path names []
  end.

End DirectoryScan.

(** The file map of a topic directory with the listing [files], as the
    scan builds it for distinct names. *)
Definition topic_file_map (abspath : pystr -> pystr) (topic_path : pystr)
    (files : list pystr) : list (pystr * pystr) :=
  map (fun f => (f, abspath (path_join topic_path f))) files.

(** The listing of a directory, empty where it cannot be listed. *)
Definition listing (listdir : pystr -> exn + list pystr) (p : pystr)
  : list pystr :=
  match listdir p with
  | inr names => names
  | inl _ => []
  end.

(** Fixtures: an output directory with two topics and a stray file. *)
Definition listdir_demo (p : pystr) : exn + list pystr :=
  match str_lookup p
          [(lit "/out", [lit "topic_b"; lit "README.txt"; lit "topic_a"]);
           (lit "/out/topic_a",
            [lit "conversation_log.json"; lit "storm_gen_article.md";
             lit "figures"]);
           (lit "/out/topic_b", [lit "url_to_info.json"])] with
  | Some names => inr names
  | None => inl FileNotFoundError
  end.

Definition isdir_demo (p : pystr) : bool :=
  existsb (str_eqb p)
    [lit "/out"; lit "/out/topic_a"; lit "/out/topic_b";
     lit "/out/topic_a/figures"].

Definition abspath_demo (p : pystr) : pystr := p.

(* ===================================================================== *)
(** ** The latest modification time: [get_latest_modification_time] *)
(* ===================================================================== *)

Section ModificationTime.

(** What the function takes from the platform: the timestamps [T] of
    [os.path.getmtime] and the datetimes [D] in the zone
    "America/Los_Angeles"; [os.path.isdir]; [os.walk], as the list of the
    triples [(root, dirs, files)] it yields; [os.path.getmtime], the
    timestamp or the exception; the conversion of a timestamp to a
    datetime of the zone, which is [datetime.utcfromtimestamp], then
    [replace(tzinfo=utc)], then [astimezone(california_tz)], and gives
    the datetime or the exception ([utcfromtimestamp] raises
    [ValueError], [OverflowError] or [OSError] on a timestamp outside
    the years 1 to 9999, [astimezone] raises [OverflowError] at their
    edges); the comparison [>] of two such datetimes;
    [strftime("%Y-%m-%d %H:%M:%S")]; and [datetime.now] in the zone. *)
Variables T D : Type.
Variable isdir : pystr -> bool.
Variable walk : pystr -> list (pystr * list pystr * list pystr).
Variable getmtime : pystr -> exn + T.
Variable to_california : T -> exn + D.
Variable later : D -> D -> bool.
Variable format : D -> pystr.
Variable now : D.

(** The first part: the paths of the files under [path], or [path]. *)
Definition file_paths (path : pystr) : list pystr :=
  if isdir path then
    flat_map (fun triple =>
                match triple with
                | (root, _, files) => map (path_join root) files
                end) (walk path)
  else [path].

(** The first statements of the loop body, up to
    [modification_time_california]: the modification time of one file
    is read, then converted; either step can raise. *)
Definition file_time (file_path : pystr) : exn + D :=
  match getmtime file_path with
  | inl e => inl e
  | inr modification_timestamp => to_california modification_timestamp
  end.

(** [for file_path in file_paths: ...]; [latest] is [latest_mod_time]. *)
Fixpoint latest_loop (paths : list pystr) (latest : option D)
  : result (option D) :=
  match paths with
  | [] => Ok latest
  | file_path :: rest =>
      match file_time file_path with
      | inl e => Raise e
      | inr modification_time_california =>
          latest_loop rest
            (match latest with
             | None => Some modification_time_california
             | Some l =>
                 if later modification_time_california l
                 then Some modification_time_california
                 else Some l
             end)
      end
  end.

(** [FileIOHelper.get_latest_modification_time] *)
Definition get_latest_modification_time (path : pystr) : result pystr :=
  match latest_loop (file_paths path) None with
  | Raise e => Raise e
  | Ok (Some latest_mod_time) => Ok (format latest_mod_time)
  | Ok None => Ok (format now)
  end.

End ModificationTime.

(** Fixtures: timestamps and datetimes are integers (seconds). *)
Definition walk_demo (p : pystr)
  : list (pystr * list pystr * list pystr) :=
  if str_eqb p (lit "/out/topic_a") then
    [(lit "/out/topic_a", [lit "figures"],
      [lit "conversation_log.json"; lit "storm_gen_article.md"]);
     (lit "/out/topic_a/figures", [], [lit "f1.png"])]
  else if str_eqb p (lit "/out/topic_a/figures") then
    [(lit "/out/topic_a/figures", [], [lit "f1.png"])]
  else [].

(** The file [/out/far_future.md] has a modification time in the year
    10000, which the file system stores and [os.path.getmtime] reads. *)
Definition getmtime_demo (p : pystr) : exn + Z :=
  match str_lookup p
          [(lit "/out/topic_a/conversation_log.json", 1700000300%Z);
           (lit "/out/topic_a/storm_gen_article.md", 1700000900%Z);
           (lit "/out/topic_a/figures/f1.png", 1700000900%Z);
           (lit "/out/far_future.md", 253402300800%Z)] with
  | Some t => inr t
  | None => inl FileNotFoundError
  end.

(** [utcfromtimestamp] takes the seconds of the years 1 to 9999 and
    raises [ValueError] outside them. *)
Definition to_california_demo (t : Z) : exn + Z :=
  if ((-62135596800 <=? t) && (t <=? 253402300799))%Z then inr t
  else inl ValueError.

(* ===================================================================== *)
(** ** Images as data URLs: [read_image_as_base64] *)
(* ===================================================================== *)

(** The alphabet of [base64.b64encode] and its padding character [=]. *)
Definition b64_alphabet : pystr :=
  lit "ABCDEFGHIJKLMNOPQRSTUVWXYZabcdefghijklmnopqrstuvwxyz0123456789+/".

Definition b64_pad : char := 61%N.

Definition b64_char (i : N) : char := nth (N.to_nat i) b64_alphabet b64_pad.

(** [base64.b64encode(data).decode("utf-8")]: three bytes give four
    characters of six bits each; one or two last bytes give two or three
    characters and padding. *)
Fixpoint b64encode (data : list Byte.byte) : pystr :=
  match data with
  | [] => []
  | [a] =>
      let x := Byte.to_N a in
      [b64_char (x / 4); b64_char (x mod 4 * 16); b64_pad; b64_pad]
  | [a; b] =>
      let x := Byte.to_N a in
      let y := Byte.to_N b in
      [b64_char (x / 4); b64_char (x mod 4 * 16 + y / 16);
       b64_char (y mod 16 * 4); b64_pad]
  | a :: b :: c :: rest =>
      let x := Byte.to_N a in
      let y := Byte.to_N b in
      let z := Byte.to_N c in
      b64_char (x / 4) :: b64_char (x mod 4 * 16 + y / 16)
      :: b64_char (y mod 16 * 4 + z / 64) :: b64_char (z mod 64)
      :: b64encode rest
  end%N.

(** [FileIOHelper.read_image_as_base64]; [read_bytes] is what
    [open(image_path, "rb").read()] gives, the bytes or the exception. *)
Definition read_image_as_base64 (read_bytes : pystr -> exn + list Byte.byte)
    (image_path : pystr) : result pystr :=
  match read_bytes image_path with
  | inl e => Raise e
  | inr data => Ok (lit "data:image/png;base64," ++ b64encode data)
  end.

(** A decoder for the encoder above, used to show that the encoding
    loses nothing; it is not part of the source. *)
Fixpoint index_of (c : char) (l : pystr) : option N :=
  match l with
  | [] => None
  | x :: l' =>
      if N.eqb c x then Some 0%N else option_map N.succ (index_of c l')
  end.

Definition b64_index (c : char) : option N := index_of c b64_alphabet.

Definition byte_of (n : N) : Byte.byte :=
  match Byte.of_N n with
  | Some b => b
  | None => Byte.x00
  end.

Fixpoint b64decode (s : pystr) : option (list Byte.byte) :=
  match s with
  | [] => Some []
  | c1 :: c2 :: c3 :: c4 :: rest =>
      match b64_index c1, b64_index c2 with
      | Some s1, Some s2 =>
          let a := byte_of (s1 * 4 + s2 / 16) in
          match b64_index c3 with
          | None => Some [a]
          | Some s3 =>
              let b := byte_of (s2 mod 16 * 16 + s3 / 4) in
              match b64_index c4 with
              | None => Some [a; b]
              | Some s4 =>
                  let c := byte_of (s3 mod 4 * 64 + s4) in
                  option_map (fun l => a :: b :: c :: l) (b64decode rest)
              end
          end
      | _, _ => None
      end
  | _ => None
  end%N.

(* ===================================================================== *)
(** ** The output directory: [get_output_dir] *)
(* ===================================================================== *)

Definition is_slash (c : char) : bool := N.eqb c 47.

Fixpoint drop_while (f : char -> bool) (s : pystr) : pystr :=
  match s with
  | [] => []
  | c :: s' => if f c then drop_while f s' else s
  end.

(** [os.path.dirname(p)] of [posixpath]: the part up to the last
    separator, without its trailing separators unless it consists of
    separators only. *)
Definition dirname (p : pystr) : pystr :=
  let head := rev (drop_while (fun c => negb (is_slash c)) (rev p)) in
  if forallb is_slash head then head
  else rev (drop_while is_slash (rev head)).

(** [FileIOHelper.get_output_dir]. [getenv] is the value of
    [os.getenv("STREAMLIT_OUTPUT_DIR")], [module_path] the value of
    [os.path.abspath(__file__)], and [makedirs] tells what
    [os.makedirs(path, exist_ok=True)] raises, if anything. *)
Definition get_output_dir (getenv : option pystr) (module_path : pystr)
    (makedirs : pystr -> option exn) : result pystr :=
  let output_dir :=
    match getenv with
    | Some ((_ :: _) as dir) => dir
    | _ =>
        let target_dir := dirname (dirname module_path) in
        path_join target_dir (lit "DEMO_WORKING_DIR")
    end in
  match makedirs output_dir with
  | Some e => Raise e
  | None => Ok output_dir
  end.

(** Fixtures for the further properties. *)
Definition plain_text : pystr :=
  lit "No heading in this text.
A second line, with # inside.".

Definition fs_plain : pystr -> exn + pystr :=
  table_fs [(lit "/out/t/storm_gen_article.md", inr plain_text)].


Definition json_demo : pystr -> result pyval :=
  table_json [(lit "[]", VList []); (lit "{}", VDict []);
              (lit "null", VNone);
              (json_text "{'agent': 1}",
               VDict [(VStr (lit "agent"), VInt 1)])].

Definition fs_topic_a : pystr -> exn + pystr :=
  table_fs [(lit "/out/topic_a/storm_gen_article.md", inr article_text);
            (lit "/out/topic_a/conversation_log.json", inr (lit "[]"))].

Definition read_bytes_demo (p : pystr) : exn + list Byte.byte :=
  if str_eqb p (lit "a.png") then inr [Byte.x4d; Byte.x61]
  else if str_eqb p (lit "b.png") then inr [Byte.x4d; Byte.x61]
  else inl FileNotFoundError.

(** A text of 2000 opening brackets, and a decoder that, like
    [json.loads], gives up on it with [RecursionError]. *)
Definition deep_text : pystr := repeat (91%N : char) 2000.

Definition json_deep (s : pystr) : result pyval :=
  if str_eqb s deep_text then Raise RecursionError else table_json [] s.

(** A conversation log in which integer agents stand beside a string, a
    [null] and a boolean agent, and beside an entry without agent. *)
Definition mixed_log_text : pystr :=
  json_text "[{'agent': 0, 'text': 'hi'}, {'agent': 'moderator', 'text': 'order'}, {'agent': 5, 'text': 'yo'}, {'text': 'none'}, {'agent': null}, {'agent': true}, {'agent': -1}]".

Definition mixed_log_entries : list pyval :=
  [VDict [(VStr (lit "agent"), VInt 0); (VStr (lit "text"), VStr (lit "hi"))];
   VDict [(VStr (lit "agent"), VStr (lit "moderator"));
          (VStr (lit "text"), VStr (lit "order"))];
   VDict [(VStr (lit "agent"), VInt 5); (VStr (lit "text"), VStr (lit "yo"))];
   VDict [(VStr (lit "text"), VStr (lit "none"))];
   VDict [(VStr (lit "agent"), VNone)];
   VDict [(VStr (lit "agent"), VBool true)];
   VDict [(VStr (lit "agent"), VInt (-1))]].

Definition mixed_log_renamed : list pyval :=
  [VDict [(VStr (lit "agent"), VStr (lit "User"));
          (VStr (lit "text"), VStr (lit "hi"))];
   VDict [(VStr (lit "agent"), VStr (lit "moderator"));
          (VStr (lit "text"), VStr (lit "order"))];
   VDict [(VStr (lit "agent"), VStr (lit "Agent 5"));
          (VStr (lit "text"), VStr (lit "yo"))];
   VDict [(VStr (lit "text"), VStr (lit "none"))];
   VDict [(VStr (lit "agent"), VNone)];
   VDict [(VStr (lit "agent"), VStr (lit "AI Assistant"))];
   VDict [(VStr (lit "agent"), VStr (lit "Agent -1"))]].

(* ===================================================================== *)
(** * Properties *)
(* ===================================================================== *)

(** ** Strings *)

Lemma str_eqb_eq (a b : pystr) : str_eqb a b = true <-> a = b.
Proof.
  unfold str_eqb. destruct (list_eq_dec N.eq_dec a b); split; congruence.
Qed.

Lemma str_eqb_refl (a : pystr) : str_eqb a a = true.
Proof. now apply str_eqb_eq. Qed.

Lemma str_eqb_neq (a b : pystr) : str_eqb a b = false <-> a <> b.
Proof.
  unfold str_eqb. destruct (list_eq_dec N.eq_dec a b); split; congruence.
Qed.

(** ** Lines *)

Lemma lines_keepends_nl (s : pystr) :
  lines_keepends (nl :: s) = [nl] :: lines_keepends s.
Proof. reflexivity. Qed.

Lemma lines_keepends_other (c : char) (s : pystr) :
  N.eqb c nl = false ->
  lines_keepends (c :: s) = (c :: first_line s) :: tl (lines_keepends s).
Proof.
  intros H. unfold first_line. cbn [lines_keepends]. rewrite H.
  destruct (lines_keepends s); reflexivity.
Qed.

Lemma first_line_nl (s : pystr) : first_line (nl :: s) = [nl].
Proof. reflexivity. Qed.

Lemma first_line_other (c : char) (s : pystr) :
  N.eqb c nl = false -> first_line (c :: s) = c :: first_line s.
Proof.
  intros H. unfold first_line at 1. now rewrite lines_keepends_other.
Qed.

Lemma concat_lines_keepends (s : pystr) : concat (lines_keepends s) = s.
Proof.
  induction s as [|c s IH]; [reflexivity|].
  destruct (N.eqb c nl) eqn:E.
  - apply N.eqb_eq in E. subst c. rewrite lines_keepends_nl. cbn. now rewrite IH.
  - rewrite lines_keepends_other by assumption. cbn. f_equal.
    rewrite <- IH at 3. unfold first_line.
    destruct (lines_keepends s); reflexivity.
Qed.

Lemma heading_1_3_hd (l : pystr) :
  heading_1_3 l = match l with [] => false | c :: _ => is_hash c end.
Proof.
  unfold heading_1_3, is_hash. cbn [existsb repeat startswith].
  destruct l as [|c l]; [reflexivity|].
  rewrite (N.eqb_sym c hash).
  destruct (N.eqb hash c); [reflexivity|]. reflexivity.
Qed.

Lemma startswith_hashes_hd (n : nat) (l : pystr) :
  starts_with_hashes (S n) l = true -> heading_1_3 l = true.
Proof.
  rewrite heading_1_3_hd. unfold starts_with_hashes, is_hash.
  cbn [repeat startswith]. destruct l as [|c l]; [discriminate|].
  rewrite (N.eqb_sym c hash). intros H.
  now apply andb_true_iff in H.
Qed.

Lemma hash_not_nl (c : char) : is_hash c = true -> N.eqb c nl = false.
Proof.
  unfold is_hash. intros H. apply N.eqb_eq in H. now subst c.
Qed.

(** ** The matcher on the title pattern *)

Lemma match_optional_nl (prev : option char) (s : pystr) :
  Re.match_here [Re.Rep is_nl 0 (Some 1)] prev s =
  Some (match s with
        | [] => O
        | c :: _ => if is_nl c then 1 else O
        end).
Proof.
  cbn [Re.match_here Re.rep]. destruct s as [|c s]; [reflexivity|].
  destruct (is_nl c); [|reflexivity].
  cbn [pred]. destruct s; reflexivity.
Qed.

Lemma rep_rest_of_line (hi : nat) (prev : option char) (s : pystr) :
  List.length s <= hi ->
  Re.rep not_nl (Re.match_here [Re.Rep is_nl 0 (Some 1)]) 0 hi prev s =
  Some (List.length (first_line s)).
Proof.
  revert hi prev. induction s as [|c s IH]; intros hi prev Hle.
  - destruct hi; reflexivity.
  - cbn [List.length] in Hle. destruct hi as [|hi]; [lia|].
    cbn [Re.rep pred]. unfold not_nl at 1.
    destruct (N.eqb c nl) eqn:E; cbn [negb].
    + rewrite match_optional_nl. unfold is_nl. rewrite E.
      apply N.eqb_eq in E. subst c. reflexivity.
    + rewrite IH by lia. rewrite first_line_other by assumption. reflexivity.
Qed.

Lemma match_tail_re (prev : option char) (s : pystr) :
  Re.match_here tail_re prev s = Some (List.length (first_line s)).
Proof.
  unfold tail_re. cbn [Re.match_here]. now apply rep_rest_of_line.
Qed.

Lemma rep_hashes_then_line (hi : nat) (prev : option char) (s : pystr) :
  Re.rep is_hash (Re.match_here tail_re) 0 hi prev s =
  Some (List.length (first_line s)).
Proof.
  revert prev s. induction hi as [|hi IH]; intros prev s.
  - cbn [Re.rep]. destruct s; apply match_tail_re.
  - destruct s as [|c s]; [apply match_tail_re|].
    cbn [Re.rep pred]. destruct (is_hash c) eqn:E.
    + rewrite IH. rewrite first_line_other by now apply hash_not_nl.
      reflexivity.
    + apply match_tail_re.
Qed.

Lemma rep_cons (cls : char -> bool) k (lo hi : nat) prev c (s : pystr) :
  Re.rep cls k lo (S hi) prev (c :: s) =
  if cls c then
    match Re.rep cls k (pred lo) hi (Some c) s with
    | Some n => Some (S n)
    | None => match lo with O => k prev (c :: s) | S _ => None end
    end
  else match lo with O => k prev (c :: s) | S _ => None end.
Proof. reflexivity. Qed.

Lemma match_title_unfold (prev : option char) (s : pystr) :
  Re.match_here title_re prev s =
  if Re.at_bol prev
  then Re.rep is_hash (Re.match_here tail_re) 1 3 prev s
  else None.
Proof. reflexivity. Qed.

(** On a line start, a line that begins with [#] is matched whole, with
    its newline. *)
Lemma match_title_heading (prev : option char) (c : char) (s : pystr) :
  Re.at_bol prev = true -> is_hash c = true ->
  Re.match_here title_re prev (c :: s) =
  Some (S (List.length (first_line s))).
Proof.
  intros Hb Hc. rewrite match_title_unfold, Hb, rep_cons, Hc.
  cbn [pred]. now rewrite rep_hashes_then_line.
Qed.

(** Elsewhere the pattern does not match. *)
Lemma match_title_none (prev : option char) (s : pystr) :
  Re.at_bol prev = false \/
  match s with [] => True | c :: _ => is_hash c = false end ->
  Re.match_here title_re prev s = None.
Proof.
  intros H. rewrite match_title_unfold.
  destruct (Re.at_bol prev); [|reflexivity].
  destruct H as [H|H]; [discriminate|].
  destruct s as [|c s]; [reflexivity|].
  now rewrite rep_cons, H.
Qed.

(** ** [re.sub] on the title pattern removes the heading lines *)

Lemma sub_from_title (s : pystr) :
  (forall prev, Re.at_bol prev = true ->
     Re.sub_from title_re 0 prev s =
     concat (filter keep_line (lines_keepends s))) /\
  (forall prev, Re.at_bol prev = false ->
     Re.sub_from title_re 0 prev s =
     first_line s ++ concat (filter keep_line (tl (lines_keepends s)))) /\
  (forall prev,
     Re.sub_from title_re (List.length (first_line s)) prev s =
     concat (filter keep_line (tl (lines_keepends s)))).
Proof.
  induction s as [|c s (IHa & IHb & IHc)].
  - repeat split; reflexivity.
  - assert (Hnl : Re.at_bol (Some nl) = true) by reflexivity.
    destruct (N.eqb c nl) eqn:E.
    + (* the character is a newline *)
      apply N.eqb_eq in E. subst c.
      rewrite lines_keepends_nl, first_line_nl. cbn [tl filter].
      repeat split; intros prev; [intros Hb | intros Hb | ].
      * cbn [Re.sub_from]. rewrite match_title_none by (right; reflexivity).
        rewrite (IHa _ Hnl). reflexivity.
      * cbn [Re.sub_from]. rewrite match_title_none by now left.
        rewrite (IHa _ Hnl). reflexivity.
      * cbn [Re.sub_from List.length]. apply (IHa _ Hnl).
    + assert (Hc : Re.at_bol (Some c) = false) by exact E.
      rewrite lines_keepends_other, first_line_other by assumption.
      cbn [tl filter].
      repeat split; intros prev; [intros Hb | intros Hb | ].
      * unfold keep_line at 1. rewrite heading_1_3_hd.
        destruct (is_hash c) eqn:Eh; cbn [negb].
        -- cbn [Re.sub_from]. rewrite match_title_heading by assumption.
           apply IHc.
        -- cbn [Re.sub_from]. rewrite match_title_none by now right.
           rewrite (IHb _ Hc). reflexivity.
      * cbn [Re.sub_from]. rewrite match_title_none by now left.
        rewrite (IHb _ Hc). reflexivity.
      * cbn [Re.sub_from List.length]. apply IHc.
Qed.

(** The removal of the source is the removal the specification words. *)
Lemma remove_title_lines_spec (s : pystr) :
  remove_title_lines s = strip_headings_spec s.
Proof.
  unfold remove_title_lines, Re.sub_empty, strip_headings_spec.
  now apply (proj1 (sub_from_title s)).
Qed.

(** ** The lines that remain *)

Lemma line_list_lines (s : pystr) : line_list (lines_keepends s).
Proof.
  induction s as [|c s IH]; [constructor|].
  destruct (N.eqb c nl) eqn:E.
  - apply N.eqb_eq in E. subst c. rewrite lines_keepends_nl.
    apply (ll_cons (body := [])); [constructor | assumption].
  - rewrite lines_keepends_other by assumption. unfold first_line.
    inversion IH as [Hs | l Hl Hf Hs | body ls Hf Hls Hs]; cbn [hd tl].
    + apply ll_last; [discriminate | now repeat constructor].
    + apply ll_last; [discriminate | now constructor].
    + apply (ll_cons (body := c :: body)); [now constructor | assumption].
Qed.

Lemma line_list_filter (f : pystr -> bool) (ls : list pystr) :
  line_list ls -> line_list (filter f ls).
Proof.
  induction 1 as [| l Hl Hf | body ls Hf Hls IH]; cbn [filter].
  - constructor.
  - destruct (f l); [now apply ll_last | constructor].
  - destruct (f (body ++ [nl])); [now apply ll_cons | assumption].
Qed.

Lemma lines_open_line (l : pystr) :
  l <> [] -> Forall (fun c => N.eqb c nl = false) l ->
  lines_keepends l = [l].
Proof.
  induction l as [|c l IH]; [congruence|]. intros _ Hf.
  inversion Hf as [|? ? Hc Hl]; subst.
  rewrite lines_keepends_other by assumption. unfold first_line.
  destruct l as [|d l]; [reflexivity|].
  rewrite IH by (discriminate || assumption). reflexivity.
Qed.

Lemma lines_closed_line (body t : pystr) :
  Forall (fun c => N.eqb c nl = false) body ->
  lines_keepends ((body ++ [nl]) ++ t) = (body ++ [nl]) :: lines_keepends t.
Proof.
  induction 1 as [|c body Hc Hf IH].
  - reflexivity.
  - cbn [app]. rewrite lines_keepends_other by assumption.
    unfold first_line. cbn [app] in IH. rewrite IH. reflexivity.
Qed.

Lemma lines_concat (ls : list pystr) :
  line_list ls -> lines_keepends (concat ls) = ls.
Proof.
  induction 1 as [| l Hl Hf | body ls Hf Hls IH].
  - reflexivity.
  - cbn [concat]. rewrite app_nil_r. now apply lines_open_line.
  - cbn [concat]. rewrite lines_closed_line by assumption. now rewrite IH.
Qed.

(** The lines of the text after the removal are the lines of the text
    that are not headings, in order. *)
Lemma lines_remove_title_lines (s : pystr) :
  lines_keepends (remove_title_lines s) =
  filter keep_line (lines_keepends s).
Proof.
  rewrite remove_title_lines_spec. unfold strip_headings_spec.
  apply lines_concat, line_list_filter, line_list_lines.
Qed.

Lemma no_heading_from_lines (s : pystr) :
  no_heading_from true s = forallb keep_line (lines_keepends s) /\
  no_heading_from false s = forallb keep_line (tl (lines_keepends s)).
Proof.
  induction s as [|c s [IHt IHf]]; [split; reflexivity|].
  cbn [no_heading_from]. unfold is_nl.
  destruct (N.eqb c nl) eqn:E.
  - apply N.eqb_eq in E. subst c. rewrite lines_keepends_nl.
    cbn [forallb tl]. rewrite IHt. split; reflexivity.
  - rewrite lines_keepends_other by assumption. cbn [forallb tl].
    unfold keep_line at 1. rewrite heading_1_3_hd, IHf. split; reflexivity.
Qed.

Lemma no_heading_from_firstn (n : nat) (bol : bool) (s : pystr) :
  no_heading_from bol s = true -> no_heading_from bol (firstn n s) = true.
Proof.
  revert bol s. induction n as [|n IH]; intros bol s H; [reflexivity|].
  destruct s as [|c s]; [reflexivity|].
  cbn [firstn no_heading_from] in *.
  apply andb_true_iff in H. destruct H as [H1 H2].
  rewrite H1. cbn [andb]. now apply IH.
Qed.

(** A prefix of a text without heading lines has no heading line. *)
Lemma no_heading_lines_firstn (n : nat) (s : pystr) :
  forallb keep_line (lines_keepends s) = true ->
  forallb keep_line (lines_keepends (firstn n s)) = true.
Proof.
  rewrite <- !(proj1 (no_heading_from_lines _)).
  apply no_heading_from_firstn.
Qed.

Lemma no_heading_lines_removed (s : pystr) :
  forallb keep_line (lines_keepends (remove_title_lines s)) = true.
Proof.
  rewrite lines_remove_title_lines. apply forallb_forall.
  intros l Hl. now apply filter_In in Hl.
Qed.

(** ** Dictionaries *)

Lemma key_eqb_int (a b : Z) : key_eqb (VInt a) (VInt b) = Z.eqb a b.
Proof. reflexivity. Qed.

Lemma key_eqb_str (a b : pystr) : key_eqb (VStr a) (VStr b) = str_eqb a b.
Proof. reflexivity. Qed.

(** A key equal to none of the keys present is stored last. *)
Lemma dict_store_fresh (k v : pyval) (d : list (pyval * pyval)) :
  Forall (fun k' => key_eqb k k' = false) (map fst d) ->
  dict_store k v d = d ++ [(k, v)].
Proof.
  induction d as [|[k' v'] d IH]; intros H; [reflexivity|].
  inversion H as [|? ? Hk Hd]; subst. cbn [dict_store fst] in *.
  rewrite Hk, IH by assumption. reflexivity.
Qed.

(** Storing under a key that is present keeps the keys and their order. *)
Lemma dict_store_keys (k v : pyval) (d : list (pyval * pyval)) :
  dict_lookup k d <> None -> map fst (dict_store k v d) = map fst d.
Proof.
  induction d as [|[k' v'] d IH]; intros H; [now contradict H|].
  cbn [dict_store dict_lookup] in *.
  destruct (key_eqb k k'); [reflexivity|]. cbn [map fst]. now rewrite IH.
Qed.

Lemma dict_store_lookup_same (k v : pyval) (d : list (pyval * pyval)) :
  key_eqb k k = true -> dict_lookup k (dict_store k v d) = Some v.
Proof.
  intros Hk. induction d as [|[k' v'] d IH]; cbn [dict_store dict_lookup].
  - now rewrite Hk.
  - destruct (key_eqb k k') eqn:E; cbn [dict_lookup]; rewrite E;
      [reflexivity | assumption].
Qed.

Lemma dict_store_lookup_str_other (k k2 : pystr) (v : pyval)
    (d : list (pyval * pyval)) :
  Forall (fun k' => exists s, k' = VStr s) (map fst d) ->
  k2 <> k ->
  dict_lookup (VStr k2) (dict_store (VStr k) v d) = dict_lookup (VStr k2) d.
Proof.
  intros Hd Hne. induction d as [|[k' v'] d IH]; cbn [dict_store dict_lookup].
  - rewrite key_eqb_str. apply str_eqb_neq in Hne. now rewrite Hne.
  - cbn [map fst] in Hd. apply Forall_cons_iff in Hd.
    destruct Hd as [[s Hs] Hd']. subst k'. rewrite !key_eqb_str.
    destruct (str_eqb k s) eqn:E; cbn [dict_lookup]; rewrite !key_eqb_str.
    + apply str_eqb_eq in E. subst s. apply str_eqb_neq in Hne.
      now rewrite Hne.
    + destruct (str_eqb k2 s); [reflexivity | now apply IH].
Qed.

(** ** The file map *)

Lemma endswith_md_nonempty (k : pystr) :
  endswith (lit ".md") k = true -> k <> [].
Proof. intros H ->. discriminate. Qed.

Lemma first_md_key_some (d : list (pystr * pystr)) (k : pystr) :
  first_md_key d = Some k ->
  endswith (lit ".md") k = true /\ exists p, str_lookup k d = Some p.
Proof.
  unfold first_md_key. intros H. apply find_some in H. destruct H as [Hin He].
  split; [assumption|]. clear He.
  induction d as [|[k' p'] d IH]; [contradiction|].
  cbn [str_lookup]. destruct (str_eqb k k') eqn:E; [now eexists|].
  apply str_eqb_neq in E. destruct Hin as [Hk|Hin]; [cbn in Hk; congruence|].
  now apply IH.
Qed.

Lemma first_md_key_none (d : list (pystr * pystr)) :
  first_md_key d = None <->
  forall k, In k (map fst d) -> endswith (lit ".md") k = false.
Proof.
  unfold first_md_key. split.
  - intros H k Hk. now apply (find_none _ _ H).
  - intros H. destruct (find _ _) eqn:E; [|reflexivity].
    apply find_some in E. destruct E as [Hin He]. rewrite (H _ Hin) in He.
    discriminate.
Qed.

(** ** The assembler: how a call runs *)

Section AssemblerRuns.

Variable parse : pystr -> pystr.

Variable json_loads : pystr -> result pyval.

Variable fs_read : pystr -> exn + pystr.

Local Abbreviation assemble := (assemble_article_data parse json_loads fs_read).

Local Abbreviation body := (assemble_body parse json_loads fs_read).

Local Abbreviation citations_step := (add_citations json_loads fs_read).

Local Abbreviation log_step := (add_conversation_log json_loads fs_read).

Lemma outer_handlers_run (e : exn) :
  exists k, outer_handlers e = Some k /\
            forall w, k w = (log_print (outer_message e) w, Ok None).
Proof.
  unfold outer_handlers, outer_message.
  destruct (is_FileNotFoundError e); [|destruct (is_IOError e)];
    eexists; (split; [reflexivity|]); intros w; reflexivity.
Qed.

Lemma assemble_dict_run (d : list (pystr * pystr)) (key : pystr) (w : world) :
  first_md_key d = Some key ->
  assemble (ArgDict d) w =
  match body d key w with
  | (w', Ok a) => (w', Ok a)
  | (w', Raise e) => (log_print (outer_message e) w', Ok None)
  end.
Proof.
  intros Hk. cbn [assemble_article_data]. rewrite Hk.
  destruct key as [|c key].
  { apply first_md_key_some in Hk. destruct Hk as [Hk _]. discriminate. }
  unfold try_except. destruct (body d (c :: key) w) as [w' [a|e]];
    [reflexivity|].
  destruct (outer_handlers_run e) as (k & -> & Hk'). apply Hk'.
Qed.

Lemma assemble_no_md (d : list (pystr * pystr)) (w : world) :
  first_md_key d = None ->
  assemble (ArgDict d) w = (log_print NoMdFileFound w, Ok None).
Proof. intros Hk. cbn [assemble_article_data]. now rewrite Hk. Qed.

Lemma read_json_file_run (p : pystr) (w : world) :
  read_json_file json_loads fs_read p w =
  (log_open p w,
   match fs_read p with
   | inl e => Raise e
   | inr text => json_loads text
   end).
Proof.
  unfold read_json_file, bind, read_txt_file, log_open.
  destruct (fs_read p) as [e|text]; [reflexivity|].
  destruct (json_loads text); reflexivity.
Qed.

Lemma body_run (d : list (pystr * pystr)) (key p c : pystr) (w : world) :
  str_lookup key d = Some p -> fs_read p = inr c ->
  body d key w =
  match citations_step d (initial_data (parse c)) (log_open p w) with
  | (w1, Ok data1) =>
      match log_step d data1 w1 with
      | (w2, Ok data2) => (w2, Ok (Some data2))
      | (w2, Raise e) => (w2, Raise e)
      end
  | (w1, Raise e) => (w1, Raise e)
  end.
Proof.
  intros Hp Hc. unfold assemble_body, bind, lift, file_map_getitem,
    read_txt_file. rewrite Hp, Hc. fold (log_open p w).
  fold (initial_data (parse c)).
  destruct (citations_step d _ _) as [w1 [data1|e]]; [|reflexivity].
  destruct (log_step d data1 w1) as [w2 [data2|e]]; reflexivity.
Qed.

Lemma body_read_fails (d : list (pystr * pystr)) (key p : pystr) (e : exn)
    (w : world) :
  str_lookup key d = Some p -> fs_read p = inl e ->
  body d key w = (log_open p w, Raise e).
Proof.
  intros Hp He. unfold assemble_body, bind, lift, file_map_getitem,
    read_txt_file. now rewrite Hp, He.
Qed.

(** The citations step, run. *)
Lemma citations_step_run (d : list (pystr * pystr)) (data : article_data)
    (w : world) :
  citations_step d data w =
  match str_lookup (lit "url_to_info.json") d with
  | None => (w, Ok data)
  | Some p =>
      (log_open p w,
       match fs_read p with
       | inl e => Raise e
       | inr text =>
           match json_loads text with
           | Raise e => Raise e
           | Ok url_info =>
               match citations_of url_info with
               | Ok c => Ok (set_citations data c)
               | Raise e => Raise e
               end
           end
       end)
  end.
Proof.
  unfold add_citations, file_map_has, file_map_getitem.
  destruct (str_lookup (lit "url_to_info.json") d) as [p|]; [|reflexivity].
  unfold bind, lift. rewrite read_json_file_run.
  destruct (fs_read p) as [e|text]; [reflexivity|].
  destruct (json_loads text) as [v|e]; [|reflexivity].
  destruct (citations_of v); reflexivity.
Qed.

Lemma log_step_run (d : list (pystr * pystr)) (data : article_data)
    (w : world) :
  log_step d data w =
  match str_lookup (lit "conversation_log.json") d with
  | None => (w, Ok data)
  | Some p =>
      match log_attempt json_loads fs_read p with
      | Ok log' => (log_open p w, Ok (set_conversation_log data log'))
      | Raise e =>
          if is_JSONDecodeError e
          then (log_print ConversationLogDecodeMsg (log_open p w), Ok data)
          else (log_open p w, Raise e)
      end
  end.
Proof.
  unfold add_conversation_log, file_map_has, file_map_getitem, log_attempt.
  destruct (str_lookup (lit "conversation_log.json") d) as [p|];
    [|reflexivity].
  unfold try_except, bind, lift. rewrite read_json_file_run.
  destruct (fs_read p) as [e|text].
  - destruct (is_JSONDecodeError e); reflexivity.
  - destruct (json_loads text) as [v|e];
      [|destruct (is_JSONDecodeError e); reflexivity].
    destruct (rename_agents v) as [v'|e]; [reflexivity|].
    destruct (is_JSONDecodeError e); reflexivity.
Qed.

(** Both steps leave the fields of the display as they are. *)
Lemma citations_step_fields (d : list (pystr * pystr))
    (data data' : article_data) (w w' : world) :
  citations_step d data w = (w', Ok data') ->
  article data' = article data /\ short_text data' = short_text data /\
  citation data' = citation data /\
  conversation_log data' = conversation_log data.
Proof.
  rewrite citations_step_run.
  destruct (str_lookup (lit "url_to_info.json") d) as [p|].
  - destruct (fs_read p) as [e|text]; [discriminate|].
    destruct (json_loads text) as [v|]; [|discriminate].
    destruct (citations_of v); [|discriminate].
    intros [= _ <-]. now repeat split.
  - intros [= _ <-]. now repeat split.
Qed.

Lemma log_step_fields (d : list (pystr * pystr))
    (data data' : article_data) (w w' : world) :
  log_step d data w = (w', Ok data') ->
  article data' = article data /\ short_text data' = short_text data /\
  citation data' = citation data /\ citations data' = citations data.
Proof.
  rewrite log_step_run.
  destruct (str_lookup (lit "conversation_log.json") d) as [p|].
  - destruct (log_attempt json_loads fs_read p) as [v|e].
    + intros [= _ <-]. now repeat split.
    + destruct (is_JSONDecodeError e); [|discriminate].
      intros [= _ <-]. now repeat split.
  - intros [= _ <-]. now repeat split.
Qed.

(** A call that returns a record read the selected [.md] file and ran
    both steps. *)
Lemma assemble_record_inv (d : list (pystr * pystr)) (w w' : world)
    (r : article_data) :
  assemble (ArgDict d) w = (w', Ok (Some r)) ->
  exists key p c w1 data1,
    first_md_key d = Some key /\ str_lookup key d = Some p /\
    fs_read p = inr c /\
    citations_step d (initial_data (parse c)) (log_open p w)
      = (w1, Ok data1) /\
    log_step d data1 w1 = (w', Ok r).
Proof.
  intros H. destruct (first_md_key d) as [key|] eqn:Hk.
  2:{ rewrite assemble_no_md in H by assumption. discriminate. }
  rewrite (assemble_dict_run _ _ Hk) in H.
  destruct (first_md_key_some _ Hk) as [_ [p Hp]].
  destruct (fs_read p) as [e|c] eqn:Hc.
  { rewrite (body_read_fails _ _ _ Hp Hc) in H. discriminate. }
  rewrite (body_run _ _ _ Hp Hc) in H.
  destruct (citations_step d _ _) as [w1 [data1|e]] eqn:H1; [|discriminate].
  destruct (log_step d data1 w1) as [w2 [data2|e]] eqn:H2; [|discriminate].
  injection H as <- <-. now exists key, p, c, w1, data1.
Qed.

(** The fields of the display in a returned record. *)
Lemma assemble_record_fields (d : list (pystr * pystr)) (w w' : world)
    (r : article_data) :
  assemble (ArgDict d) w = (w', Ok (Some r)) ->
  exists key p c,
    first_md_key d = Some key /\ str_lookup key d = Some p /\
    fs_read p = inr c /\
    article r = parse c /\
    short_text r = slice_to 100 (remove_title_lines (parse c)) /\
    citation r = VNone.
Proof.
  intros H. apply assemble_record_inv in H.
  destruct H as (key & p & c & w1 & data1 & Hk & Hp & Hc & H1 & H2).
  apply citations_step_fields in H1. apply log_step_fields in H2.
  destruct H1 as (A1 & S1 & C1 & _). destruct H2 as (A2 & S2 & C2 & _).
  unfold initial_data in *. cbn [article short_text citation] in *.
  exists key, p, c. repeat split; try assumption; congruence.
Qed.

End AssemblerRuns.

(* ===================================================================== *)
(** * The claims *)
(* ===================================================================== *)

Lemma starts_with_hashes_heading (n : nat) (l : pystr) :
  1 <= n -> starts_with_hashes n l = true -> heading_1_3 l = true.
Proof.
  intros Hn H. destruct n as [|n]; [lia|].
  now apply startswith_hashes_hd in H.
Qed.

Lemma heading_1_3_one_hash (l : pystr) :
  heading_1_3 l = starts_with_hashes 1 l.
Proof.
  rewrite heading_1_3_hd. unfold starts_with_hashes, is_hash.
  cbn [repeat startswith]. destruct l as [|c l]; [reflexivity|].
  rewrite (N.eqb_sym c hash). now rewrite andb_true_r.
Qed.

(** C1. For a file map whose selected [.md] key names a readable file,
    the call returns without raising, and the [short_text] of a returned
    record is the first 100 characters of the parsed content with every
    line that starts with 1 to 3 [#] characters removed (newline
    included): at most 100 characters, without a line that starts with
    [#], and the whole remainder when that is shorter than 100
    characters. A map with no other key does return a record. *)
Theorem short_text_is_stripped_prefix
    (parse : pystr -> pystr) (json_loads : pystr -> result pyval)
    (fs_read : pystr -> exn + pystr)
    (d : list (pystr * pystr)) (key p c : pystr) (w : world) :
  first_md_key d = Some key -> str_lookup key d = Some p ->
  fs_read p = inr c ->
  exists w' res,
    assemble_article_data parse json_loads fs_read (ArgDict d) w
      = (w', Ok res) /\
    (forall r, res = Some r ->
       article r = parse c /\
       short_text r = firstn 100 (strip_headings_spec (parse c)) /\
       List.length (short_text r) <= 100 /\
       forallb (fun l => negb (heading_1_3 l))
               (lines_keepends (short_text r)) = true /\
       (List.length (strip_headings_spec (parse c)) < 100 ->
        short_text r = strip_headings_spec (parse c))) /\
    (str_lookup (lit "url_to_info.json") d = None ->
     str_lookup (lit "conversation_log.json") d = None ->
     exists r, res = Some r).
Proof.
  intros Hk Hp Hc.
  destruct (assemble_article_data parse json_loads fs_read (ArgDict d) w)
    as [w' res] eqn:H.
  assert (Hres : exists res', res = Ok res').
  { rewrite (assemble_dict_run _ _ _ _ _ Hk) in H.
    destruct (assemble_body _ _ _ _ _ _) as [w2 [a|e]];
      injection H as <- <-; now eexists. }
  destruct Hres as [res' ->]. exists w', res'. split; [reflexivity|]. split.
  - intros r ->. destruct (assemble_record_fields _ _ _ _ _ H)
      as (key' & p' & c' & Hk' & Hp' & Hc' & Ha & Hs & _).
    assert (key' = key) by congruence. subst key'.
    assert (p' = p) by congruence. subst p'.
    assert (c' = c) by congruence. subst c'.
    rewrite Hs, remove_title_lines_spec. unfold slice_to.
    repeat split.
    + assumption.
    + apply firstn_le_length.
    + rewrite <- remove_title_lines_spec.
      apply (no_heading_lines_firstn 100), no_heading_lines_removed.
    + intros Hlen. apply firstn_all2. lia.
  - intros Hu Hl. rewrite (assemble_dict_run _ _ _ _ _ Hk) in H.
    rewrite (body_run _ _ _ _ _ _ Hp Hc) in H.
    rewrite citations_step_run, Hu, log_step_run, Hl in H.
    injection H as _ <-. now eexists.
Qed.

(** C10. The removal also deletes the lines that start with four or more
    [#] characters: the [short_text] of a returned record is cut from the
    parsed content without every line that starts with at least one [#],
    and no line of it starts with [n] hashes, whatever [n >= 1] is. *)
Theorem deeper_headings_removed_too
    (parse : pystr -> pystr) (json_loads : pystr -> result pyval)
    (fs_read : pystr -> exn + pystr)
    (d : list (pystr * pystr)) (w w' : world) (r : article_data) :
  assemble_article_data parse json_loads fs_read (ArgDict d) w
    = (w', Ok (Some r)) ->
  short_text r =
    firstn 100
      (concat (filter (fun l => negb (starts_with_hashes 1 l))
                      (lines_keepends (article r)))) /\
  (forall n l, 1 <= n -> starts_with_hashes n l = true ->
     ~ In l (lines_keepends (remove_title_lines (article r))) /\
     ~ In l (lines_keepends (short_text r))).
Proof.
  intros H. destruct (assemble_record_fields _ _ _ _ _ H)
    as (key & p & c & _ & _ & _ & Ha & Hs & _).
  rewrite Hs, Ha. unfold slice_to. split.
  - rewrite remove_title_lines_spec. unfold strip_headings_spec.
    f_equal. f_equal. apply filter_ext. intros l.
    now rewrite heading_1_3_one_hash.
  - intros n l Hn Hl. apply starts_with_hashes_heading in Hl; [|assumption].
    split; intros Hin.
    + rewrite lines_remove_title_lines in Hin. apply filter_In in Hin.
      destruct Hin as [_ Hkeep]. unfold keep_line in Hkeep.
      now rewrite Hl in Hkeep.
    + pose proof (no_heading_lines_firstn 100 _
                    (no_heading_lines_removed (parse c))) as Hall.
      rewrite forallb_forall in Hall. specialize (Hall _ Hin).
      unfold keep_line in Hall. now rewrite Hl in Hall.
Qed.

(** C3. An argument that is not a [dict] makes the call raise a
    [TypeError] to the caller, before anything is read or printed. *)
Theorem non_dict_argument_raises
    (parse : pystr -> pystr) (json_loads : pystr -> result pyval)
    (fs_read : pystr -> exn + pystr) (a : argument) (w : world) :
  isinstance_dict a = false ->
  assemble_article_data parse json_loads fs_read a w =
  (w, Raise (TypeError
               (Some (lit "article_file_path_dict must be a dictionary")))).
Proof. destruct a; (discriminate || reflexivity). Qed.



(** *** Concrete runs for C1 to C4 and C10 *)

Lemma short_text_is_stripped_prefix_witness :
  exists w' res,
    assemble_article_data parse_id (table_json []) fs_article_only
      (ArgDict topic_article_only) initial_world = (w', Ok res) /\
    (forall r, res = Some r ->
       article r = parse_id article_text /\
       short_text r = firstn 100 (strip_headings_spec (parse_id article_text)) /\
       List.length (short_text r) <= 100 /\
       forallb (fun l => negb (heading_1_3 l))
               (lines_keepends (short_text r)) = true /\
       (List.length (strip_headings_spec (parse_id article_text)) < 100 ->
        short_text r = strip_headings_spec (parse_id article_text))) /\
    (str_lookup (lit "url_to_info.json") topic_article_only = None ->
     str_lookup (lit "conversation_log.json") topic_article_only = None ->
     exists r, res = Some r).
Proof.
  apply (@short_text_is_stripped_prefix parse_id (table_json [])
           fs_article_only topic_article_only
           (lit "storm_gen_article.md") (lit "/out/t/storm_gen_article.md")
           article_text initial_world); reflexivity.
Defined.

Example article_only_run :
  assemble_article_data parse_id (table_json []) fs_article_only
    (ArgDict topic_article_only) initial_world =
  (mkWorld [lit "/out/t/storm_gen_article.md"] [],
   Ok (Some (mkArticle article_text
               (lit "Body of the article.
More text #1.
") VNone None None))).
Proof. vm_compute. reflexivity. Qed.

Lemma deeper_headings_removed_too_witness :
  short_text
    (mkArticle article_text (lit "Body of the article.
More text #1.
") VNone None None) =
    firstn 100
      (concat (filter (fun l => negb (starts_with_hashes 1 l))
                      (lines_keepends article_text))) /\
  (forall n l, 1 <= n -> starts_with_hashes n l = true ->
     ~ In l (lines_keepends (remove_title_lines article_text)) /\
     ~ In l (lines_keepends (lit "Body of the article.
More text #1.
"))).
Proof.
  apply (@deeper_headings_removed_too parse_id (table_json [])
           fs_article_only topic_article_only initial_world
           (mkWorld [lit "/out/t/storm_gen_article.md"] [])).
  vm_compute. reflexivity.
Defined.

Lemma non_dict_argument_raises_witness :
  assemble_article_data parse_id (table_json []) fs_article_only
    (ArgList [VStr (lit "storm_gen_article.md")]) initial_world =
  (initial_world,
   Raise (TypeError
            (Some (lit "article_file_path_dict must be a dictionary")))).
Proof.
  apply (@non_dict_argument_raises parse_id (table_json []) fs_article_only
           (ArgList [VStr (lit "storm_gen_article.md")]) initial_world).
  reflexivity.
Defined.

Example string_argument_raises :
  snd (assemble_article_data parse_id (table_json []) fs_article_only
         (ArgStr (lit "storm_gen_article.md")) initial_world) =
  Raise (TypeError (Some (lit "article_file_path_dict must be a dictionary"))).
Proof. reflexivity. Qed.



(** *** C5: a conversation log that does not decode *)

(** C5, as stated, fails: with a readable article and an undecodable
    [conversation_log.json], an undecodable [url_to_info.json] still turns
    the whole result into [None]; and so does, without any
    [url_to_info.json], a log whose invalid text the decoder rejects with
    another exception than [json.JSONDecodeError], such as the
    [RecursionError] for 2000 opening brackets. *)
Lemma corrupt_log_and_citations_counterexample :
  first_md_key topic_full = Some (lit "storm_gen_article.md") /\
  fs_full (lit "{") (lit "[{")
    (lit "/out/t/storm_gen_article.md") = inr article_text /\
  str_lookup (lit "conversation_log.json") topic_full
    = Some (lit "/out/t/conversation_log.json") /\
  fs_full (lit "{") (lit "[{")
    (lit "/out/t/conversation_log.json") = inr (lit "[{") /\
  table_json [] (lit "[{") = Raise JSONDecodeError /\
  assemble_article_data parse_id (table_json [])
    (fs_full (lit "{") (lit "[{")) (ArgDict topic_full) initial_world =
  (mkWorld [lit "/out/t/storm_gen_article.md";
            lit "/out/t/url_to_info.json"]
           [UnexpectedErrorMsg JSONDecodeError],
   Ok None) /\
  json_deep deep_text = Raise RecursionError /\
  assemble_article_data parse_id json_deep (fs_full [] deep_text)
    (ArgDict topic_with_log) initial_world =
  (mkWorld [lit "/out/t/storm_gen_article.md";
            lit "/out/t/conversation_log.json"]
           [UnexpectedErrorMsg RecursionError],
   Ok None).
Proof. repeat split; vm_compute; reflexivity. Qed.

(** C5, amended. With a readable article and a [conversation_log.json]
    whose file can be read as text and whose content the decoder rejects
    with [json.JSONDecodeError], and when the citations step does not
    fail ([url_to_info.json] is absent, or is read, decoded and turned into
    citations without error), the call returns a record: the decoding
    error is reported, [conversation_log] is absent, and [article],
    [short_text], [citation] and, with [url_to_info.json] present,
    [citations] are set. *)
Theorem corrupt_conversation_log_is_omitted
    (parse : pystr -> pystr) (json_loads : pystr -> result pyval)
    (fs_read : pystr -> exn + pystr)
    (d : list (pystr * pystr)) (key p c q t : pystr)
    (cit : option pyval) (w : world) :
  first_md_key d = Some key -> str_lookup key d = Some p ->
  fs_read p = inr c ->
  str_lookup (lit "conversation_log.json") d = Some q ->
  fs_read q = inr t -> json_loads t = Raise JSONDecodeError ->
  (str_lookup (lit "url_to_info.json") d = None /\ cit = None) \/
  (exists u ut v cs,
     str_lookup (lit "url_to_info.json") d = Some u /\
     fs_read u = inr ut /\ json_loads ut = Ok v /\
     citations_of v = Ok cs /\ cit = Some cs) ->
  exists w',
    assemble_article_data parse json_loads fs_read (ArgDict d) w =
    (w', Ok (Some (mkArticle (parse c)
                     (slice_to 100 (remove_title_lines (parse c)))
                     VNone cit None))) /\
    printed w' = printed w ++ [ConversationLogDecodeMsg].
Proof.
  intros Hk Hp Hc Hq Ht Hj Hcit. rewrite (assemble_dict_run _ _ _ _ _ Hk).
  rewrite (body_run _ _ _ _ _ _ Hp Hc), citations_step_run.
  destruct Hcit as [[Hu ->] | (u & ut & v & cs & Hu & Hut & Hv & Hcs & ->)].
  - rewrite Hu, log_step_run, Hq. unfold log_attempt. rewrite Ht, Hj.
    cbn [is_JSONDecodeError]. eexists. split; reflexivity.
  - rewrite Hu, Hut, Hv, Hcs, log_step_run, Hq. unfold log_attempt.
    rewrite Ht, Hj. cbn [is_JSONDecodeError]. eexists. split; reflexivity.
Qed.

Lemma corrupt_conversation_log_is_omitted_witness :
  exists w',
    assemble_article_data parse_id
      (table_json [(lit "{}", VDict [])])
      (fs_full (lit "{}") (lit "[{")) (ArgDict topic_full) initial_world =
    (w', Ok (Some (mkArticle (parse_id article_text)
                     (slice_to 100 (remove_title_lines (parse_id article_text)))
                     VNone (Some (VDict [])) None))) /\
    printed w' = printed initial_world ++ [ConversationLogDecodeMsg].
Proof.
  apply (@corrupt_conversation_log_is_omitted parse_id
           (table_json [(lit "{}", VDict [])])
           (fs_full (lit "{}") (lit "[{")) topic_full
           (lit "storm_gen_article.md") (lit "/out/t/storm_gen_article.md")
           article_text (lit "/out/t/conversation_log.json") (lit "[{")
           (Some (VDict [])) initial_world); try reflexivity.
  right. exists (lit "/out/t/url_to_info.json"), (lit "{}"), (VDict []),
    (VDict []). repeat split.
Defined.

(** *** C6 and C8: the citations *)

Lemma py_get_field_or (fields : list (pyval * pyval)) (k : pystr)
    (default : pyval) :
  py_get (VDict fields) k default = Ok (field_or k default fields).
Proof.
  unfold py_get, field_or. now destruct (dict_lookup (VStr k) fields).
Qed.

Lemma build_citation_record (url : pyval) (fields : list (pyval * pyval)) :
  build_citation url (VDict fields) = Ok (citation_record url fields).
Proof.
  unfold build_citation, citation_record, snippets_of, field_or, py_get,
    py_contains, getitem, rbind. cbn [hashable].
  destruct (dict_lookup (VStr (lit "snippets")) fields) as [s|];
    [destruct (truthy s) | cbn [truthy]];
    destruct (dict_lookup (VStr (lit "snippet")) fields);
    destruct (dict_lookup (VStr (lit "title")) fields);
    destruct (dict_lookup (VStr (lit "description")) fields); reflexivity.
Qed.

Lemma enumerate_from_nth (l : list pyval) (i : Z) (n : nat) (c : pyval) :
  nth_error l n = Some c ->
  nth_error (enumerate_from i l) n = Some (VInt (i + Z.of_nat n), c).
Proof.
  revert i n. induction l as [|c' l IH]; intros i n H.
  - destruct n; discriminate.
  - destruct n as [|n]; cbn [nth_error enumerate_from] in *.
    + injection H as ->. now rewrite Z.add_0_r.
    + rewrite (IH _ _ H). do 3 f_equal. lia.
Qed.

Lemma enumerate_from_length (l : list pyval) (i : Z) :
  List.length (enumerate_from i l) = List.length l.
Proof.
  revert i. induction l as [|c l IH]; intros i; [reflexivity|].
  cbn [enumerate_from List.length]. now rewrite IH.
Qed.

(** The loop stores the citation of each item under the next index. *)
Lemma citations_loop_records (items : list (pyval * pyval)) (i : Z)
    (acc : list (pyval * pyval)) :
  Forall (fun item => is_record (snd item)) items ->
  Forall (fun k => exists j, k = VInt j /\ (j < i)%Z) (map fst acc) ->
  citations_loop items i acc =
  Ok (acc ++ enumerate_from i (map citation_of_item items)).
Proof.
  revert i acc. induction items as [|[url info] items IH];
    intros i acc Hrec Hacc.
  - cbn. now rewrite app_nil_r.
  - apply Forall_cons_iff in Hrec. destruct Hrec as [[fields Hf] Hrec].
    cbn [snd] in Hf. subst info.
    cbn [citations_loop]. rewrite build_citation_record. cbn [rbind].
    rewrite dict_store_fresh.
    + rewrite IH; [| assumption |].
      * cbn [map enumerate_from]. unfold citation_of_item at 2.
        cbn [fst snd]. now rewrite <- app_assoc.
      * rewrite map_app. apply Forall_app. split.
        -- eapply Forall_impl; [|exact Hacc].
           intros k [j [-> Hj]]. exists j. split; [reflexivity | lia].
        -- repeat constructor. exists i. split; [reflexivity | lia].
    + eapply Forall_impl; [|exact Hacc].
      intros k [j [-> Hj]]. rewrite key_eqb_int. apply Z.eqb_neq. lia.
Qed.

Lemma citations_of_records (top items : list (pyval * pyval)) :
  field_or (lit "url_to_info") (VDict []) top = VDict items ->
  Forall (fun item => is_record (snd item)) items ->
  citations_of (VDict top) =
  Ok (VDict (enumerate_from 1 (map citation_of_item items))).
Proof.
  intros Htop Hrec. unfold citations_of.
  rewrite py_get_field_or, Htop.
  cbn [rbind py_items]. rewrite citations_loop_records;
    [reflexivity | assumption | constructor].
Qed.

(** The two optional fields of a returned record come from the two
    steps. *)
Lemma assemble_record_citations
    (parse : pystr -> pystr) (json_loads : pystr -> result pyval)
    (fs_read : pystr -> exn + pystr)
    (d : list (pystr * pystr)) (w w' : world) (r : article_data)
    (u ut : pystr) (v : pyval) :
  assemble_article_data parse json_loads fs_read (ArgDict d) w
    = (w', Ok (Some r)) ->
  str_lookup (lit "url_to_info.json") d = Some u ->
  fs_read u = inr ut -> json_loads ut = Ok v ->
  exists c, citations_of v = Ok c /\ citations r = Some c.
Proof.
  intros H Hu Hut Hv. apply assemble_record_inv in H.
  destruct H as (key & p & c & w1 & data1 & _ & _ & _ & H1 & H2).
  apply log_step_fields in H2. destruct H2 as (_ & _ & _ & ->).
  rewrite citations_step_run, Hu, Hut, Hv in H1.
  destruct (citations_of v) as [cs|e]; [|discriminate].
  injection H1 as _ <-. now exists cs.
Qed.

Lemma assemble_record_log
    (parse : pystr -> pystr) (json_loads : pystr -> result pyval)
    (fs_read : pystr -> exn + pystr)
    (d : list (pystr * pystr)) (w w' : world) (r : article_data)
    (q t : pystr) (log log' : pyval) :
  assemble_article_data parse json_loads fs_read (ArgDict d) w
    = (w', Ok (Some r)) ->
  str_lookup (lit "conversation_log.json") d = Some q ->
  fs_read q = inr t -> json_loads t = Ok log ->
  rename_agents log = Ok log' ->
  conversation_log r = Some log'.
Proof.
  intros H Hq Ht Hl Hr. apply assemble_record_inv in H.
  destruct H as (key & p & c & w1 & data1 & _ & _ & _ & _ & H2).
  rewrite log_step_run, Hq in H2. unfold log_attempt in H2.
  rewrite Ht, Hl, Hr in H2. now injection H2 as _ <-.
Qed.

(** C6. When [url_to_info.json] is present and decodes to an object whose
    [url_to_info] field maps URLs to info records, the [citations] of a
    returned record list those URLs in their stored order under the
    indices 1, 2, ..., and a citation takes the empty string for a
    missing [title] or [description]; the step raises nothing. *)
Theorem citations_enumerate_url_to_info
    (parse : pystr -> pystr) (json_loads : pystr -> result pyval)
    (fs_read : pystr -> exn + pystr)
    (d : list (pystr * pystr)) (w w' : world) (r : article_data)
    (u ut : pystr) (top items : list (pyval * pyval)) :
  assemble_article_data parse json_loads fs_read (ArgDict d) w
    = (w', Ok (Some r)) ->
  str_lookup (lit "url_to_info.json") d = Some u ->
  fs_read u = inr ut -> json_loads ut = Ok (VDict top) ->
  field_or (lit "url_to_info") (VDict []) top = VDict items ->
  Forall (fun item => is_record (snd item)) items ->
  exists cs,
    citations_of (VDict top) = Ok (VDict cs) /\
    citations r = Some (VDict cs) /\
    List.length cs = List.length items /\
    forall n url fields,
      nth_error items n = Some (url, VDict fields) ->
      exists snippets,
        nth_error cs n =
        Some (VInt (Z.of_nat n + 1),
              VDict [(VStr (lit "url"), url);
                     (VStr (lit "title"),
                      match dict_lookup (VStr (lit "title")) fields with
                      | Some v => v
                      | None => VStr []
                      end);
                     (VStr (lit "description"),
                      match dict_lookup (VStr (lit "description")) fields with
                      | Some v => v
                      | None => VStr []
                      end);
                     (VStr (lit "snippets"), snippets)]).
Proof.
  intros H Hu Hut Hv Htop Hrec.
  destruct (assemble_record_citations _ _ _ _ _ H Hu Hut Hv)
    as (c & Hc & Hr).
  rewrite (citations_of_records _ Htop Hrec) in Hc. injection Hc as <-.
  exists (enumerate_from 1 (map citation_of_item items)).
  split; [exact (citations_of_records _ Htop Hrec)|]. split; [exact Hr|].
  split.
  - now rewrite enumerate_from_length, length_map.
  - intros n url fields Hn. exists (snippets_of fields).
    rewrite (enumerate_from_nth _ 1 n (c := citation_of_item (url, VDict fields))).
    + rewrite Z.add_comm. reflexivity.
    + rewrite nth_error_map, Hn. reflexivity.
Qed.

(** C8. An info record whose [snippets] is absent or empty and which has
    a [snippet] string gives a citation whose [snippets] is the
    one-element sequence of that string. *)
Theorem snippet_fallback_wraps_snippet
    (url : pyval) (fields : list (pyval * pyval)) (x : pystr) :
  dict_lookup (VStr (lit "snippets")) fields = None \/
  dict_lookup (VStr (lit "snippets")) fields = Some (VList []) ->
  dict_lookup (VStr (lit "snippet")) fields = Some (VStr x) ->
  exists c,
    build_citation url (VDict fields) = Ok (VDict c) /\
    dict_lookup (VStr (lit "snippets")) c = Some (VList [VStr x]).
Proof.
  intros Hs Hx. rewrite build_citation_record. unfold citation_record.
  eexists. split; [reflexivity|].
  unfold snippets_of, field_or. rewrite Hx.
  destruct Hs as [-> | ->]; reflexivity.
Qed.

(** *** Concrete runs for C6 and C8 *)

Example citations_run :
  assemble_article_data parse_id
    (table_json [(url_to_info_text, VDict url_to_info_value)])
    (fs_full url_to_info_text [])
    (ArgDict topic_with_citations) initial_world =
  (mkWorld [lit "/out/t/storm_gen_article.md";
            lit "/out/t/url_to_info.json"] [],
   Ok (Some (mkArticle article_text
               (lit "Body of the article.
More text #1.
") VNone (Some citations_value) None))).
Proof. vm_compute. reflexivity. Qed.

Lemma citations_enumerate_url_to_info_witness :
  exists cs,
    citations_of (VDict url_to_info_value) = Ok (VDict cs) /\
    Some citations_value = Some (VDict cs) /\
    List.length cs = List.length url_to_info_items /\
    forall n url fields,
      nth_error url_to_info_items n = Some (url, VDict fields) ->
      exists snippets,
        nth_error cs n =
        Some (VInt (Z.of_nat n + 1),
              VDict [(VStr (lit "url"), url);
                     (VStr (lit "title"),
                      match dict_lookup (VStr (lit "title")) fields with
                      | Some v => v
                      | None => VStr []
                      end);
                     (VStr (lit "description"),
                      match dict_lookup (VStr (lit "description")) fields with
                      | Some v => v
                      | None => VStr []
                      end);
                     (VStr (lit "snippets"), snippets)]).
Proof.
  apply (@citations_enumerate_url_to_info parse_id
           (table_json [(url_to_info_text, VDict url_to_info_value)])
           (fs_full url_to_info_text []) topic_with_citations
           initial_world
           (mkWorld [lit "/out/t/storm_gen_article.md";
                     lit "/out/t/url_to_info.json"] [])
           (mkArticle article_text (lit "Body of the article.
More text #1.
") VNone (Some citations_value) None)
           (lit "/out/t/url_to_info.json") url_to_info_text
           url_to_info_value url_to_info_items).
  - vm_compute. reflexivity.
  - reflexivity.
  - reflexivity.
  - reflexivity.
  - reflexivity.
  - repeat constructor; eexists; reflexivity.
Defined.

Lemma snippet_fallback_wraps_snippet_witness :
  exists c,
    build_citation (VStr (lit "https://b.example"))
      (VDict [(VStr (lit "snippets"), VList []);
              (VStr (lit "snippet"), VStr (lit "x"))]) = Ok (VDict c) /\
    dict_lookup (VStr (lit "snippets")) c = Some (VList [VStr (lit "x")]).
Proof.
  apply (@snippet_fallback_wraps_snippet (VStr (lit "https://b.example"))
           [(VStr (lit "snippets"), VList []);
            (VStr (lit "snippet"), VStr (lit "x"))] (lit "x")).
  - right. reflexivity.
  - reflexivity.
Defined.

(** *** C7: the agents of the conversation log *)

Lemma agent_names_lookup (n : Z) :
  match dict_lookup (VInt n) agent_names with
  | Some name => name
  | None => VStr (lit "Agent " ++ str_of_agent (VInt n))
  end = VStr (agent_display_name n).
Proof.
  unfold agent_names, agent_display_name. cbn [dict_lookup str_of_agent].
  rewrite !key_eqb_int.
  destruct (Z.eqb n 0); [reflexivity|].
  destruct (Z.eqb n 1); [reflexivity|].
  destruct (Z.eqb n 2); reflexivity.
Qed.

Lemma rename_agent_absent (fields : list (pyval * pyval)) :
  dict_lookup (VStr (lit "agent")) fields = None ->
  rename_agent (VDict fields) = Ok (VDict fields).
Proof.
  intros H. unfold rename_agent, py_contains. now rewrite H.
Qed.

Lemma rename_agent_int (fields : list (pyval * pyval)) (n : Z) :
  dict_lookup (VStr (lit "agent")) fields = Some (VInt n) ->
  rename_agent (VDict fields) =
  Ok (VDict (dict_store (VStr (lit "agent")) (VStr (agent_display_name n))
                        fields)).
Proof.
  intros H. unfold rename_agent, py_contains, getitem, setitem.
  cbn [hashable rbind]. rewrite H. cbn [rbind isinstance_int].
  now rewrite agent_names_lookup.
Qed.

Lemma key_eqb_str_true (s : pystr) (k : pyval) :
  key_eqb (VStr s) k = true -> k = VStr s.
Proof.
  destruct k as [| b | n | f | t | l | d]; cbn; try discriminate.
  intros H. apply str_eqb_eq in H. now subst t.
Qed.

(** Storing under a string key changes the value of no other key. *)
Lemma dict_store_lookup_other (s : pystr) (k v : pyval)
    (d : list (pyval * pyval)) :
  key_eqb k (VStr s) = false ->
  dict_lookup k (dict_store (VStr s) v d) = dict_lookup k d.
Proof.
  intros Hk. induction d as [|[k' v'] d IH]; cbn [dict_store dict_lookup].
  - now rewrite Hk.
  - destruct (key_eqb (VStr s) k') eqn:E; cbn [dict_lookup].
    + apply key_eqb_str_true in E. subst k'. now rewrite Hk.
    + destruct (key_eqb k k'); [reflexivity | exact IH].
Qed.

(** The renaming of one entry never raises a decoding error. *)
Lemma rename_agent_raises (entry : pyval) (x : exn) :
  rename_agent entry = Raise x -> is_JSONDecodeError x = false.
Proof.
  intros H. unfold rename_agent in H.
  destruct entry as [| b | n | f | s | l | d];
    cbn [py_contains rbind getitem setitem int_value hashable] in H;
    repeat match type of H with
           | context [match ?c with _ => _ end] =>
               destruct c;
               cbn [py_contains rbind getitem setitem int_value hashable]
                 in H
           end;
    first [ discriminate H | now injection H as <- ].
Qed.

Lemma rmap_raises (A B : Type) (f : A -> result B) (l : list A) (x : exn) :
  rmap f l = Raise x -> exists a, In a l /\ f a = Raise x.
Proof.
  induction l as [|a l IH]; cbn [rmap]; [discriminate|].
  destruct (f a) as [b|e] eqn:Ha; cbn [rbind].
  - destruct (rmap f l) as [bs|e]; cbn [rbind]; [discriminate|].
    intros [= <-]. destruct (IH eq_refl) as [a' [Hin Hf]].
    exists a'. split; [now right | assumption].
  - intros [= <-]. exists a. split; [now left | assumption].
Qed.

(** A loop that builds a list keeps the positions. *)
Lemma rmap_nth (A B : Type) (f : A -> result B) (l : list A) (l' : list B) :
  rmap f l = Ok l' ->
  List.length l' = List.length l /\
  forall i a, nth_error l i = Some a ->
              exists b, nth_error l' i = Some b /\ f a = Ok b.
Proof.
  revert l'. induction l as [|a l IH]; intros l'; cbn [rmap].
  - intros [= <-]. split; [reflexivity|]. intros [|i] a H; discriminate H.
  - destruct (f a) as [b|e] eqn:Ha; cbn [rbind]; [|discriminate].
    destruct (rmap f l) as [bs|e]; cbn [rbind]; [|discriminate].
    intros [= <-]. destruct (IH bs eq_refl) as [Hlen Hnth].
    split; [cbn [List.length]; now rewrite Hlen|].
    intros [|i] a' H; cbn [nth_error] in *.
    + injection H as <-. now exists b.
    + now apply Hnth.
Qed.

(** The log of a returned record, for a log that decodes to a sequence:
    the loop ran to its end. *)
Lemma assemble_record_log_list
    (parse : pystr -> pystr) (json_loads : pystr -> result pyval)
    (fs_read : pystr -> exn + pystr)
    (d : list (pystr * pystr)) (w w' : world) (r : article_data)
    (q t : pystr) (entries : list pyval) :
  assemble_article_data parse json_loads fs_read (ArgDict d) w
    = (w', Ok (Some r)) ->
  str_lookup (lit "conversation_log.json") d = Some q ->
  fs_read q = inr t -> json_loads t = Ok (VList entries) ->
  exists entries',
    rmap rename_agent entries = Ok entries' /\
    conversation_log r = Some (VList entries').
Proof.
  intros H Hq Ht Hl. apply assemble_record_inv in H.
  destruct H as (key & p & c & w1 & data1 & _ & _ & _ & _ & H2).
  rewrite log_step_run, Hq in H2. unfold log_attempt in H2.
  rewrite Ht, Hl in H2. cbn [rename_agents] in H2.
  destruct (rmap rename_agent entries) as [entries'|x] eqn:Hr;
    cbn [rbind] in H2.
  - injection H2 as _ <-. now exists entries'.
  - apply rmap_raises in Hr. destruct Hr as [a [_ Ha]].
    apply rename_agent_raises in Ha. rewrite Ha in H2. discriminate H2.
Qed.

(** C7. When [conversation_log.json] decodes to a sequence, the
    [conversation_log] of a returned record is a sequence of the same
    length in which, whatever the other entries are, every entry with an
    integer [agent] has it replaced by the name of the agent (0 by
    "User", 1 by "AI Assistant", 2 by "Expert", any other [n] by
    "Agent n"), its keys and its other fields as they were, and every
    entry without [agent] is as it was. *)
Theorem agents_renamed_in_log
    (parse : pystr -> pystr) (json_loads : pystr -> result pyval)
    (fs_read : pystr -> exn + pystr)
    (d : list (pystr * pystr)) (w w' : world) (r : article_data)
    (q t : pystr) (entries : list pyval) :
  assemble_article_data parse json_loads fs_read (ArgDict d) w
    = (w', Ok (Some r)) ->
  str_lookup (lit "conversation_log.json") d = Some q ->
  fs_read q = inr t -> json_loads t = Ok (VList entries) ->
  exists entries',
    conversation_log r = Some (VList entries') /\
    List.length entries' = List.length entries /\
    (forall i fields n,
       nth_error entries i = Some (VDict fields) ->
       dict_lookup (VStr (lit "agent")) fields = Some (VInt n) ->
       exists fields',
         nth_error entries' i = Some (VDict fields') /\
         map fst fields' = map fst fields /\
         dict_lookup (VStr (lit "agent")) fields'
           = Some (VStr (agent_display_name n)) /\
         forall k, key_eqb k (VStr (lit "agent")) = false ->
                   dict_lookup k fields' = dict_lookup k fields) /\
    (forall i fields,
       nth_error entries i = Some (VDict fields) ->
       dict_lookup (VStr (lit "agent")) fields = None ->
       nth_error entries' i = Some (VDict fields)) /\
    agent_display_name 0 = lit "User" /\
    agent_display_name 1 = lit "AI Assistant" /\
    agent_display_name 2 = lit "Expert" /\
    forall n, (n < 0 \/ 2 < n)%Z ->
      agent_display_name n = lit "Agent " ++ str_of_int n.
Proof.
  intros H Hq Ht Hl.
  destruct (assemble_record_log_list _ _ _ _ _ H Hq Ht Hl)
    as (entries' & Hr & Hlog).
  destruct (rmap_nth _ _ Hr) as [Hlen Hnth].
  exists entries'. split; [exact Hlog|]. split; [exact Hlen|].
  split; [|split].
  - intros i fields n Hi Ha. destruct (Hnth _ _ Hi) as (b & Hb & Hf).
    rewrite (rename_agent_int _ Ha) in Hf. injection Hf as <-.
    eexists. split; [exact Hb|]. split; [|split].
    + apply dict_store_keys. congruence.
    + apply dict_store_lookup_same. rewrite key_eqb_str. apply str_eqb_refl.
    + intros k Hk. now apply dict_store_lookup_other.
  - intros i fields Hi Ha. destruct (Hnth _ _ Hi) as (b & Hb & Hf).
    rewrite (rename_agent_absent _ Ha) in Hf. now injection Hf as <-.
  - repeat split.
    intros n Hn. unfold agent_display_name.
    destruct (Z.eqb_spec n 0); [lia|].
    destruct (Z.eqb_spec n 1); [lia|].
    destruct (Z.eqb_spec n 2); [lia|]. reflexivity.
Qed.

(** *** Concrete runs for C7 *)

Example conversation_log_run :
  assemble_article_data parse_id
    (table_json [(conversation_log_text, VList conversation_log_entries)])
    (fs_full [] conversation_log_text)
    (ArgDict topic_with_log) initial_world =
  (mkWorld [lit "/out/t/storm_gen_article.md";
            lit "/out/t/conversation_log.json"] [],
   Ok (Some (mkArticle article_text
               (lit "Body of the article.
More text #1.
") VNone None (Some (VList conversation_log_renamed))))).
Proof. vm_compute. reflexivity. Qed.

(** A log in which integer agents stand beside a string, a [null] and a
    boolean agent. *)
Example mixed_log_run :
  assemble_article_data parse_id
    (table_json [(mixed_log_text, VList mixed_log_entries)])
    (fs_full [] mixed_log_text)
    (ArgDict topic_with_log) initial_world =
  (mkWorld [lit "/out/t/storm_gen_article.md";
            lit "/out/t/conversation_log.json"] [],
   Ok (Some (mkArticle article_text
               (lit "Body of the article.
More text #1.
") VNone None (Some (VList mixed_log_renamed))))).
Proof. vm_compute. reflexivity. Qed.

Lemma agents_renamed_in_log_witness :
  exists entries',
    Some (VList mixed_log_renamed) = Some (VList entries') /\
    List.length entries' = List.length mixed_log_entries /\
    (forall i fields n,
       nth_error mixed_log_entries i = Some (VDict fields) ->
       dict_lookup (VStr (lit "agent")) fields = Some (VInt n) ->
       exists fields',
         nth_error entries' i = Some (VDict fields') /\
         map fst fields' = map fst fields /\
         dict_lookup (VStr (lit "agent")) fields'
           = Some (VStr (agent_display_name n)) /\
         forall k, key_eqb k (VStr (lit "agent")) = false ->
                   dict_lookup k fields' = dict_lookup k fields) /\
    (forall i fields,
       nth_error mixed_log_entries i = Some (VDict fields) ->
       dict_lookup (VStr (lit "agent")) fields = None ->
       nth_error entries' i = Some (VDict fields)) /\
    agent_display_name 0 = lit "User" /\
    agent_display_name 1 = lit "AI Assistant" /\
    agent_display_name 2 = lit "Expert" /\
    forall n, (n < 0 \/ 2 < n)%Z ->
      agent_display_name n = lit "Agent " ++ str_of_int n.
Proof.
  apply (@agents_renamed_in_log parse_id
           (table_json [(mixed_log_text, VList mixed_log_entries)])
           (fs_full [] mixed_log_text) topic_with_log
           initial_world
           (mkWorld [lit "/out/t/storm_gen_article.md";
                     lit "/out/t/conversation_log.json"] [])
           (mkArticle article_text (lit "Body of the article.
More text #1.
") VNone None (Some (VList mixed_log_renamed)))
           (lit "/out/t/conversation_log.json") mixed_log_text
           mixed_log_entries).
  - vm_compute. reflexivity.
  - reflexivity.
  - reflexivity.
  - reflexivity.
Defined.

(** *** C9: citations from a search result *)

Lemma search_result_loop_ok (top infos items acc : list (pyval * pyval)) :
  dict_lookup (VStr (lit "url_to_info")) top = Some (VDict infos) ->
  Forall (search_item_ok infos) items ->
  fresh_keys (map fst acc) (map snd items) = true ->
  search_result_loop (VDict top) items acc =
  Ok (acc ++ map (fun item => (snd item, search_entry infos item)) items).
Proof.
  intros Htop. revert acc.
  induction items as [|[url index] items IH]; intros acc Hok Hfresh.
  - cbn. now rewrite app_nil_r.
  - apply Forall_cons_iff in Hok.
    destruct Hok as [(Hu & Hi & fields & title & snippet & Hf & Ht & Hs) Hok].
    cbn [fst snd] in *. cbn [map fresh_keys] in Hfresh.
    apply andb_true_iff in Hfresh. destruct Hfresh as [Hnew Hfresh].
    cbn [search_result_loop]. unfold getitem at 1 2 4 5.
    cbn [hashable]. rewrite Htop. cbn [rbind]. rewrite Hu, Hf. cbn [rbind].
    unfold getitem. cbn [hashable]. rewrite Ht, Hs. cbn [rbind].
    rewrite Hi, dict_store_fresh.
    + rewrite IH; [| assumption | now rewrite map_app].
      rewrite <- app_assoc. cbn [map app snd]. do 3 f_equal.
      unfold search_entry, field_or. cbn [fst]. now rewrite Hf, Ht, Hs.
    + rewrite forallb_forall in Hnew. apply Forall_forall.
      intros k Hk. specialize (Hnew _ Hk).
      now apply negb_true_iff in Hnew.
Qed.

(** C9, as stated, fails: an entry the helper builds has no
    [description] field, so its shape is not that of a citation of the
    file-based path for the same URL and info record. *)
Lemma search_result_shape_counterexample :
  let url := VStr (lit "https://a.example") in
  let info := VDict [(VStr (lit "title"), VStr (lit "A"));
                     (VStr (lit "snippet"), VStr (lit "x"))] in
  let search_results :=
    VDict [(VStr (lit "url_to_unified_index"), VDict [(url, VInt 1)]);
           (VStr (lit "url_to_info"), VDict [(url, info)])] in
  exists entry citation,
    _construct_citation_dict_from_search_result search_results
      = Ok (VDict [(VInt 1, entry)]) /\
    build_citation url info = Ok citation /\
    dict_keys entry
      = [VStr (lit "url"); VStr (lit "title"); VStr (lit "snippets")] /\
    dict_keys citation
      = [VStr (lit "url"); VStr (lit "title"); VStr (lit "description");
         VStr (lit "snippets")] /\
    dict_keys entry <> dict_keys citation.
Proof.
  do 2 eexists. repeat split. discriminate.
Qed.

(** C9, amended. The helper returns [None] for [None]. For a search
    result whose [url_to_unified_index] gives the URLs distinct hashable
    indices, none of them a NaN (which a dictionary tells apart by
    identity), and whose [url_to_info] has a record with [title] and
    [snippet] for each of these URLs, it returns, without raising, a
    dictionary with one entry per [(url, index)] pair, in order, stored
    under [index]; the entry has the fields [url], [title] and [snippets]
    only, and [snippets] is the one-element sequence of the [snippet]. *)
Theorem search_result_citations :
  _construct_citation_dict_from_search_result VNone = Ok VNone /\
  forall top index_items infos,
    dict_lookup (VStr (lit "url_to_unified_index")) top
      = Some (VDict index_items) ->
    dict_lookup (VStr (lit "url_to_info")) top = Some (VDict infos) ->
    Forall (search_item_ok infos) index_items ->
    Forall (fun item => not_nan (snd item) = true) index_items ->
    fresh_keys [] (map snd index_items) = true ->
    exists citation_dict,
      _construct_citation_dict_from_search_result (VDict top)
        = Ok (VDict citation_dict) /\
      List.length citation_dict = List.length index_items /\
      forall n url index,
        nth_error index_items n = Some (url, index) ->
        exists fields title snippet,
          dict_lookup url infos = Some (VDict fields) /\
          dict_lookup (VStr (lit "title")) fields = Some title /\
          dict_lookup (VStr (lit "snippet")) fields = Some snippet /\
          nth_error citation_dict n =
          Some (index, VDict [(VStr (lit "url"), url);
                              (VStr (lit "title"), title);
                              (VStr (lit "snippets"), VList [snippet])]).
Proof.
  split; [reflexivity|].
  intros top index_items infos Hidx Hinfo Hok _ Hfresh.
  exists (map (fun item => (snd item, search_entry infos item)) index_items).
  split; [|split].
  - unfold _construct_citation_dict_from_search_result, getitem.
    cbn [hashable]. rewrite Hidx. cbn [rbind py_items].
    now rewrite (search_result_loop_ok top [] Hinfo Hok Hfresh).
  - apply length_map.
  - intros n url index Hn.
    assert (Hin : In (url, index) index_items)
      by (eapply nth_error_In; eassumption).
    rewrite Forall_forall in Hok.
    destruct (Hok _ Hin) as (_ & _ & fields & title & snippet & Hf & Ht & Hs).
    cbn [fst] in Hf. exists fields, title, snippet.
    repeat split; try assumption.
    rewrite nth_error_map, Hn. cbn [option_map snd]. do 2 f_equal.
    unfold search_entry, field_or. cbn [fst]. now rewrite Hf, Ht, Hs.
Qed.

Lemma search_result_citations_witness :
  let url := VStr (lit "https://a.example") in
  let infos := [(url, VDict [(VStr (lit "title"), VStr (lit "A"));
                             (VStr (lit "snippet"), VStr (lit "x"))])] in
  exists citation_dict,
    _construct_citation_dict_from_search_result
      (VDict [(VStr (lit "url_to_unified_index"), VDict [(url, VInt 1)]);
              (VStr (lit "url_to_info"), VDict infos)])
      = Ok (VDict citation_dict) /\
    List.length citation_dict = 1 /\
    forall n url' index,
      nth_error [(url, VInt 1)] n = Some (url', index) ->
      exists fields title snippet,
        dict_lookup url' infos = Some (VDict fields) /\
        dict_lookup (VStr (lit "title")) fields = Some title /\
        dict_lookup (VStr (lit "snippet")) fields = Some snippet /\
        nth_error citation_dict n =
        Some (index, VDict [(VStr (lit "url"), url');
                            (VStr (lit "title"), title);
                            (VStr (lit "snippets"), VList [snippet])]).
Proof.
  intros url infos.
  apply (proj2 search_result_citations
           [(VStr (lit "url_to_unified_index"), VDict [(url, VInt 1)]);
            (VStr (lit "url_to_info"), VDict infos)]
           [(url, VInt 1)] infos).
  - reflexivity.
  - reflexivity.
  - repeat constructor. do 3 eexists. repeat split.
  - repeat constructor.
  - reflexivity.
Defined.

(* ===================================================================== *)
(** * Further properties of the assembler *)
(* ===================================================================== *)

(** ** The title removal *)

Lemma remove_title_lines_fixed_iff (s : pystr) :
  remove_title_lines s = s <->
  forallb keep_line (lines_keepends s) = true.
Proof.
  split; intros H.
  - rewrite <- H at 1. apply no_heading_lines_removed.
  - rewrite remove_title_lines_spec. unfold strip_headings_spec.
    fold keep_line.
    assert (Hf : filter keep_line (lines_keepends s) = lines_keepends s).
    { rewrite forallb_forall in H. clear -H.
      induction (lines_keepends s) as [|l ls IH]; [reflexivity|].
      cbn [filter]. rewrite (H l (or_introl eq_refl)). f_equal.
      apply IH. intros x Hx. apply H. now right. }
    rewrite Hf. apply concat_lines_keepends.
Qed.

(** X1. When no line of the parsed article starts with [#], the
    [short_text] of a returned record is the first 100 characters of its
    [article]. *)
Theorem short_text_without_headings
    (parse : pystr -> pystr) (json_loads : pystr -> result pyval)
    (fs_read : pystr -> exn + pystr)
    (d : list (pystr * pystr)) (w w' : world) (r : article_data) :
  assemble_article_data parse json_loads fs_read (ArgDict d) w
    = (w', Ok (Some r)) ->
  forallb (fun l => negb (heading_1_3 l)) (lines_keepends (article r)) = true ->
  short_text r = firstn 100 (article r).
Proof.
  intros H Hn. destruct (assemble_record_fields _ _ _ _ _ H)
    as (key & p & c & _ & _ & _ & Ha & Hs & _).
  rewrite Hs, <- Ha. unfold slice_to. f_equal.
  now apply remove_title_lines_fixed_iff.
Qed.

(** X2. The title removal is idempotent, never lengthens the text, and
    leaves a text unchanged exactly when no line of it starts with [#]. *)
Theorem remove_title_lines_idempotent (s : pystr) :
  remove_title_lines (remove_title_lines s) = remove_title_lines s /\
  List.length (remove_title_lines s) <= List.length s /\
  (remove_title_lines s = s <->
   forallb (fun l => negb (heading_1_3 l)) (lines_keepends s) = true).
Proof.
  split; [|split].
  - apply remove_title_lines_fixed_iff, no_heading_lines_removed.
  - rewrite remove_title_lines_spec. unfold strip_headings_spec.
    rewrite <- (concat_lines_keepends s) at 2.
    induction (lines_keepends s) as [|l ls IH]; [reflexivity|].
    cbn [filter concat]. destruct (negb (heading_1_3 l)).
    + cbn [concat]. rewrite !length_app. lia.
    + rewrite length_app. lia.
  - apply remove_title_lines_fixed_iff.
Qed.

(** ** What a call reads and prints *)

(** X3. A call on a dictionary opens, after what was opened before, an
    initial part of the list: selected article, [url_to_info.json],
    [conversation_log.json] (those the map has); it opens no other path,
    and the file of each of these keys at most once. *)
Theorem assemble_opens_only_its_files
    (parse : pystr -> pystr) (json_loads : pystr -> result pyval)
    (fs_read : pystr -> exn + pystr)
    (d : list (pystr * pystr)) (w : world) :
  exists n,
    opened (fst (assemble_article_data parse json_loads fs_read
                   (ArgDict d) w))
    = opened w ++ firstn n (files_of d).
Proof.
  unfold files_of. destruct (first_md_key d) as [key|] eqn:Hk.
  2:{ rewrite assemble_no_md by assumption. exists 0. cbn.
      now rewrite app_nil_r. }
  rewrite (assemble_dict_run _ _ _ _ _ Hk).
  destruct (first_md_key_some _ Hk) as [_ [p Hp]]. rewrite Hp.
  destruct (fs_read p) as [e|c] eqn:Hc.
  { rewrite (body_read_fails _ _ _ _ _ _ Hp Hc). now exists 1. }
  rewrite (body_run _ _ _ _ _ _ Hp Hc), citations_step_run.
  destruct (str_lookup (lit "url_to_info.json") d) as [u|].
  - destruct (match fs_read u with
              | inl e => Raise e
              | inr text =>
                  match json_loads text with
                  | Ok url_info =>
                      match citations_of url_info with
                      | Ok c0 => Ok (set_citations (initial_data (parse c)) c0)
                      | Raise e => Raise e
                      end
                  | Raise e => Raise e
                  end
              end) as [data1|e].
    + rewrite log_step_run.
      destruct (str_lookup (lit "conversation_log.json") d) as [q|].
      * exists 3. destruct (log_attempt json_loads fs_read q) as [l|e];
          [|destruct (is_JSONDecodeError e)]; cbn;
          now rewrite <- !app_assoc.
      * exists 2. cbn. now rewrite <- !app_assoc.
    + exists 2. cbn. rewrite <- !app_assoc.
      destruct (str_lookup (lit "conversation_log.json") d); reflexivity.
  - rewrite log_step_run.
    destruct (str_lookup (lit "conversation_log.json") d) as [q|].
    + exists 2. destruct (log_attempt json_loads fs_read q) as [l|e];
        [|destruct (is_JSONDecodeError e)]; cbn;
        now rewrite <- !app_assoc.
    + now exists 1.
Qed.



(** ** Failures of the two optional steps *)

Lemma citations_step_attempt
    (json_loads : pystr -> result pyval) (fs_read : pystr -> exn + pystr)
    (d : list (pystr * pystr)) (data : article_data) (w : world)
    (u : pystr) :
  str_lookup (lit "url_to_info.json") d = Some u ->
  add_citations json_loads fs_read d data w =
  (log_open u w,
   match citations_attempt json_loads fs_read u with
   | Ok c => Ok (set_citations data c)
   | Raise e => Raise e
   end).
Proof.
  intros Hu. rewrite citations_step_run, Hu. unfold citations_attempt.
  destruct (fs_read u) as [e|text]; [reflexivity|].
  now destruct (json_loads text).
Qed.

(** A citations step that raises makes the result [None]. *)
Lemma assemble_none_if_citations_fail
    (parse : pystr -> pystr) (json_loads : pystr -> result pyval)
    (fs_read : pystr -> exn + pystr)
    (d : list (pystr * pystr)) (w : world) (u : pystr) (e : exn) :
  str_lookup (lit "url_to_info.json") d = Some u ->
  citations_attempt json_loads fs_read u = Raise e ->
  snd (assemble_article_data parse json_loads fs_read (ArgDict d) w)
    = Ok None.
Proof.
  intros Hu He. destruct (first_md_key d) as [key|] eqn:Hk.
  2:{ now rewrite assemble_no_md. }
  rewrite (assemble_dict_run _ _ _ _ _ Hk).
  destruct (first_md_key_some _ Hk) as [_ [p Hp]].
  destruct (fs_read p) as [e'|c] eqn:Hc.
  { now rewrite (body_read_fails _ _ _ _ _ _ Hp Hc). }
  rewrite (body_run _ _ _ _ _ _ Hp Hc).
  now rewrite (citations_step_attempt _ _ _ _ _ Hu), He.
Qed.

(** A conversation log step that raises anything but a decoding error
    makes the result [None]. *)
Lemma assemble_none_if_log_fails
    (parse : pystr -> pystr) (json_loads : pystr -> result pyval)
    (fs_read : pystr -> exn + pystr)
    (d : list (pystr * pystr)) (w : world) (q : pystr) (e : exn) :
  str_lookup (lit "conversation_log.json") d = Some q ->
  log_attempt json_loads fs_read q = Raise e ->
  is_JSONDecodeError e = false ->
  snd (assemble_article_data parse json_loads fs_read (ArgDict d) w)
    = Ok None.
Proof.
  intros Hq He Hj. destruct (first_md_key d) as [key|] eqn:Hk.
  2:{ now rewrite assemble_no_md. }
  rewrite (assemble_dict_run _ _ _ _ _ Hk).
  destruct (first_md_key_some _ Hk) as [_ [p Hp]].
  destruct (fs_read p) as [e'|c] eqn:Hc.
  { now rewrite (body_read_fails _ _ _ _ _ _ Hp Hc). }
  rewrite (body_run _ _ _ _ _ _ Hp Hc).
  destruct (add_citations _ _ _ _ _) as [w1 [data1|e1]]; [|reflexivity].
  now rewrite log_step_run, Hq, He, Hj.
Qed.


(** ** Citations from data of another shape *)

Lemma build_citation_not_record (url info : pyval) :
  ~ is_record info -> build_citation url info = Raise AttributeError.
Proof.
  intros H. destruct info; try reflexivity. contradict H. now eexists.
Qed.

Lemma citations_loop_not_record (items : list (pyval * pyval)) (i : Z)
    (acc : list (pyval * pyval)) :
  Exists (fun item => ~ is_record (snd item)) items ->
  citations_loop items i acc = Raise AttributeError.
Proof.
  revert i acc. induction items as [|[url info] items IH]; intros i acc H.
  - inversion H.
  - cbn [citations_loop]. destruct info as [| | | | |l|fields];
      try reflexivity.
    rewrite build_citation_record. cbn [rbind]. apply IH.
    apply Exists_cons in H. destruct H as [H|H]; [|assumption].
    contradict H. now eexists.
Qed.

(** X6. When what [url_to_info.json] decodes to is not an object, or its
    [url_to_info] field is not an object, or one of the info records is
    not an object, the citations step raises [AttributeError] and the
    result of the call is [None]. *)
Theorem malformed_url_to_info_gives_none
    (parse : pystr -> pystr) (json_loads : pystr -> result pyval)
    (fs_read : pystr -> exn + pystr)
    (d : list (pystr * pystr)) (w : world) (u ut : pystr) (v : pyval) :
  str_lookup (lit "url_to_info.json") d = Some u ->
  fs_read u = inr ut -> json_loads ut = Ok v ->
  ~ is_record v \/
  (exists top, v = VDict top /\
     ~ is_record (field_or (lit "url_to_info") (VDict []) top)) \/
  (exists top items,
     v = VDict top /\
     field_or (lit "url_to_info") (VDict []) top = VDict items /\
     Exists (fun item => ~ is_record (snd item)) items) ->
  citations_of v = Raise AttributeError /\
  snd (assemble_article_data parse json_loads fs_read (ArgDict d) w)
    = Ok None.
Proof.
  intros Hu Hut Hv Hshape.
  assert (Hc : citations_of v = Raise AttributeError).
  { destruct Hshape as [H | [(top & -> & H) | (top & items & -> & Hf & H)]].
    - destruct v; try reflexivity. contradict H. now eexists.
    - unfold citations_of. rewrite py_get_field_or. cbn [rbind].
      destruct (field_or _ _ top); try reflexivity.
      contradict H. now eexists.
    - unfold citations_of. rewrite py_get_field_or, Hf. cbn [rbind py_items].
      now rewrite citations_loop_not_record. }
  split; [assumption|].
  apply (assemble_none_if_citations_fail _ _ _ _ _ Hu (e := AttributeError)).
  unfold citations_attempt. now rewrite Hut, Hv.
Qed.

(** X7. In a citation a non-empty [snippets] wins over [snippet]; with
    neither field the [snippets] of the citation is the empty sequence. *)
Theorem snippets_take_precedence
    (url : pyval) (fields : list (pyval * pyval)) :
  exists c,
    build_citation url (VDict fields) = Ok (VDict c) /\
    (forall s, dict_lookup (VStr (lit "snippets")) fields = Some s ->
       truthy s = true ->
       dict_lookup (VStr (lit "snippets")) c = Some s) /\
    (dict_lookup (VStr (lit "snippets")) fields = None ->
     dict_lookup (VStr (lit "snippet")) fields = None ->
     dict_lookup (VStr (lit "snippets")) c = Some (VList [])).
Proof.
  rewrite build_citation_record. unfold citation_record.
  eexists. split; [reflexivity|]. split.
  - intros s Hs Ht. unfold snippets_of, field_or. rewrite Hs, Ht.
    reflexivity.
  - intros Hs Hx. unfold snippets_of, field_or. rewrite Hs, Hx.
    reflexivity.
Qed.

(** ** The conversation log beyond integer agents *)

Lemma rename_agent_other (fields : list (pyval * pyval)) (v : pyval) :
  dict_lookup (VStr (lit "agent")) fields = Some v ->
  isinstance_int v = false ->
  rename_agent (VDict fields) = Ok (VDict fields).
Proof.
  intros H Hv. unfold rename_agent, py_contains, getitem.
  cbn [hashable rbind]. rewrite H. cbn [rbind]. now rewrite Hv.
Qed.

Lemma rename_agent_bool (fields : list (pyval * pyval)) (b : bool) :
  dict_lookup (VStr (lit "agent")) fields = Some (VBool b) ->
  rename_agent (VDict fields) =
  Ok (VDict (dict_store (VStr (lit "agent"))
               (VStr (if b then lit "AI Assistant" else lit "User"))
               fields)).
Proof.
  intros H. unfold rename_agent, py_contains, getitem, setitem.
  cbn [hashable rbind]. rewrite H. cbn [rbind isinstance_int].
  now destruct b.
Qed.

(** X8. A boolean [agent] is an [int] for [isinstance]: [true] is renamed
    to "AI Assistant" and [false] to "User", the keys of the entry staying
    in place. *)
Theorem boolean_agent_is_renamed
    (fields : list (pyval * pyval)) (b : bool) :
  dict_lookup (VStr (lit "agent")) fields = Some (VBool b) ->
  exists fields',
    rename_agent (VDict fields) = Ok (VDict fields') /\
    dict_lookup (VStr (lit "agent")) fields' =
      Some (VStr (if b then lit "AI Assistant" else lit "User")) /\
    map fst fields' = map fst fields.
Proof.
  intros H. eexists. split; [exact (rename_agent_bool _ H)|]. split.
  - apply dict_store_lookup_same. rewrite key_eqb_str. apply str_eqb_refl.
  - apply dict_store_keys. congruence.
Qed.

Lemma rename_agent_object (fields : list (pyval * pyval)) :
  exists fields',
    rename_agent (VDict fields) = Ok (VDict fields') /\
    map fst fields' = map fst fields /\
    (forall v, dict_lookup (VStr (lit "agent")) fields = Some v ->
       isinstance_int v = false -> fields' = fields) /\
    (dict_lookup (VStr (lit "agent")) fields = None -> fields' = fields).
Proof.
  destruct (dict_lookup (VStr (lit "agent")) fields) as [v|] eqn:H.
  - destruct (isinstance_int v) eqn:Hv.
    + destruct v; try discriminate.
      * eexists. split; [exact (rename_agent_bool _ H)|]. split.
        -- apply dict_store_keys. congruence.
        -- split; [intros v [= <-]; discriminate | discriminate].
      * eexists. split; [exact (rename_agent_int _ H)|]. split.
        -- apply dict_store_keys. congruence.
        -- split; [intros v [= <-]; discriminate | discriminate].
    + exists fields. split; [exact (rename_agent_other _ H Hv)|].
      now repeat split.
  - exists fields. split; [now apply rename_agent_absent|]. now repeat split.
Qed.

(** X9. On a log that is a sequence of objects the renaming never fails:
    it keeps the number and the order of the entries and the keys of each
    entry, and an entry whose [agent] is absent or not an integer (a
    string, a float, [null], ...) is left as it is. *)
Theorem log_of_objects_is_renamed (entries : list (list (pyval * pyval))) :
  exists entries',
    rename_agents (VList (map VDict entries))
      = Ok (VList (map VDict entries')) /\
    Forall2
      (fun fields fields' =>
         map fst fields' = map fst fields /\
         (forall v, dict_lookup (VStr (lit "agent")) fields = Some v ->
            isinstance_int v = false -> fields' = fields) /\
         (dict_lookup (VStr (lit "agent")) fields = None ->
          fields' = fields))
      entries entries'.
Proof.
  cbn [rename_agents].
  induction entries as [|fields entries (entries' & Hr & HF)].
  - exists []. split; [reflexivity | constructor].
  - destruct (rename_agent_object fields) as (fields' & Hf & Hprops).
    exists (fields' :: entries'). cbn [map rmap]. rewrite Hf. cbn [rbind].
    destruct (rmap rename_agent (map VDict entries)) as [l|e];
      [|discriminate].
    cbn [rbind] in *. injection Hr as ->. split; [reflexivity|].
    now constructor.
Qed.

(** X10. When [conversation_log.json] decodes to [null], a boolean or a
    number, the loop over it raises [TypeError], which the inner [try]
    does not catch: the result of the call is [None]. *)
Theorem log_not_iterable_gives_none
    (parse : pystr -> pystr) (json_loads : pystr -> result pyval)
    (fs_read : pystr -> exn + pystr)
    (d : list (pystr * pystr)) (w : world) (q t : pystr) (log : pyval) :
  str_lookup (lit "conversation_log.json") d = Some q ->
  fs_read q = inr t -> json_loads t = Ok log ->
  not_iterable log = true ->
  rename_agents log = Raise (TypeError None) /\
  snd (assemble_article_data parse json_loads fs_read (ArgDict d) w)
    = Ok None.
Proof.
  intros Hq Ht Hl Hn.
  assert (Hr : rename_agents log = Raise (TypeError None))
    by (destruct log; (discriminate || reflexivity)).
  split; [assumption|].
  apply (assemble_none_if_log_fails _ _ _ _ _ Hq (e := TypeError None));
    [|reflexivity].
  unfold log_attempt. now rewrite Ht, Hl.
Qed.

Lemma rename_agent_str (s : pystr) :
  rename_agent (VStr s) =
  if str_contains (lit "agent") s then Raise (TypeError None)
  else Ok (VStr s).
Proof.
  unfold rename_agent, py_contains. cbn [rbind].
  now destruct (str_contains (lit "agent") s).
Qed.

Lemma rmap_rename_keys (ks : list pyval) :
  Forall (fun k => exists s, k = VStr s) ks ->
  rmap rename_agent ks =
  if existsb (fun k => match k with
                       | VStr s => str_contains (lit "agent") s
                       | _ => false
                       end) ks
  then Raise (TypeError None) else Ok ks.
Proof.
  induction 1 as [|k ks [s ->] Hks IH]; [reflexivity|].
  cbn [rmap existsb]. rewrite rename_agent_str.
  destruct (str_contains (lit "agent") s); [reflexivity|].
  cbn [rbind orb]. rewrite IH. now destruct (existsb _ ks).
Qed.

Lemma rmap_rename_chars (s : pystr) :
  rmap rename_agent (map (fun c => VStr [c]) s)
  = Ok (map (fun c => VStr [c]) s).
Proof.
  induction s as [|c s IH]; [reflexivity|].
  cbn [map rmap]. rewrite rename_agent_str.
  assert (H : str_contains (lit "agent") [c] = false).
  { cbn. now rewrite andb_false_r. }
  rewrite H. cbn [rbind]. now rewrite IH.
Qed.

(** X11. A log that is not a sequence: a JSON string is kept as it is;
    a JSON object is kept as it is when none of its keys holds "agent" as
    a substring, and otherwise the loop, which visits the keys, raises
    [TypeError] and the result of the call is [None]. *)
Theorem log_string_or_object
    (parse : pystr -> pystr) (json_loads : pystr -> result pyval)
    (fs_read : pystr -> exn + pystr)
    (d : list (pystr * pystr)) (w : world) (q t : pystr) :
  str_lookup (lit "conversation_log.json") d = Some q ->
  fs_read q = inr t ->
  (forall s, rename_agents (VStr s) = Ok (VStr s)) /\
  (forall fields,
     string_keys fields -> has_agent_like_key fields = false ->
     rename_agents (VDict fields) = Ok (VDict fields)) /\
  (forall fields,
     string_keys fields -> has_agent_like_key fields = true ->
     json_loads t = Ok (VDict fields) ->
     rename_agents (VDict fields) = Raise (TypeError None) /\
     snd (assemble_article_data parse json_loads fs_read (ArgDict d) w)
       = Ok None).
Proof.
  intros Hq Ht. split; [|split].
  - intros s. cbn [rename_agents py_iter rbind].
    now rewrite rmap_rename_chars.
  - intros fields Hk Hn. cbn [rename_agents py_iter rbind].
    rewrite rmap_rename_keys by assumption.
    unfold has_agent_like_key in Hn. now rewrite Hn.
  - intros fields Hk Hn Hl.
    assert (Hr : rename_agents (VDict fields) = Raise (TypeError None)).
    { cbn [rename_agents py_iter rbind].
      rewrite rmap_rename_keys by assumption.
      unfold has_agent_like_key in Hn. now rewrite Hn. }
    split; [assumption|].
    apply (assemble_none_if_log_fails _ _ _ _ _ Hq (e := TypeError None));
      [|reflexivity].
    unfold log_attempt. now rewrite Ht, Hl.
Qed.

(* ===================================================================== *)
(** * Further properties of the citation dictionaries *)
(* ===================================================================== *)

Lemma enumerate_from_lookup (l : list pyval) (i k : Z) :
  dict_lookup (VInt k) (enumerate_from i l) =
  if (Z.leb i k && Z.ltb k (i + Z.of_nat (List.length l)))%bool
  then nth_error l (Z.to_nat (k - i)) else None.
Proof.
  revert i. induction l as [|c l IH]; intros i.
  - cbn [enumerate_from dict_lookup List.length].
    destruct (Z.leb_spec i k), (Z.ltb_spec k (i + Z.of_nat 0)); cbn;
      try reflexivity; lia.
  - cbn [enumerate_from dict_lookup]. rewrite key_eqb_int.
    destruct (Z.eqb_spec k i) as [->|Hne].
    + rewrite Z.leb_refl, Z.sub_diag. cbn [andb Z.to_nat nth_error].
      destruct (Z.ltb_spec i (i + Z.of_nat (List.length (c :: l))));
        [reflexivity|]. cbn [List.length] in *. lia.
    + rewrite IH. cbn [List.length].
      destruct (Z.leb_spec (i + 1) k), (Z.leb_spec i k); try lia;
        cbn [andb]; [|reflexivity].
      replace (i + 1 + Z.of_nat (List.length l))%Z
        with (i + Z.of_nat (S (List.length l)))%Z by lia.
      destruct (Z.ltb_spec k (i + Z.of_nat (S (List.length l))));
        [|reflexivity].
      replace (k - i)%Z with (Z.succ (k - (i + 1))) by lia.
      rewrite Z2Nat.inj_succ by lia. reflexivity.
Qed.

(** X12. Subscripting the [citations] dictionary: for an object whose
    [url_to_info] field maps [n] URLs to info records, [citations[k]] is
    the citation of the [k]-th URL for [1 <= k <= n], and an integer key
    outside this range is absent. *)
Theorem citations_subscript (top items : list (pyval * pyval)) :
  field_or (lit "url_to_info") (VDict []) top = VDict items ->
  Forall (fun item => is_record (snd item)) items ->
  exists cs,
    citations_of (VDict top) = Ok (VDict cs) /\
    (forall k, (1 <= k <= Z.of_nat (List.length items))%Z ->
       exists url fields,
         nth_error items (Z.to_nat (k - 1)) = Some (url, VDict fields) /\
         getitem (VDict cs) (VInt k) = Ok (citation_record url fields)) /\
    (forall k, (k < 1 \/ Z.of_nat (List.length items) < k)%Z ->
       getitem (VDict cs) (VInt k) = Raise (KeyError (VInt k))).
Proof.
  intros Htop Hrec. eexists.
  split; [exact (citations_of_records _ Htop Hrec)|]. split.
  - intros k Hk. cbn [getitem hashable]. rewrite enumerate_from_lookup.
    rewrite length_map.
    destruct (Z.leb_spec 1 k), (Z.ltb_spec k (1 + Z.of_nat (List.length items)));
      try lia. cbn [andb].
    destruct (nth_error items (Z.to_nat (k - 1))) as [[url info]|] eqn:Hn.
    2:{ apply nth_error_None in Hn. lia. }
    pose proof (nth_error_In _ _ Hn) as Hin.
    rewrite Forall_forall in Hrec. destruct (Hrec _ Hin) as [fields Hf].
    cbn [snd] in Hf. subst info. exists url, fields.
    split; [reflexivity|]. rewrite nth_error_map, Hn. reflexivity.
  - intros k Hk. cbn [getitem hashable]. rewrite enumerate_from_lookup.
    rewrite length_map.
    destruct (Z.leb_spec 1 k), (Z.ltb_spec k (1 + Z.of_nat (List.length items)));
      try lia; reflexivity.
Qed.

(** ** The search-result helper on other inputs *)

Lemma search_result_loop_step (top infos : list (pyval * pyval))
    (item : pyval * pyval) (rest acc : list (pyval * pyval)) :
  dict_lookup (VStr (lit "url_to_info")) top = Some (VDict infos) ->
  search_item_ok infos item ->
  search_result_loop (VDict top) (item :: rest) acc =
  search_result_loop (VDict top) rest (search_step infos acc item).
Proof.
  intros Htop (Hu & Hi & fields & title & snippet & Hf & Ht & Hs).
  destruct item as [url index]. cbn [fst snd] in *.
  cbn [search_result_loop]. unfold getitem at 1 2 4 5.
  cbn [hashable]. rewrite Htop. cbn [rbind]. rewrite Hu, Hf. cbn [rbind].
  unfold getitem. cbn [hashable]. rewrite Ht, Hs. cbn [rbind].
  rewrite Hi. unfold search_step, search_entry, field_or. cbn [fst snd].
  now rewrite Hf, Ht, Hs.
Qed.

Lemma search_result_loop_app (top infos : list (pyval * pyval))
    (pre rest acc : list (pyval * pyval)) :
  dict_lookup (VStr (lit "url_to_info")) top = Some (VDict infos) ->
  Forall (search_item_ok infos) pre ->
  search_result_loop (VDict top) (pre ++ rest) acc =
  search_result_loop (VDict top) rest (fold_left (search_step infos) pre acc).
Proof.
  intros Htop Hpre. revert acc.
  induction Hpre as [|item pre Hitem Hpre IH]; intros acc; [reflexivity|].
  cbn [app fold_left].
  now rewrite (search_result_loop_step _ _ _ Htop Hitem), IH.
Qed.

Lemma dict_store_length (k v : pyval) (d : list (pyval * pyval)) :
  List.length (dict_store k v d) <= S (List.length d).
Proof.
  induction d as [|[k' v'] d IH]; cbn [dict_store List.length]; [lia|].
  destruct (key_eqb k k'); cbn [List.length]; lia.
Qed.

Lemma fold_search_step_length (infos : list (pyval * pyval))
    (items acc : list (pyval * pyval)) :
  List.length (fold_left (search_step infos) items acc)
  <= List.length acc + List.length items.
Proof.
  revert acc. induction items as [|item items IH]; intros acc.
  - cbn. lia.
  - cbn [fold_left List.length]. specialize (IH (search_step infos acc item)).
    pose proof (dict_store_length (snd item) (search_entry infos item) acc).
    unfold search_step in *. lia.
Qed.

Lemma dict_store_lookup_int (i j : Z) (v : pyval)
    (d : list (pyval * pyval)) :
  Forall (fun k => exists n, k = VInt n) (map fst d) ->
  dict_lookup (VInt i) (dict_store (VInt j) v d) =
  if Z.eqb i j then Some v else dict_lookup (VInt i) d.
Proof.
  induction d as [|[k' v'] d IH]; intros H; cbn [dict_store dict_lookup].
  - now rewrite key_eqb_int.
  - cbn [map fst] in H. apply Forall_cons_iff in H.
    destruct H as [[n ->] H]. rewrite !key_eqb_int.
    destruct (Z.eqb_spec j n) as [->|Hjn]; cbn [dict_lookup];
      rewrite key_eqb_int.
    + destruct (Z.eqb_spec i n); reflexivity.
    + rewrite (IH H). destruct (Z.eqb_spec i n) as [->|Hin]; [|reflexivity].
      destruct (Z.eqb_spec n j); [congruence | reflexivity].
Qed.

Lemma dict_store_int_keys (j : Z) (v : pyval) (d : list (pyval * pyval)) :
  Forall (fun k => exists n, k = VInt n) (map fst d) ->
  Forall (fun k => exists n, k = VInt n) (map fst (dict_store (VInt j) v d)).
Proof.
  induction d as [|[k' v'] d IH]; intros H; cbn [dict_store].
  - repeat constructor. now exists j.
  - cbn [map fst] in H. apply Forall_cons_iff in H. destruct H as [Hk H].
    destruct (key_eqb (VInt j) k'); cbn [map fst]; constructor;
      auto.
Qed.

Lemma fold_search_step_int_keys (infos items acc : list (pyval * pyval)) :
  Forall (fun item => exists i, snd item = VInt i) items ->
  Forall (fun k => exists n, k = VInt n) (map fst acc) ->
  Forall (fun k => exists n, k = VInt n)
         (map fst (fold_left (search_step infos) items acc)).
Proof.
  intros H. revert acc.
  induction H as [|item items [i Hi] _ IH]; intros acc Hacc; [exact Hacc|].
  cbn [fold_left]. apply IH. unfold search_step. rewrite Hi.
  now apply dict_store_int_keys.
Qed.

(** The rounds for items with other indices leave an index as it is. *)
Lemma fold_search_step_other (infos post acc : list (pyval * pyval))
    (i : Z) :
  Forall (fun item => exists j, snd item = VInt j) post ->
  Forall (fun item => snd item <> VInt i) post ->
  Forall (fun k => exists n, k = VInt n) (map fst acc) ->
  dict_lookup (VInt i) (fold_left (search_step infos) post acc)
  = dict_lookup (VInt i) acc.
Proof.
  intros H. revert acc.
  induction H as [|item post [j Hj] Hpost IH]; intros acc Hne Hacc;
    [reflexivity|].
  apply Forall_cons_iff in Hne. destruct Hne as [Hitem Hne].
  cbn [fold_left]. rewrite IH; [| assumption |].
  - unfold search_step. rewrite Hj, dict_store_lookup_int by assumption.
    destruct (Z.eqb_spec i j); [|reflexivity]. subst j. congruence.
  - unfold search_step. rewrite Hj. now apply dict_store_int_keys.
Qed.

(** X13. In the search-result helper the last writer wins. When every
    item can be served and the indices are integers, the helper returns
    a dictionary with at most one entry per item, in which an index has
    the entry of the last URL with that index: the entries of earlier
    URLs with the same index are overwritten. *)
Theorem search_result_last_writer_wins
    (top infos items : list (pyval * pyval)) :
  dict_lookup (VStr (lit "url_to_unified_index")) top
    = Some (VDict items) ->
  dict_lookup (VStr (lit "url_to_info")) top = Some (VDict infos) ->
  Forall (search_item_ok infos) items ->
  Forall (fun item => exists i, snd item = VInt i) items ->
  exists citation_dict,
    _construct_citation_dict_from_search_result (VDict top)
      = Ok (VDict citation_dict) /\
    List.length citation_dict <= List.length items /\
    forall pre url i post,
      items = pre ++ (url, VInt i) :: post ->
      Forall (fun item => snd item <> VInt i) post ->
      dict_lookup (VInt i) citation_dict
        = Some (search_entry infos (url, VInt i)).
Proof.
  intros Hidx Hinfo Hok Hint.
  exists (fold_left (search_step infos) items []).
  split; [|split].
  - unfold _construct_citation_dict_from_search_result, getitem.
    cbn [hashable]. rewrite Hidx. cbn [rbind py_items].
    rewrite <- (app_nil_r items) at 1.
    now rewrite (search_result_loop_app _ _ _ Hinfo Hok).
  - apply (fold_search_step_length infos items []).
  - intros pre url i post -> Hpost.
    apply Forall_app in Hint. destruct Hint as [Hpre Hrest].
    apply Forall_cons_iff in Hrest. destruct Hrest as [_ Hpostint].
    rewrite fold_left_app. cbn [fold_left].
    assert (Hkeys : Forall (fun k => exists n, k = VInt n)
                      (map fst (fold_left (search_step infos) pre [])))
      by (apply fold_search_step_int_keys; [assumption | constructor]).
    rewrite fold_search_step_other; try assumption.
    + unfold search_step at 1. cbn [snd].
      rewrite dict_store_lookup_int by assumption.
      now rewrite Z.eqb_refl.
    + unfold search_step at 1. cbn [snd]. now apply dict_store_int_keys.
Qed.


(* ===================================================================== *)
(** * Properties of the directory scan *)
(* ===================================================================== *)

Lemma str_store_fresh (A : Type) (k : pystr) (v : A) (d : list (pystr * A)) :
  ~ In k (map fst d) -> str_store k v d = d ++ [(k, v)].
Proof.
  induction d as [|[k' v'] d IH]; intros H; [reflexivity|].
  cbn [str_store map fst In] in *.
  destruct (str_eqb k k') eqn:E.
  - apply str_eqb_eq in E. subst k'. tauto.
  - rewrite IH by tauto. reflexivity.
Qed.

Lemma topic_files_loop_distinct (abspath : pystr -> pystr)
    (topic_path : pystr) (files : list pystr) (acc : list (pystr * pystr)) :
  NoDup (map fst acc ++ files) ->
  topic_files_loop abspath topic_path files acc
  = acc ++ topic_file_map abspath topic_path files.
Proof.
  revert acc. induction files as [|f files IH]; intros acc H.
  - cbn. now rewrite app_nil_r.
  - cbn [topic_files_loop]. rewrite str_store_fresh.
    + rewrite IH.
      * rewrite <- app_assoc. reflexivity.
      * rewrite map_app, <- app_assoc. exact H.
    + apply NoDup_remove_2 in H. intros Hin. apply H.
      apply in_or_app. now left.
Qed.

(** The scan of the topics, for a listing without repeated names whose
    directories can be listed. *)
Lemma topics_loop_distinct (listdir : pystr -> exn + list pystr)
    (isdir : pystr -> bool) (abspath : pystr -> pystr)
    (root : pystr) (names : list pystr)
    (acc : list (pystr * list (pystr * pystr))) :
  NoDup (map fst acc ++ names) ->
  (forall t, In t names -> isdir (path_join root t) = true ->
     exists files, listdir (path_join root t) = inr files) ->
  topics_loop listdir isdir abspath root names acc =
  Ok (acc ++
      map (fun t =>
             (t, topic_files_loop abspath (path_join root t)
                   (listing listdir (path_join root t)) []))
          (filter (fun t => isdir (path_join root t)) names)).
Proof.
  revert acc. induction names as [|t names IH]; intros acc Hnd Hls.
  - cbn. now rewrite app_nil_r.
  - cbn [topics_loop filter].
    assert (Hnd' : NoDup (map fst acc ++ names))
      by (now apply NoDup_remove_1 in Hnd).
    destruct (isdir (path_join root t)) eqn:Hd.
    + destruct (Hls t (or_introl eq_refl) Hd) as [files Hf].
      rewrite Hf. rewrite str_store_fresh.
      * rewrite IH.
        -- cbn [map].
           replace (listing listdir (path_join root t)) with files
             by (unfold listing; now rewrite Hf).
           now rewrite <- app_assoc.
        -- rewrite map_app, <- app_assoc. exact Hnd.
        -- intros t' Ht'. apply Hls. now right.
      * apply NoDup_remove_2 in Hnd. intros Hin. apply Hnd.
        apply in_or_app. now left.
    + apply IH; [exact Hnd'|]. intros t' Ht'. apply Hls. now right.
Qed.

(** X15. The topics of the scan are the entries of the root listing that
    are directories, in the order of the listing; other entries of the
    root are left out. (The names of a listing are distinct, and every
    directory among them can be listed.) *)
Theorem scan_topics_are_the_directories
    (listdir : pystr -> exn + list pystr) (isdir : pystr -> bool)
    (abspath : pystr -> pystr) (root : pystr) (names : list pystr) :
  listdir root = inr names -> NoDup names ->
  (forall t, In t names -> isdir (path_join root t) = true ->
     exists files, listdir (path_join root t) = inr files) ->
  exists articles_dict,
    read_structure_to_dict listdir isdir abspath root = Ok articles_dict /\
    map fst articles_dict
      = filter (fun t => isdir (path_join root t)) names.
Proof.
  intros Hroot Hnd Hls. unfold read_structure_to_dict. rewrite Hroot.
  rewrite topics_loop_distinct by assumption.
  eexists. split; [reflexivity|]. cbn [app].
  rewrite map_map. cbn [fst]. apply map_id.
Qed.

Lemma str_lookup_map (A : Type) (f : pystr -> A) (k : pystr)
    (l : list pystr) :
  In k l -> str_lookup k (map (fun t => (t, f t)) l) = Some (f k).
Proof.
  induction l as [|t l IH]; intros H; [contradiction|].
  cbn [map str_lookup]. destruct (str_eqb k t) eqn:E.
  - apply str_eqb_eq in E. now subst t.
  - apply str_eqb_neq in E. destruct H as [H|H]; [congruence|]. now apply IH.
Qed.

(** The scan and the lookup of one topic in its result. *)
Lemma scan_topic_lookup
    (listdir : pystr -> exn + list pystr) (isdir : pystr -> bool)
    (abspath : pystr -> pystr) (root : pystr) (names : list pystr)
    (t : pystr) (files : list pystr) :
  listdir root = inr names -> NoDup names ->
  (forall t, In t names -> isdir (path_join root t) = true ->
     exists files, listdir (path_join root t) = inr files) ->
  In t names -> isdir (path_join root t) = true ->
  listdir (path_join root t) = inr files -> NoDup files ->
  exists articles_dict,
    read_structure_to_dict listdir isdir abspath root = Ok articles_dict /\
    str_lookup t articles_dict =
    Some (map (fun f => (f, abspath (path_join (path_join root t) f)))
              files).
Proof.
  intros Hroot Hnd Hls Ht Hd Hf Hndf. unfold read_structure_to_dict.
  rewrite Hroot. rewrite topics_loop_distinct by assumption.
  eexists. split; [reflexivity|]. cbn [app].
  rewrite (str_lookup_map
             (fun t => topic_files_loop abspath (path_join root t)
                         (listing listdir (path_join root t)) [])).
  - unfold listing. rewrite Hf.
    now rewrite topic_files_loop_distinct.
  - apply filter_In. now split.
Qed.

(** X16. The file map of a topic holds every name of the topic's listing,
    in order, with the absolute path of that entry; an entry that is
    itself a directory is listed like a file and not descended into. *)
Theorem scan_topic_file_map
    (listdir : pystr -> exn + list pystr) (isdir : pystr -> bool)
    (abspath : pystr -> pystr) (root : pystr) (names : list pystr)
    (t : pystr) (files : list pystr) :
  listdir root = inr names -> NoDup names ->
  (forall t, In t names -> isdir (path_join root t) = true ->
     exists files, listdir (path_join root t) = inr files) ->
  In t names -> isdir (path_join root t) = true ->
  listdir (path_join root t) = inr files -> NoDup files ->
  exists articles_dict,
    read_structure_to_dict listdir isdir abspath root = Ok articles_dict /\
    str_lookup t articles_dict =
    Some (map (fun f => (f, abspath (path_join (path_join root t) f)))
              files).
Proof. apply scan_topic_lookup. Qed.

Lemma topics_loop_app (listdir : pystr -> exn + list pystr)
    (isdir : pystr -> bool) (abspath : pystr -> pystr)
    (root : pystr) (pre rest : list pystr)
    (acc : list (pystr * list (pystr * pystr))) :
  (forall t, In t pre -> isdir (path_join root t) = true ->
     exists files, listdir (path_join root t) = inr files) ->
  exists acc',
    topics_loop listdir isdir abspath root (pre ++ rest) acc =
    topics_loop listdir isdir abspath root rest acc'.
Proof.
  revert acc. induction pre as [|t pre IH]; intros acc Hls.
  - now exists acc.
  - cbn [app topics_loop]. destruct (isdir (path_join root t)) eqn:Hd.
    + destruct (Hls t (or_introl eq_refl) Hd) as [files ->].
      apply IH. intros t' Ht'. apply Hls. now right.
    + apply IH. intros t' Ht'. apply Hls. now right.
Qed.

(** X17. The scan handles no error: when the root cannot be listed, or a
    directory of the root cannot be listed (the directories before it
    having been listed), the exception of [os.listdir] is raised and no
    partial result is returned. *)
Theorem scan_listing_errors_propagate
    (listdir : pystr -> exn + list pystr) (isdir : pystr -> bool)
    (abspath : pystr -> pystr) (root : pystr) (e : exn) :
  (listdir root = inl e ->
   read_structure_to_dict listdir isdir abspath root = Raise e) /\
  (forall pre t rest,
     listdir root = inr (pre ++ t :: rest) ->
     (forall t', In t' pre -> isdir (path_join root t') = true ->
        exists files, listdir (path_join root t') = inr files) ->
     isdir (path_join root t) = true ->
     listdir (path_join root t) = inl e ->
     read_structure_to_dict listdir isdir abspath root = Raise e).
Proof.
  split.
  - intros H. unfold read_structure_to_dict. now rewrite H.
  - intros pre t rest Hroot Hpre Hd He. unfold read_structure_to_dict.
    rewrite Hroot.
    destruct (topics_loop_app listdir isdir abspath root pre (t :: rest) []
                Hpre) as [acc' ->].
    cbn [topics_loop]. now rewrite Hd, He.
Qed.

Lemma first_md_key_topic_file_map (abspath : pystr -> pystr)
    (topic_path : pystr) (files : list pystr) :
  first_md_key (topic_file_map abspath topic_path files)
  = find (endswith (lit ".md")) files.
Proof.
  unfold first_md_key, topic_file_map. rewrite map_map. cbn [fst].
  now rewrite map_id.
Qed.

(** X18. The scan composed with the assembler: for a topic of the scan,
    the assembler looks for the first name of the topic's listing that
    ends with [.md]; with no such name it returns [None] and opens
    nothing; otherwise the article of a returned record is the parsed
    content of that entry, read at its absolute path. *)
Theorem scanned_topic_is_assembled
    (parse : pystr -> pystr) (json_loads : pystr -> result pyval)
    (fs_read : pystr -> exn + pystr)
    (listdir : pystr -> exn + list pystr) (isdir : pystr -> bool)
    (abspath : pystr -> pystr) (root : pystr) (names : list pystr)
    (t : pystr) (files : list pystr) (w : world) :
  listdir root = inr names -> NoDup names ->
  (forall t, In t names -> isdir (path_join root t) = true ->
     exists files, listdir (path_join root t) = inr files) ->
  In t names -> isdir (path_join root t) = true ->
  listdir (path_join root t) = inr files -> NoDup files ->
  exists articles_dict d,
    read_structure_to_dict listdir isdir abspath root = Ok articles_dict /\
    str_lookup t articles_dict = Some d /\
    first_md_key d = find (endswith (lit ".md")) files /\
    (find (endswith (lit ".md")) files = None ->
     assemble_article_data parse json_loads fs_read (ArgDict d) w
       = (log_print NoMdFileFound w, Ok None)) /\
    (forall f c w' r,
       find (endswith (lit ".md")) files = Some f ->
       fs_read (abspath (path_join (path_join root t) f)) = inr c ->
       assemble_article_data parse json_loads fs_read (ArgDict d) w
         = (w', Ok (Some r)) ->
       article r = parse c).
Proof.
  intros Hroot Hnd Hls Ht Hd Hf Hndf.
  destruct (@scan_topic_lookup listdir isdir abspath root names t files
              Hroot Hnd Hls Ht Hd Hf Hndf) as (articles_dict & Hscan & Hlook).
  exists articles_dict. eexists. split; [exact Hscan|].
  split; [exact Hlook|].
  fold (topic_file_map abspath (path_join root t) files).
  split; [apply first_md_key_topic_file_map|]. split.
  - intros Hnone. apply assemble_no_md.
    now rewrite first_md_key_topic_file_map.
  - intros f c w' r Hfind Hc Hr.
    destruct (assemble_record_fields _ _ _ _ _ Hr)
      as (key & p & c' & Hk & Hp & Hc' & Ha & _).
    rewrite first_md_key_topic_file_map, Hfind in Hk. injection Hk as <-.
    unfold topic_file_map in Hp.
    rewrite (str_lookup_map
               (fun f => abspath (path_join (path_join root t) f))) in Hp.
    + injection Hp as <-. congruence.
    + now apply find_some in Hfind.
Qed.

(** *** Concrete runs of the scan *)

Ltac distinct_names :=
  repeat constructor; cbn; intros H;
  repeat (destruct H as [H|H]; [discriminate H|]); exact H.

Ltac demo_listable :=
  let t := fresh "t" in
  let H := fresh "H" in
  let Hd := fresh "Hd" in
  intros t H Hd;
  repeat (destruct H as [H|H];
          [subst t; (discriminate Hd || (eexists; reflexivity))|]);
  contradiction.

Example scan_demo_run :
  read_structure_to_dict listdir_demo isdir_demo abspath_demo (lit "/out") =
  Ok [(lit "topic_b",
       [(lit "url_to_info.json", lit "/out/topic_b/url_to_info.json")]);
      (lit "topic_a",
       [(lit "conversation_log.json",
         lit "/out/topic_a/conversation_log.json");
        (lit "storm_gen_article.md",
         lit "/out/topic_a/storm_gen_article.md");
        (lit "figures", lit "/out/topic_a/figures")])].
Proof. vm_compute. reflexivity. Qed.

Lemma scan_topics_are_the_directories_witness :
  exists articles_dict,
    read_structure_to_dict listdir_demo isdir_demo abspath_demo (lit "/out")
      = Ok articles_dict /\
    map fst articles_dict
      = filter (fun t => isdir_demo (path_join (lit "/out") t))
               [lit "topic_b"; lit "README.txt"; lit "topic_a"].
Proof.
  apply (@scan_topics_are_the_directories listdir_demo isdir_demo
           abspath_demo (lit "/out")
           [lit "topic_b"; lit "README.txt"; lit "topic_a"]).
  - reflexivity.
  - distinct_names.
  - demo_listable.
Defined.

Lemma scan_topic_file_map_witness :
  exists articles_dict,
    read_structure_to_dict listdir_demo isdir_demo abspath_demo (lit "/out")
      = Ok articles_dict /\
    str_lookup (lit "topic_a") articles_dict =
    Some (map (fun f => (f, abspath_demo
                              (path_join (path_join (lit "/out")
                                            (lit "topic_a")) f)))
              [lit "conversation_log.json"; lit "storm_gen_article.md";
               lit "figures"]).
Proof.
  apply (@scan_topic_file_map listdir_demo isdir_demo abspath_demo
           (lit "/out") [lit "topic_b"; lit "README.txt"; lit "topic_a"]
           (lit "topic_a")
           [lit "conversation_log.json"; lit "storm_gen_article.md";
            lit "figures"]).
  - reflexivity.
  - distinct_names.
  - demo_listable.
  - cbn. tauto.
  - reflexivity.
  - reflexivity.
  - distinct_names.
Defined.

Lemma scan_listing_errors_propagate_witness :
  read_structure_to_dict listdir_demo isdir_demo abspath_demo (lit "/nowhere")
    = Raise FileNotFoundError /\
  read_structure_to_dict
    (fun p => if str_eqb p (lit "/out/topic_a") then inl OSError
              else listdir_demo p)
    isdir_demo abspath_demo (lit "/out") = Raise OSError.
Proof.
  split.
  - apply (proj1 (@scan_listing_errors_propagate listdir_demo isdir_demo
                    abspath_demo (lit "/nowhere") FileNotFoundError)).
    reflexivity.
  - apply (proj2 (@scan_listing_errors_propagate
                    (fun p => if str_eqb p (lit "/out/topic_a")
                              then inl OSError else listdir_demo p)
                    isdir_demo abspath_demo (lit "/out") OSError)
             [lit "topic_b"; lit "README.txt"] (lit "topic_a") []).
    + reflexivity.
    + demo_listable.
    + reflexivity.
    + reflexivity.
Defined.

(* ===================================================================== *)
(** * Properties of the latest modification time *)
(* ===================================================================== *)

Section ModificationTimeProperties.

Variables T D : Type.
Variable getmtime : pystr -> exn + T.
Variable to_california : T -> exn + D.
Variable later : D -> D -> bool.

(** The comparison of datetimes is a strict order whose complement is
    transitive: nothing is later than itself, and what is not later than
    [b] is not later than anything later than [b]. *)
Hypothesis later_irrefl : forall a, later a a = false.
Hypothesis later_trans :
  forall a b c, later a b = false -> later c b = true -> later a c = false.

Lemma latest_loop_all_read (paths : list pystr) (times : list D)
    (seen : list D) (l : D) :
  Forall2 (fun p d => file_time getmtime to_california p = inr d)
          paths times ->
  In l seen -> (forall x, In x seen -> later x l = false) ->
  exists m,
    latest_loop getmtime to_california later paths (Some l) = Ok (Some m) /\
    In m (seen ++ times) /\
    forall x, In x (seen ++ times) -> later x m = false.
Proof.
  intros H. revert seen l.
  induction H as [|p t paths times Hp _ IH]; intros seen l Hin Hmax.
  - exists l. rewrite app_nil_r. now repeat split.
  - cbn [latest_loop]. rewrite Hp.
    destruct (later t l) eqn:E.
    + destruct (IH (seen ++ [t]) t) as (m & Hm & Hinm & Hall).
      * apply in_or_app. right. now left.
      * intros x Hx. apply in_app_or in Hx. destruct Hx as [Hx|[<-|[]]].
        -- apply later_trans with (b := l); [now apply Hmax | assumption].
        -- apply later_irrefl.
      * exists m. rewrite <- app_assoc in Hinm, Hall. now repeat split.
    + destruct (IH (seen ++ [t]) l) as (m & Hm & Hinm & Hall).
      * apply in_or_app. now left.
      * intros x Hx. apply in_app_or in Hx. destruct Hx as [Hx|[<-|[]]].
        -- now apply Hmax.
        -- assumption.
      * exists m. rewrite <- app_assoc in Hinm, Hall. now repeat split.
Qed.

Lemma latest_loop_error (pre : list pystr) (times : list D) (p : pystr)
    (rest : list pystr) (e : exn) (latest : option D) :
  Forall2 (fun p d => file_time getmtime to_california p = inr d)
          pre times ->
  file_time getmtime to_california p = inl e ->
  latest_loop getmtime to_california later (pre ++ p :: rest) latest
  = Raise e.
Proof.
  intros H He. revert latest.
  induction H as [|p' t pre times Hp _ IH]; intros latest.
  - cbn [app latest_loop]. now rewrite He.
  - cbn [app latest_loop]. rewrite Hp. apply IH.
Qed.

End ModificationTimeProperties.

(** X19. When the modification time of every file under [path] can be
    read and converted to a datetime of the zone (the list [times] holds
    these datetimes, file by file) and there is at least one file, the
    result is the formatted datetime of one of these files than which
    none is later; with no file under a directory it is the formatted
    current time. *)
Theorem latest_modification_time_is_latest
    (T D : Type) (isdir : pystr -> bool)
    (walk : pystr -> list (pystr * list pystr * list pystr))
    (getmtime : pystr -> exn + T) (to_california : T -> exn + D)
    (later : D -> D -> bool) (format : D -> pystr) (now : D)
    (path : pystr) :
  (forall a, later a a = false) ->
  (forall a b c, later a b = false -> later c b = true ->
     later a c = false) ->
  (file_paths isdir walk path = [] ->
   get_latest_modification_time isdir walk getmtime to_california later
     format now path = Ok (format now)) /\
  (forall times,
     Forall2 (fun p d =>
                exists t, getmtime p = inr t /\ to_california t = inr d)
             (file_paths isdir walk path) times ->
     times <> [] ->
     exists m,
       get_latest_modification_time isdir walk getmtime to_california
         later format now path = Ok (format m) /\
       In m times /\
       forall d, In d times -> later d m = false).
Proof.
  intros Hirr Htr. split.
  - intros H. unfold get_latest_modification_time. now rewrite H.
  - intros times H Hne. unfold get_latest_modification_time.
    assert (H' : Forall2
                   (fun p d => file_time getmtime to_california p = inr d)
                   (file_paths isdir walk path) times).
    { eapply Forall2_impl; [|exact H].
      intros p d (t & Ht & Hd). unfold file_time. now rewrite Ht. }
    clear H. destruct H' as [|p d paths times' Hp H]; [congruence|].
    cbn [latest_loop]. rewrite Hp.
    destruct (@latest_loop_all_read T D getmtime to_california later
                Hirr Htr paths times' [d] d H)
      as (m & Hm & Hin & Hall).
    + now left.
    + intros x [<-|[]]. apply Hirr.
    + rewrite Hm. exists m. split; [reflexivity|]. split; [exact Hin|].
      exact Hall.
Qed.

(** X20. The function handles no error. When the modification times of
    the files before [p] can be read and converted, and that of [p]
    cannot be read, or can be read and cannot be converted (a timestamp
    outside the years of [datetime]), the exception of that step is
    raised; in particular a path that is not a directory, such as a
    missing one, raises the exception of its own [os.path.getmtime]. *)
Theorem latest_modification_time_errors
    (T D : Type) (isdir : pystr -> bool)
    (walk : pystr -> list (pystr * list pystr * list pystr))
    (getmtime : pystr -> exn + T) (to_california : T -> exn + D)
    (later : D -> D -> bool) (format : D -> pystr) (now : D)
    (path : pystr) (e : exn) :
  (forall pre times p rest,
     file_paths isdir walk path = pre ++ p :: rest ->
     Forall2 (fun p d =>
                exists t, getmtime p = inr t /\ to_california t = inr d)
             pre times ->
     (getmtime p = inl e \/
      exists t, getmtime p = inr t /\ to_california t = inl e) ->
     get_latest_modification_time isdir walk getmtime to_california later
       format now path = Raise e) /\
  (isdir path = false -> getmtime path = inl e ->
   get_latest_modification_time isdir walk getmtime to_california later
     format now path = Raise e) /\
  (forall t, isdir path = false -> getmtime path = inr t ->
   to_california t = inl e ->
   get_latest_modification_time isdir walk getmtime to_california later
     format now path = Raise e).
Proof.
  split; [|split].
  - intros pre times p rest Hpaths Hpre He.
    unfold get_latest_modification_time. rewrite Hpaths.
    rewrite (@latest_loop_error T D getmtime to_california later pre
               times p rest e None); [reflexivity | |].
    + eapply Forall2_impl; [|exact Hpre].
      intros p' d (t & Ht & Hd). unfold file_time. now rewrite Ht.
    + unfold file_time. destruct He as [He|(t & Ht & He)].
      * now rewrite He.
      * now rewrite Ht.
  - intros Hd He. unfold get_latest_modification_time, file_paths.
    rewrite Hd. cbn [latest_loop]. unfold file_time. now rewrite He.
  - intros t Hd Ht He. unfold get_latest_modification_time, file_paths.
    rewrite Hd. cbn [latest_loop]. unfold file_time. now rewrite Ht, He.
Qed.

Example latest_modification_time_run :
  get_latest_modification_time isdir_demo walk_demo getmtime_demo
    to_california_demo Z.gtb str_of_int 0%Z (lit "/out/topic_a")
  = Ok (lit "1700000900").
Proof. vm_compute. reflexivity. Qed.

(** A file of the year 10000: its modification time is read, its
    conversion raises, and so does the function. *)
Example latest_modification_time_far_future_run :
  getmtime_demo (lit "/out/far_future.md") = inr 253402300800%Z /\
  get_latest_modification_time isdir_demo walk_demo getmtime_demo
    to_california_demo Z.gtb str_of_int 0%Z (lit "/out/far_future.md")
  = Raise ValueError.
Proof. split; vm_compute; reflexivity. Qed.

Lemma latest_modification_time_is_latest_witness :
  get_latest_modification_time isdir_demo walk_demo getmtime_demo
    to_california_demo Z.gtb str_of_int 0%Z (lit "/out/topic_b")
  = Ok (str_of_int 0%Z) /\
  (exists m,
     get_latest_modification_time isdir_demo walk_demo getmtime_demo
       to_california_demo Z.gtb str_of_int 0%Z (lit "/out/topic_a")
     = Ok (str_of_int m) /\
     In m [1700000300; 1700000900; 1700000900]%Z /\
     forall d, In d [1700000300; 1700000900; 1700000900]%Z ->
               Z.gtb d m = false).
Proof.
  assert (Hirr : forall a, Z.gtb a a = false)
    by (intros a; rewrite Z.gtb_ltb; apply Z.ltb_irrefl).
  assert (Htr : forall a b c, Z.gtb a b = false -> Z.gtb c b = true ->
                              Z.gtb a c = false)
    by (intros a b c; rewrite !Z.gtb_ltb, !Z.ltb_nlt, Z.ltb_lt; lia).
  split.
  - apply (proj1 (@latest_modification_time_is_latest Z Z isdir_demo
                    walk_demo getmtime_demo to_california_demo Z.gtb
                    str_of_int 0%Z (lit "/out/topic_b") Hirr Htr)).
    reflexivity.
  - apply (proj2 (@latest_modification_time_is_latest Z Z isdir_demo
                    walk_demo getmtime_demo to_california_demo Z.gtb
                    str_of_int 0%Z (lit "/out/topic_a") Hirr Htr)
             [1700000300; 1700000900; 1700000900]%Z).
    + repeat constructor; eexists; split; reflexivity.
    + discriminate.
Defined.

Lemma latest_modification_time_errors_witness :
  get_latest_modification_time isdir_demo walk_demo getmtime_demo
    to_california_demo Z.gtb str_of_int 0%Z (lit "/out/missing.md")
  = Raise FileNotFoundError /\
  get_latest_modification_time isdir_demo walk_demo getmtime_demo
    to_california_demo Z.gtb str_of_int 0%Z (lit "/out/far_future.md")
  = Raise ValueError.
Proof.
  split.
  - apply (proj1 (proj2 (@latest_modification_time_errors Z Z isdir_demo
                           walk_demo getmtime_demo to_california_demo Z.gtb
                           str_of_int 0%Z (lit "/out/missing.md")
                           FileNotFoundError)));
      reflexivity.
  - apply (proj2 (proj2 (@latest_modification_time_errors Z Z isdir_demo
                           walk_demo getmtime_demo to_california_demo Z.gtb
                           str_of_int 0%Z (lit "/out/far_future.md")
                           ValueError)) 253402300800%Z);
      reflexivity.
Defined.

(* ===================================================================== *)
(** * Properties of the image encoding *)
(* ===================================================================== *)

Lemma list_ind3 (A : Type) (P : list A -> Prop) :
  P [] -> (forall a, P [a]) -> (forall a b, P [a; b]) ->
  (forall a b c rest, P rest -> P (a :: b :: c :: rest)) ->
  forall l, P l.
Proof.
  intros H0 H1 H2 H3.
  refine (fix F (l : list A) : P l :=
            match l with
            | [] => H0
            | [a] => H1 a
            | [a; b] => H2 a b
            | a :: b :: c :: rest => H3 a b c rest (F rest)
            end).
Qed.

Lemma below_64 (P : N -> Prop) :
  Forall P (map N.of_nat (seq 0 64)) -> forall i, (i < 64)%N -> P i.
Proof.
  intros H i Hi. rewrite Forall_forall in H. apply H.
  rewrite <- (N2Nat.id i). apply in_map, in_seq. lia.
Qed.

Lemma b64_index_char (i : N) :
  (i < 64)%N -> b64_index (b64_char i) = Some i.
Proof.
  revert i. apply below_64. vm_compute. repeat constructor.
Qed.

Lemma b64_index_pad : b64_index b64_pad = None.
Proof. reflexivity. Qed.

Lemma b64_char_in_alphabet (i : N) :
  (i < 64)%N -> In (b64_char i) b64_alphabet.
Proof.
  intros Hi. unfold b64_char. apply nth_In.
  change (List.length b64_alphabet) with 64. lia.
Qed.

Ltac byte_bounds :=
  repeat match goal with
         | b : Byte.byte |- _ =>
             lazymatch goal with
             | H : (Byte.to_N b <= 255)%N |- _ => fail
             | _ => pose proof (Byte.to_N_bounded b)
             end
         end.

Ltac div_lia := zify; Z.to_euclidean_division_equations; lia.

Lemma byte_of_to_N (b : Byte.byte) (n : N) :
  n = Byte.to_N b -> byte_of n = b.
Proof. intros ->. unfold byte_of. now rewrite Byte.of_to_N. Qed.

(** Decoding what was encoded gives the bytes back. *)
Lemma b64decode_b64encode (data : list Byte.byte) :
  b64decode (b64encode data) = Some data.
Proof.
  induction data as [|a |a b |a b c rest IH] using list_ind3.
  - reflexivity.
  - byte_bounds. cbn [b64encode b64decode].
    rewrite !b64_index_char by div_lia. rewrite b64_index_pad.
    f_equal. f_equal. apply byte_of_to_N. div_lia.
  - byte_bounds. cbn [b64encode b64decode].
    rewrite !b64_index_char by div_lia. rewrite b64_index_pad.
    f_equal. f_equal; [|f_equal]; apply byte_of_to_N; div_lia.
  - byte_bounds. cbn [b64encode b64decode].
    rewrite !b64_index_char by div_lia. rewrite IH. cbn [option_map].
    f_equal. f_equal; [|f_equal; [|f_equal]]; apply byte_of_to_N; div_lia.
Qed.

Lemma b64encode_length (data : list Byte.byte) :
  List.length (b64encode data) = 4 * ((List.length data + 2) / 3).
Proof.
  induction data as [|a |a b |a b c rest IH] using list_ind3;
    try reflexivity.
  cbn [b64encode List.length]. rewrite IH.
  replace (S (S (S (List.length rest))) + 2)
    with (List.length rest + 2 + 1 * 3) by lia.
  rewrite Nat.div_add by lia. lia.
Qed.

Lemma b64encode_chars (data : list Byte.byte) :
  Forall (fun c => In c b64_alphabet \/ c = b64_pad) (b64encode data).
Proof.
  induction data as [|a |a b |a b c rest IH] using list_ind3;
    cbn [b64encode]; byte_bounds;
    repeat (apply Forall_cons;
            [first [ now right
                   | left; apply b64_char_in_alphabet; div_lia ] |]);
    (assumption || constructor).
Qed.

(** X21. The data URL of an image is the fixed prefix
    [data:image/png;base64,] followed by the Base64 encoding
    [b64encode data] of the bytes of the file: [4 * ceil(n / 3)]
    characters for [n] bytes, so [22 + 4 * ceil(n / 3)] with the
    prefix, all of them from the Base64 alphabet or the padding [=],
    and decoding them gives the bytes back; a file that cannot be read
    raises the exception of the read. *)
Theorem image_data_url_shape
    (read_bytes : pystr -> exn + list Byte.byte) (image_path : pystr) :
  (forall e, read_bytes image_path = inl e ->
     read_image_as_base64 read_bytes image_path = Raise e) /\
  (forall data, read_bytes image_path = inr data ->
     read_image_as_base64 read_bytes image_path
       = Ok (lit "data:image/png;base64," ++ b64encode data) /\
     List.length (b64encode data) = 4 * ((List.length data + 2) / 3) /\
     List.length (lit "data:image/png;base64," ++ b64encode data)
       = 22 + 4 * ((List.length data + 2) / 3) /\
     Forall (fun c => In c b64_alphabet \/ c = b64_pad) (b64encode data) /\
     b64decode (b64encode data) = Some data).
Proof.
  split.
  - intros e H. unfold read_image_as_base64. now rewrite H.
  - intros data H. unfold read_image_as_base64.
    rewrite H. split; [reflexivity|]. split; [|split; [|split]].
    + apply b64encode_length.
    + rewrite length_app, b64encode_length. reflexivity.
    + apply b64encode_chars.
    + apply b64decode_b64encode.
Qed.

(** X22. The data URL determines the image: two files that give the same
    data URL hold the same bytes. *)
Theorem image_data_url_injective
    (read_bytes : pystr -> exn + list Byte.byte) (p1 p2 : pystr)
    (d1 d2 : list Byte.byte) :
  read_bytes p1 = inr d1 -> read_bytes p2 = inr d2 ->
  read_image_as_base64 read_bytes p1 = read_image_as_base64 read_bytes p2 ->
  d1 = d2.
Proof.
  intros H1 H2. unfold read_image_as_base64. rewrite H1, H2.
  intros [= H].
  apply (f_equal b64decode) in H. rewrite !b64decode_b64encode in H.
  congruence.
Qed.

(* ===================================================================== *)
(** * Properties of the output directory *)
(* ===================================================================== *)

Lemma drop_while_app_stop (f : char -> bool) (a b : pystr) (c : char) :
  forallb f a = true -> f c = false ->
  drop_while f (a ++ c :: b) = c :: b.
Proof.
  intros Ha Hc. induction a as [|x a IH]; cbn [app drop_while].
  - now rewrite Hc.
  - cbn [forallb] in Ha. apply andb_true_iff in Ha. destruct Ha as [Hx Ha].
    rewrite Hx. now apply IH.
Qed.

Lemma forallb_rev (f : char -> bool) (s : pystr) :
  forallb f (rev s) = forallb f s.
Proof.
  induction s as [|c s IH]; [reflexivity|].
  cbn [rev forallb]. rewrite forallb_app, IH. cbn [forallb].
  rewrite andb_true_r. apply andb_comm.
Qed.

Lemma dirname_child_sep (base name : pystr) (last sep : char) :
  forallb (fun c => negb (is_slash c)) name = true ->
  is_slash last = false -> is_slash sep = true ->
  dirname ((base ++ [last]) ++ sep :: name) = base ++ [last].
Proof.
  intros Hname Hlast Hsep. unfold dirname.
  assert (E1 : rev ((base ++ [last]) ++ sep :: name)
               = rev name ++ sep :: last :: rev base).
  { rewrite rev_app_distr. cbn [rev]. rewrite rev_app_distr.
    cbn [rev app]. now rewrite <- app_assoc. }
  rewrite E1.
  rewrite drop_while_app_stop;
    [| now rewrite forallb_rev | now rewrite Hsep].
  assert (E2 : rev (sep :: last :: rev base) = (base ++ [last]) ++ [sep]).
  { cbn [rev]. now rewrite rev_involutive. }
  rewrite E2.
  assert (E3 : forallb is_slash ((base ++ [last]) ++ [sep]) = false).
  { rewrite !forallb_app. cbn [forallb]. rewrite Hlast. cbn [andb].
    now rewrite andb_false_r. }
  rewrite E3.
  assert (E4 : rev ((base ++ [last]) ++ [sep]) = sep :: last :: rev base).
  { now rewrite !rev_app_distr. }
  rewrite E4. cbn [drop_while]. rewrite Hsep, Hlast.
  cbn [rev]. now rewrite rev_involutive.
Qed.

(** The directory of [base/name], for a [name] without separator and a
    [base] that does not end with one. *)
Lemma dirname_child (base name : pystr) (last : char) :
  forallb (fun c => negb (is_slash c)) name = true ->
  is_slash last = false ->
  dirname ((base ++ [last]) ++ lit "/" ++ name) = base ++ [last].
Proof.
  intros Hname Hlast.
  now apply (@dirname_child_sep base name last 47%N).
Qed.

(** Joining a relative name to a directory that does not end with a
    separator puts one separator between them. *)
Lemma path_join_under (dir name : pystr) (last : char) :
  is_slash last = false -> startswith (lit "/") name = false ->
  path_join (dir ++ [last]) name = (dir ++ [last]) ++ lit "/" ++ name.
Proof.
  intros Hlast Hname. unfold path_join. rewrite Hname.
  assert (H1 : match dir ++ [last] with [] => true | _ :: _ => false end
               = false) by (now destruct dir).
  rewrite H1. unfold endswith. rewrite rev_app_distr.
  change (startswith (rev (lit "/")) (rev [last] ++ rev dir))
    with (N.eqb 47 last && true).
  rewrite N.eqb_sym. fold (is_slash last). now rewrite Hlast.
Qed.

(** The output directory is the value of [STREAMLIT_OUTPUT_DIR] as
    it is when the variable is set and not empty; an empty value counts
    as unset, and then the directory is [DEMO_WORKING_DIR] under the
    grandparent directory of the module file. In both cases the
    directory is created first, and a failure of the creation is
    raised. *)
Lemma output_dir_choice
    (getenv : option pystr) (module_path : pystr)
    (makedirs : pystr -> option exn) :
  let default :=
    path_join (dirname (dirname module_path)) (lit "DEMO_WORKING_DIR") in
  let chosen :=
    match getenv with
    | None => default
    | Some dir => if Nat.eqb (List.length dir) 0 then default else dir
    end in
  (makedirs chosen = None ->
   get_output_dir getenv module_path makedirs = Ok chosen) /\
  (forall e, makedirs chosen = Some e ->
     get_output_dir getenv module_path makedirs = Raise e).
Proof.
  unfold get_output_dir. destruct getenv as [[|c dir]|]; cbn;
    split; try (intros H; now rewrite H); intros e H; now rewrite H.
Qed.

(** X23. Without [STREAMLIT_OUTPUT_DIR], or with an empty value of it,
    and for a module file [base/package/file] ([package] and [file]
    without separator, [base] not ending with one), the output directory
    is [base/DEMO_WORKING_DIR], created before it is returned. *)
Theorem default_output_dir_location
    (getenv : option pystr) (base package file : pystr) (last : char)
    (makedirs : pystr -> option exn) :
  getenv = None \/ getenv = Some [] ->
  forallb (fun c => negb (is_slash c)) package = true ->
  forallb (fun c => negb (is_slash c)) file = true ->
  package <> [] -> is_slash last = false ->
  makedirs ((base ++ [last]) ++ lit "/DEMO_WORKING_DIR") = None ->
  get_output_dir getenv
    (((base ++ [last]) ++ lit "/" ++ package) ++ lit "/" ++ file) makedirs
  = Ok ((base ++ [last]) ++ lit "/DEMO_WORKING_DIR").
Proof.
  intros Henv Hp Hf Hne Hlast Hmk.
  assert (Hd : dirname (dirname (((base ++ [last]) ++ lit "/" ++ package)
                                 ++ lit "/" ++ file))
               = base ++ [last]).
  { destruct (exists_last Hne) as (package' & plast & ->).
    assert (Hpl : is_slash plast = false).
    { rewrite forallb_app in Hp. apply andb_true_iff in Hp.
      destruct Hp as [_ Hp]. cbn [forallb] in Hp.
      rewrite andb_true_r in Hp. now apply negb_true_iff in Hp. }
    replace ((base ++ [last]) ++ lit "/" ++ package' ++ [plast])
      with ((((base ++ [last]) ++ lit "/" ++ package') ++ [plast]))
      by (now rewrite <- !app_assoc).
    rewrite dirname_child by assumption.
    replace (((base ++ [last]) ++ lit "/" ++ package') ++ [plast])
      with ((base ++ [last]) ++ lit "/" ++ package' ++ [plast])
      by (now rewrite <- !app_assoc).
    now rewrite dirname_child. }
  assert (Hj : path_join (base ++ [last]) (lit "DEMO_WORKING_DIR")
               = (base ++ [last]) ++ lit "/DEMO_WORKING_DIR")
    by (now apply path_join_under).
  unfold get_output_dir.
  destruct Henv as [-> | ->]; rewrite Hd, Hj, Hmk; reflexivity.
Qed.

Example default_output_dir_run :
  get_output_dir (Some [])
    (lit "/app/frontend/storm_wiki/util/file_io.py") (fun _ => None)
  = Ok (lit "/app/frontend/storm_wiki/DEMO_WORKING_DIR").
Proof. vm_compute. reflexivity. Qed.

(* ===================================================================== *)
(** * Concrete runs for the further properties *)
(* ===================================================================== *)

Lemma short_text_without_headings_witness :
  short_text (mkArticle plain_text plain_text VNone None None)
  = firstn 100 (article (mkArticle plain_text plain_text VNone None None)).
Proof.
  apply (@short_text_without_headings parse_id (table_json []) fs_plain
           topic_article_only initial_world
           (mkWorld [lit "/out/t/storm_gen_article.md"] [])).
  - vm_compute. reflexivity.
  - vm_compute. reflexivity.
Defined.


Lemma malformed_url_to_info_gives_none_witness :
  citations_of (VList []) = Raise AttributeError /\
  snd (assemble_article_data parse_id json_demo
         (fs_full (lit "[]") (lit "[]")) (ArgDict topic_full)
         initial_world) = Ok None.
Proof.
  apply (@malformed_url_to_info_gives_none parse_id json_demo
           (fs_full (lit "[]") (lit "[]")) topic_full initial_world
           (lit "/out/t/url_to_info.json") (lit "[]") (VList [])).
  - reflexivity.
  - reflexivity.
  - reflexivity.
  - left. intros [fields H]. discriminate H.
Defined.

Lemma snippets_take_precedence_witness :
  exists c,
    build_citation (VStr (lit "https://a.example"))
      (VDict [(VStr (lit "snippets"), VList [VStr (lit "s1")]);
              (VStr (lit "snippet"), VStr (lit "x"))]) = Ok (VDict c) /\
    dict_lookup (VStr (lit "snippets")) c = Some (VList [VStr (lit "s1")]).
Proof.
  destruct (@snippets_take_precedence (VStr (lit "https://a.example"))
              [(VStr (lit "snippets"), VList [VStr (lit "s1")]);
               (VStr (lit "snippet"), VStr (lit "x"))])
    as (c & Hc & Hs & _).
  exists c. split; [exact Hc|]. apply Hs; reflexivity.
Defined.

Lemma boolean_agent_is_renamed_witness :
  exists fields',
    rename_agent (VDict [(VStr (lit "agent"), VBool true);
                         (VStr (lit "text"), VStr (lit "hi"))])
      = Ok (VDict fields') /\
    dict_lookup (VStr (lit "agent")) fields'
      = Some (VStr (lit "AI Assistant")) /\
    map fst fields' = [VStr (lit "agent"); VStr (lit "text")].
Proof.
  apply (@boolean_agent_is_renamed
           [(VStr (lit "agent"), VBool true);
            (VStr (lit "text"), VStr (lit "hi"))] true).
  reflexivity.
Defined.

Lemma log_not_iterable_gives_none_witness :
  rename_agents VNone = Raise (TypeError None) /\
  snd (assemble_article_data parse_id json_demo
         (fs_full (lit "{}") (lit "null")) (ArgDict topic_full)
         initial_world) = Ok None.
Proof.
  apply (@log_not_iterable_gives_none parse_id json_demo
           (fs_full (lit "{}") (lit "null")) topic_full initial_world
           (lit "/out/t/conversation_log.json") (lit "null") VNone);
    reflexivity.
Defined.

Lemma log_string_or_object_witness :
  rename_agents (VDict [(VStr (lit "agent"), VInt 1)])
    = Raise (TypeError None) /\
  snd (assemble_article_data parse_id json_demo
         (fs_full (lit "{}") (json_text "{'agent': 1}"))
         (ArgDict topic_full) initial_world) = Ok None.
Proof.
  apply (proj2 (proj2 (@log_string_or_object parse_id json_demo
                         (fs_full (lit "{}") (json_text "{'agent': 1}"))
                         topic_full initial_world
                         (lit "/out/t/conversation_log.json")
                         (json_text "{'agent': 1}")
                         eq_refl eq_refl))
           [(VStr (lit "agent"), VInt 1)]).
  - repeat constructor. now eexists.
  - reflexivity.
  - reflexivity.
Defined.

Lemma citations_subscript_witness :
  exists cs,
    citations_of (VDict url_to_info_value) = Ok (VDict cs) /\
    (forall k, (1 <= k <= Z.of_nat (List.length url_to_info_items))%Z ->
       exists url fields,
         nth_error url_to_info_items (Z.to_nat (k - 1))
           = Some (url, VDict fields) /\
         getitem (VDict cs) (VInt k) = Ok (citation_record url fields)) /\
    (forall k, (k < 1 \/ Z.of_nat (List.length url_to_info_items) < k)%Z ->
       getitem (VDict cs) (VInt k) = Raise (KeyError (VInt k))).
Proof.
  apply (@citations_subscript url_to_info_value url_to_info_items).
  - reflexivity.
  - repeat constructor; eexists; reflexivity.
Defined.

Lemma search_result_last_writer_wins_witness :
  let a := VStr (lit "https://a.example") in
  let b := VStr (lit "https://b.example") in
  let c := VStr (lit "https://c.example") in
  let infos :=
    [(a, VDict [(VStr (lit "title"), VStr (lit "A"));
                (VStr (lit "snippet"), VStr (lit "x"))]);
     (b, VDict [(VStr (lit "title"), VStr (lit "B"));
                (VStr (lit "snippet"), VStr (lit "y"))]);
     (c, VDict [(VStr (lit "title"), VStr (lit "C"));
                (VStr (lit "snippet"), VStr (lit "z"))])] in
  let items := [(a, VInt 1); (b, VInt 1); (c, VInt 2)] in
  exists citation_dict,
    _construct_citation_dict_from_search_result
      (VDict [(VStr (lit "url_to_unified_index"), VDict items);
              (VStr (lit "url_to_info"), VDict infos)])
      = Ok (VDict citation_dict) /\
    List.length citation_dict <= List.length items /\
    forall pre url i post,
      items = pre ++ (url, VInt i) :: post ->
      Forall (fun item => snd item <> VInt i) post ->
      dict_lookup (VInt i) citation_dict
        = Some (search_entry infos (url, VInt i)).
Proof.
  intros a b c infos items.
  apply (@search_result_last_writer_wins
           [(VStr (lit "url_to_unified_index"), VDict items);
            (VStr (lit "url_to_info"), VDict infos)]
           infos items).
  - reflexivity.
  - reflexivity.
  - repeat constructor; do 3 eexists; repeat split.
  - repeat constructor; eexists; reflexivity.
Defined.

Example search_result_same_index_run :
  let a := VStr (lit "https://a.example") in
  let b := VStr (lit "https://b.example") in
  let c := VStr (lit "https://c.example") in
  _construct_citation_dict_from_search_result
    (VDict [(VStr (lit "url_to_unified_index"),
             VDict [(a, VInt 1); (b, VInt 1); (c, VInt 2)]);
            (VStr (lit "url_to_info"),
             VDict [(a, VDict [(VStr (lit "title"), VStr (lit "A"));
                               (VStr (lit "snippet"), VStr (lit "x"))]);
                    (b, VDict [(VStr (lit "title"), VStr (lit "B"));
                               (VStr (lit "snippet"), VStr (lit "y"))]);
                    (c, VDict [(VStr (lit "title"), VStr (lit "C"));
                               (VStr (lit "snippet"), VStr (lit "z"))])])])
  = Ok (VDict [(VInt 1,
                VDict [(VStr (lit "url"), b);
                       (VStr (lit "title"), VStr (lit "B"));
                       (VStr (lit "snippets"), VList [VStr (lit "y")])]);
               (VInt 2,
                VDict [(VStr (lit "url"), c);
                       (VStr (lit "title"), VStr (lit "C"));
                       (VStr (lit "snippets"), VList [VStr (lit "z")])])]).
Proof. vm_compute. reflexivity. Qed.

Lemma scanned_topic_is_assembled_witness :
  exists articles_dict d,
    read_structure_to_dict listdir_demo isdir_demo abspath_demo (lit "/out")
      = Ok articles_dict /\
    str_lookup (lit "topic_a") articles_dict = Some d /\
    first_md_key d
      = find (endswith (lit ".md"))
             [lit "conversation_log.json"; lit "storm_gen_article.md";
              lit "figures"] /\
    (find (endswith (lit ".md"))
          [lit "conversation_log.json"; lit "storm_gen_article.md";
           lit "figures"] = None ->
     assemble_article_data parse_id json_demo fs_topic_a (ArgDict d)
       initial_world = (log_print NoMdFileFound initial_world, Ok None)) /\
    (forall f c w' r,
       find (endswith (lit ".md"))
            [lit "conversation_log.json"; lit "storm_gen_article.md";
             lit "figures"] = Some f ->
       fs_topic_a (abspath_demo
                     (path_join (path_join (lit "/out") (lit "topic_a")) f))
         = inr c ->
       assemble_article_data parse_id json_demo fs_topic_a (ArgDict d)
         initial_world = (w', Ok (Some r)) ->
       article r = parse_id c).
Proof.
  apply (@scanned_topic_is_assembled parse_id json_demo fs_topic_a
           listdir_demo isdir_demo abspath_demo (lit "/out")
           [lit "topic_b"; lit "README.txt"; lit "topic_a"]
           (lit "topic_a")
           [lit "conversation_log.json"; lit "storm_gen_article.md";
            lit "figures"] initial_world).
  - reflexivity.
  - distinct_names.
  - demo_listable.
  - cbn. tauto.
  - reflexivity.
  - reflexivity.
  - distinct_names.
Defined.

Example scanned_topic_run :
  snd (assemble_article_data parse_id json_demo fs_topic_a
         (ArgDict [(lit "conversation_log.json",
                    lit "/out/topic_a/conversation_log.json");
                   (lit "storm_gen_article.md",
                    lit "/out/topic_a/storm_gen_article.md");
                   (lit "figures", lit "/out/topic_a/figures")])
         initial_world)
  = Ok (Some (mkArticle article_text
                (lit "Body of the article.
More text #1.
") VNone None (Some (VList [])))).
Proof. vm_compute. reflexivity. Qed.

Example b64encode_vectors :
  b64encode [] = [] /\
  b64encode [Byte.x4d] = lit "TQ==" /\
  b64encode [Byte.x4d; Byte.x61] = lit "TWE=" /\
  b64encode [Byte.x4d; Byte.x61; Byte.x6e] = lit "TWFu" /\
  b64encode [Byte.xff; Byte.xfe; Byte.xfd; Byte.x00] = lit "//79AA==".
Proof. vm_compute. repeat split. Qed.

Lemma image_data_url_injective_witness :
  [Byte.x4d; Byte.x61] = [Byte.x4d; Byte.x61].
Proof.
  apply (@image_data_url_injective read_bytes_demo (lit "a.png")
           (lit "b.png") [Byte.x4d; Byte.x61] [Byte.x4d; Byte.x61]);
    reflexivity.
Defined.

Lemma default_output_dir_location_witness :
  get_output_dir None (lit "/app/frontend/storm_wiki/util/file_io.py")
    (fun _ => None)
  = Ok (lit "/app/frontend/storm_wiki/DEMO_WORKING_DIR").
Proof.
  apply (@default_output_dir_location None (lit "/app/frontend/storm_wik")
           (lit "util") (lit "file_io.py") 105%N (fun _ => None));
    first [ now left | reflexivity | discriminate ].
Defined.
